(** * Self-serve code review tool: rule engine, orchestrator, scoring, reports

  A shallow embedding of the JavaScript sources

  - [lib/rule-engine.js]      (class RuleEngine; stored in src/lib/report-generator.js),
  - [lib/config-manager.js]   (class ConfigManager),
  - [lib/analyzer-base.js]    (class AnalyzerBase),
  - [lib/index.js]            (class CodeReviewTool, as in src/lib/index.js),
  - the other revision of [lib/index.js], kept in src/unnamed/part_001
    (calculateWeightedTestScore, mode-dependent generateReports),
  - [bin/cli.js]              (the option handling of the analyze command),
  - [lib/report-generator.js] (class ReportGenerator: summary, colours and
    recommendations),
  - the arithmetic of [calculateScore] and [calculateWeightedCoverage] once
    more, on IEEE doubles,

  followed by the properties of the specification that were checked
  against them, and by further properties of the same code: validity of
  rule sets under the mutation operations, merging of configurations,
  what the score reads and how far it can go, report generation, the
  coverage weighting and the custom-rules scan.

  Conventions.  JavaScript numbers have two models.  [Js.number] is the
  exact rationals extended with NaN: it serves for bounds, orderings and
  the structure of the computations, which do not depend on rounding
  errors.  [Double] is IEEE 754 binary64, on the primitive floats of the
  system: it serves where a theorem states the very value the program
  returns after arithmetic that rounds (the overall score, the weighted
  coverage).  Strings are byte strings.  A JavaScript object used as a dictionary is a
  [gmap string _]; an object whose key order is observable is an association
  list.  A thrown exception is a value of a sum type. *)

From Stdlib Require Import QArith Qround Qminmax Lqa ZArith Lia String Ascii List Bool.
From Stdlib Require PrimFloat FloatOps SpecFloat.
From stdpp Require Import gmap strings list fin_maps.

(* ===================================================================== *)
(** * JavaScript primitives used by the sources *)
(* ===================================================================== *)

Module Js.

(** ** Numbers *)

Inductive number : Type :=
| Num (q : Q)
| NaN.

(** Equality of numbers up to the representation of a rational.
    (NaN is related to itself here: the relation compares models of
    values, it is not the [===] of the language.) *)
Definition num_eq (a b : number) : Prop :=
  match a, b with
  | Num x, Num y => (x == y)%Q
  | NaN, NaN => True
  | _, _ => False
  end.

Definition lift2 (f : Q -> Q -> Q) (a b : number) : number :=
  match a, b with
  | Num x, Num y => Num (f x y)
  | _, _ => NaN
  end.

Definition add := lift2 Qplus.
Definition sub := lift2 Qminus.
Definition mul := lift2 Qmult.

(** [a / b] for a divisor that is a non-zero constant in every use the
    sources make of it; [0 / 0] is NaN, [x / 0] would be an infinity,
    which no modelled path produces, so it is NaN here as well. *)
Definition div (a b : number) : number :=
  match a, b with
  | Num x, Num y => if Qeq_bool y 0 then NaN else Num (x / y)
  | _, _ => NaN
  end.

(** [Math.max] and [Math.min] answer NaN as soon as one argument is NaN. *)
Definition Math_max := lift2 Qmax.
Definition Math_min := lift2 Qmin.

(** [Math.round]: the nearest integer, ties towards plus infinity. *)
Definition round_half_up (q : Q) : Z := Qfloor (q + (1 # 2)).

Definition Math_round (a : number) : number :=
  match a with
  | Num x => Num (inject_Z (round_half_up x))
  | NaN => NaN
  end.

(** [a >= b]: false when an operand is NaN. *)
Definition geb (a b : number) : bool :=
  match a, b with
  | Num x, Num y => Qle_bool y x
  | _, _ => false
  end.

(** [a > b]. *)
Definition gtb (a b : number) : bool :=
  match a, b with
  | Num x, Num y => negb (Qle_bool x y)
  | _, _ => false
  end.

(** Truthiness of a number: [0] and NaN are falsy. *)
Definition truthy_num (a : number) : bool :=
  match a with
  | Num x => negb (Qeq_bool x 0)
  | NaN => false
  end.

Definition of_nat (n : nat) : number := Num (inject_Z (Z.of_nat n)).

Definition is_integer (a : number) : Prop :=
  exists z : Z, num_eq a (Num (inject_Z z)).

(** ** Strings *)

(** Truthiness of a string-valued property that may be missing. *)
Definition truthy_str (s : option string) : bool :=
  match s with
  | Some EmptyString | None => false
  | Some _ => true
  end.

(** [hay.includes(needle)] *)
Fixpoint includes (hay needle : string) : bool :=
  String.prefix needle hay ||
  match hay with
  | EmptyString => false
  | String _ rest => includes rest needle
  end.

(** [s.replace(/\*\*/g, rep)]: every non-overlapping occurrence of two
    stars, scanning from the left. *)
Fixpoint replace_star_star (rep s : string) : string :=
  match s with
  | String "*" (String "*" rest) => rep +:+ replace_star_star rep rest
  | String c rest => String c (replace_star_star rep rest)
  | EmptyString => EmptyString
  end.

(** [s.replace(/c/g, rep)] for a one-character pattern [c]. *)
Fixpoint replace_char (c : ascii) (rep s : string) : string :=
  match s with
  | String d rest =>
      if Ascii.eqb c d then rep +:+ replace_char c rep rest
      else String d (replace_char c rep rest)
  | EmptyString => EmptyString
  end.

(** [path.basename(p)] of the POSIX flavour: trailing separators are
    dropped, then the part after the last separator is kept. *)
Fixpoint drop_slashes (cs : list ascii) : list ascii :=
  match cs with
  | "/"%char :: rest => drop_slashes rest
  | _ => cs
  end.

Fixpoint take_segment (cs : list ascii) : list ascii :=
  match cs with
  | [] => []
  | c :: rest => if Ascii.eqb c "/" then [] else c :: take_segment rest
  end.

Definition basename (p : string) : string :=
  string_of_list_ascii
    (rev (take_segment (drop_slashes (rev (list_ascii_of_string p))))).

(** Number of occurrences of a character, for [split(c).length - 1]. *)
Fixpoint count_char (c : ascii) (s : string) : nat :=
  match s with
  | EmptyString => 0
  | String d rest => (if Ascii.eqb c d then 1 else 0) + count_char c rest
  end.

(** [s.substring(0, n)] *)
Fixpoint substring_to (n : nat) (s : string) : string :=
  match n, s with
  | S k, String c rest => String c (substring_to k rest)
  | _, _ => EmptyString
  end.

(** [s.split(sep)] for a one-character separator. *)
Fixpoint split_on (sep : ascii) (s : string) : list string :=
  match s with
  | EmptyString => [EmptyString]
  | String c rest =>
      if Ascii.eqb c sep then EmptyString :: split_on sep rest
      else
        match split_on sep rest with
        | first :: others => String c first :: others
        | [] => [String c EmptyString]
        end
  end.

Definition is_space (c : ascii) : bool :=
  let n := nat_of_ascii c in
  ((9 <=? n)%nat && (n <=? 13)%nat) || (n =? 32)%nat.

Fixpoint drop_spaces (cs : list ascii) : list ascii :=
  match cs with
  | c :: rest => if is_space c then drop_spaces rest else cs
  | [] => []
  end.

(** [s.trim()] on ASCII white space. *)
Definition trim (s : string) : string :=
  string_of_list_ascii
    (rev (drop_spaces (rev (drop_spaces (list_ascii_of_string s))))).

End Js.

(* ===================================================================== *)
(** * The fragment of [RegExp] that glob patterns produce *)
(* ===================================================================== *)

Module Regexp.

(** The regular expressions built by [RuleEngine.getRulesForFile] consist of
    literal characters, [.] and the two starred classes [.*] and [[^/]*].
    [compile] accepts exactly these sources and answers [None] on any other
    metacharacter, so nothing is claimed outside the fragment. *)

Inductive cls : Type :=
| Lit (c : ascii)
| Dot
| NotSlash.

Inductive atom : Type :=
| One (k : cls)
| Many (k : cls).

Definition is_meta (c : ascii) : bool :=
  existsb (Ascii.eqb c)
    (list_ascii_of_string "\^$.|?*+()[]{}").

Definition is_printable (c : ascii) : bool :=
  let n := nat_of_ascii c in (32 <=? n)%nat && (n <=? 126)%nat.

Definition plain (c : ascii) : bool := is_printable c && negb (is_meta c).

Fixpoint compile (src : string) : option (list atom) :=
  match src with
  | EmptyString => Some []
  | String "[" (String "^" (String "/" (String "]" (String "*" rest)))) =>
      cons (Many NotSlash) <$> compile rest
  | String "." (String "*" rest) => cons (Many Dot) <$> compile rest
  | String "." rest => cons (One Dot) <$> compile rest
  | String c rest =>
      if plain c then cons (One (Lit c)) <$> compile rest else None
  end.

(** [.] matches every character but a line terminator. *)
Definition line_terminator (c : ascii) : bool :=
  Ascii.eqb c "010" || Ascii.eqb c "013".

Definition cls_matches (k : cls) (c : ascii) : bool :=
  match k with
  | Lit d => Ascii.eqb c d
  | Dot => negb (line_terminator c)
  | NotSlash => negb (Ascii.eqb c "/")
  end.

(** Does the expression match a prefix of [s]? *)
Fixpoint match_here (re : list atom) (s : string) : bool :=
  match re with
  | [] => true
  | One k :: re' =>
      match s with
      | String c s' => cls_matches k c && match_here re' s'
      | EmptyString => false
      end
  | Many k :: re' =>
      (fix star (s : string) : bool :=
         match_here re' s ||
         match s with
         | String c s' => cls_matches k c && star s'
         | EmptyString => false
         end) s
  end.

(** An expression without anchors matches anywhere in the subject. *)
Fixpoint search (re : list atom) (s : string) : bool :=
  match_here re s ||
  match s with
  | EmptyString => false
  | String _ s' => search re s'
  end.

Definition ascii_only (s : string) : bool :=
  forallb (fun c => (nat_of_ascii c <? 128)%nat) (list_ascii_of_string s).

(** [new RegExp(src).test(subject)] on the fragment. *)
Definition test (src subject : string) : option bool :=
  if ascii_only subject then
    re ← compile src; Some (search re subject)
  else None.

End Regexp.

(* ===================================================================== *)
(** * lib/rule-engine.js *)
(* ===================================================================== *)

Module RuleEngine.

Record Example : Type := { bad : option string; good : option string }.

(** A rule as configured.  A property that is absent is [None]; [files],
    when present, is an array of glob patterns. *)
Record Rule : Type := {
  id : option string;
  category : option string;
  severity : option string;
  description : option string;
  pattern : option string;
  suggestion : option string;
  files : option (list string);
  example : option Example
}.

Inductive ValidationError : Type :=
| MissingRequiredField (index : nat) (field : string)
| InvalidSeverity (rule_id : option string) (given : string)
| InvalidRegexPattern (rule_id : option string)
| DuplicateRuleID (rule_id : string).

Inductive ValidationWarning : Type :=
| ExampleNeedsBadAndGood (rule_id : option string)
| ConsiderAddingExample (rule_id : option string).

(** The [Error]s thrown by the mutation operations. *)
Inductive RuleError : Type :=
| InvalidRule (errors : list ValidationError)
| AlreadyExists (rule_id : option string)
| NotFound (rule_id : string)
| InvalidRuleUpdate (errors : list ValidationError).

#[export] Instance Example_eq_dec : EqDecision Example.
Proof. solve_decision. Defined.
#[export] Instance Rule_eq_dec : EqDecision Rule.
Proof. solve_decision. Defined.

Definition requiredFields : list (string * (Rule -> option string)) :=
  [ ("id", id); ("category", category); ("severity", severity);
    ("description", description); ("pattern", pattern);
    ("suggestion", suggestion) ].

Definition validSeverities : list string :=
  [ "CRITICAL"; "ERROR"; "WARNING"; "INFO" ].

Section Validation.

(** [new RegExp(source)] returns normally. *)
Variable regexp_compiles : string -> bool.

Definition validateRule (rule : Rule) (index : nat)
  : list ValidationError * list ValidationWarning :=
  let missing :=
    flat_map (fun '(name, get) =>
                if Js.truthy_str (get rule) then []
                else [MissingRequiredField index name]) requiredFields in
  let bad_severity :=
    match severity rule with
    | Some s =>
        if Js.truthy_str (Some s) && negb (bool_decide (s ∈ validSeverities))
        then [InvalidSeverity (id rule) s] else []
    | None => []
    end in
  let bad_pattern :=
    match pattern rule with
    | Some p =>
        if Js.truthy_str (Some p) && negb (regexp_compiles p)
        then [InvalidRegexPattern (id rule)] else []
    | None => []
    end in
  (* [rule.files && !Array.isArray(rule.files)] cannot hold: [files] is an
     array by its type. *)
  let warnings :=
    match example rule with
    | Some e =>
        if negb (Js.truthy_str (bad e)) || negb (Js.truthy_str (good e))
        then [ExampleNeedsBadAndGood (id rule)] else []
    | None => [ConsiderAddingExample (id rule)]
    end in
  (missing ++ bad_severity ++ bad_pattern, warnings).

(** The per-rule loop of [validateRules]; [seen] is the [Set] of ids. *)
Fixpoint validateRules_from (index : nat) (seen : gset string)
    (rules : list Rule) : list ValidationError :=
  match rules with
  | [] => []
  | rule :: rest =>
      let errs := fst (validateRule rule index) in
      match id rule with
      | Some i =>
          if Js.truthy_str (Some i) then
            if bool_decide (i ∈ seen)
            then errs ++ DuplicateRuleID i :: validateRules_from (S index) seen rest
            else errs ++ validateRules_from (S index) ({[i]} ∪ seen) rest
          else errs ++ validateRules_from (S index) seen rest
      | None => errs ++ validateRules_from (S index) seen rest
      end
  end.

Definition validateRules_errors (rules : list Rule) : list ValidationError :=
  validateRules_from 0 ∅ rules.

Definition validateRules_valid (rules : list Rule) : bool :=
  bool_decide (length (validateRules_errors rules) = 0).

(** [findIndex(rule => rule.id === ruleId)] *)
Fixpoint findIndex (ruleId : string) (rules : list Rule) : option nat :=
  match rules with
  | [] => None
  | rule :: rest =>
      if bool_decide (id rule = Some ruleId) then Some 0
      else S <$> findIndex ruleId rest
  end.

Definition addRule (rules : list Rule) (rule : Rule)
  : RuleError + list Rule :=
  let validation := validateRule rule (length rules) in
  if negb (Nat.eqb (length (fst validation)) 0) then
    inl (InvalidRule (fst validation))
  else if existsb (fun existingRule =>
                     bool_decide (id existingRule = id rule)) rules then
    inl (AlreadyExists (id rule))
  else inr (rules ++ [rule]).

Definition removeRule (rules : list Rule) (ruleId : string)
  : RuleError + list Rule :=
  match findIndex ruleId rules with
  | None => inl (NotFound ruleId)
  | Some index => inr (take index rules ++ drop (S index) rules)
  end.

(** [{ ...rule, ...updates }]: a property present in [updates] wins. *)
Definition spread (rule updates : Rule) : Rule :=
  let pick {A} (get : Rule -> option A) : option A :=
    match get updates with
    | Some v => Some v
    | None => get rule
    end in
  {| id := pick id; category := pick category; severity := pick severity;
     description := pick description; pattern := pick pattern;
     suggestion := pick suggestion; files := pick files;
     example := pick example |}.

Definition updateRule (rules : list Rule) (ruleId : string) (updates : Rule)
  : RuleError + list Rule :=
  match findIndex ruleId rules with
  | None => inl (NotFound ruleId)
  | Some index =>
      match rules !! index with
      | None => inl (NotFound ruleId)
      | Some current =>
          let updatedRule := spread current updates in
          let validation := validateRule updatedRule index in
          if negb (Nat.eqb (length (fst validation)) 0) then
            inl (InvalidRuleUpdate (fst validation))
          else inr (<[index := updatedRule]> rules)
      end
  end.

End Validation.

(** The three chained [replace] calls of [getRulesForFile]. *)
Definition glob_to_regex (pattern : string) : string :=
  Js.replace_char "?" "."
    (Js.replace_char "*" "[^/]*"
       (Js.replace_star_star ".*" pattern)).

(** [rule.files.some(pattern => new RegExp(...).test(filePath))]; [some]
    stops at the first pattern that matches. *)
Fixpoint some_pattern (patterns : list string) (filePath : string)
  : option bool :=
  match patterns with
  | [] => Some false
  | pattern :: rest =>
      match Regexp.test (glob_to_regex pattern) filePath with
      | None => None
      | Some true => Some true
      | Some false => some_pattern rest filePath
      end
  end.

Definition rule_applies (rule : Rule) (filePath : string) : option bool :=
  match files rule with
  | None | Some [] => Some true
  | Some patterns => some_pattern patterns filePath
  end.

(** [this.rules.filter(rule => ...)]; [None] when a pattern of some rule
    leaves the modelled fragment of regular expressions. *)
Fixpoint getRulesForFile (rules : list Rule) (filePath : string)
  : option (list Rule) :=
  match rules with
  | [] => Some []
  | rule :: rest =>
      keep ← rule_applies rule filePath;
      kept ← getRulesForFile rest filePath;
      Some (if keep : bool then rule :: kept else kept)
  end.

(** The translation as the specification words it: in one pass over the
    pattern, [**] becomes "any sequence", [*] "any sequence without a
    separator", [?] "one character". *)
Fixpoint spec_glob_to_regex (pattern : string) : string :=
  match pattern with
  | String "*" (String "*" rest) => ".*" +:+ spec_glob_to_regex rest
  | String "*" rest => "[^/]*" +:+ spec_glob_to_regex rest
  | String "?" rest => "." +:+ spec_glob_to_regex rest
  | String c rest => String c (spec_glob_to_regex rest)
  | EmptyString => EmptyString
  end.

Definition spec_pattern_matches (pattern filePath : string) : option bool :=
  Regexp.test (spec_glob_to_regex pattern) filePath.

End RuleEngine.

(* ===================================================================== *)
(** * lib/config-manager.js *)
(* ===================================================================== *)

Module ConfigManager.

(** The keys of a configuration object that the orchestrator and the report
    selection read.  [None] is an absent (or null) key. *)
Record Config : Type := {
  extends : option string;
  analyzers : option (list string);
  reporters : option (list string)
}.

Definition getDefaultConfig : Config :=
  {| extends := None;
     analyzers := Some [ "eslint"; "typescript"; "security"; "tests";
                         "complexity"; "bug-detection"; "test-cases" ];
     reporters := Some [ "html" ] |}.

(** [[...new Set(xs)]]: the first occurrence of every element, in order. *)
Fixpoint unique_from (seen xs : list string) : list string :=
  match xs with
  | [] => []
  | x :: rest =>
      if bool_decide (x ∈ seen) then unique_from seen rest
      else x :: unique_from (x :: seen) rest
  end.

Definition unique (xs : list string) : list string := unique_from [] xs.

(** [mergeConfigs] on an array-valued key other than [rules]. *)
Definition merge_array (base override : option (list string))
  : option (list string) :=
  match override with
  | None => base
  | Some o => Some (unique (default [] base ++ o))
  end.

(** [mergeConfigs] on a primitive key: the override wins when present. *)
Definition merge_primitive {A} (base override : option A) : option A :=
  match override with
  | None => base
  | Some o => Some o
  end.

Definition mergeConfigs (base override : Config) : Config :=
  {| extends := merge_primitive (extends base) (extends override);
     analyzers := merge_array (analyzers base) (analyzers override);
     reporters := merge_array (reporters base) (reporters override) |}.


Definition getEnabledAnalyzers (config : Config) : list string :=
  default [ "eslint"; "typescript"; "security"; "tests" ] (analyzers config).

Definition getEnabledReporters (config : Config) : list string :=
  default [ "html"; "json" ] (reporters config).


End ConfigManager.

(* ===================================================================== *)
(** * The records the analyzers return *)
(* ===================================================================== *)

Module Findings.

(** [{ success, ... }] of a dependency sub-check. *)
Record SubResult : Type := { sub_success : bool }.

(** An entry of an issue array; only the length of such arrays is read. *)
Record Issue : Type := { issue_file : string; issue_text : string }.

Inductive Quality : Type := GOOD | FAIR | POOR | ERROR.

Record TestQuality : Type := { quality_file : string; quality : Quality }.

(** [coverage.statements] is a percentage in the findings of
    [checkTestCases] and of the newer [checkCoverage], and a summary record
    [{ pct, ... }] where the coverage summary is stored as it was read. *)
Inductive Statements : Type :=
| StatementsNum (q : Q)
| StatementsSummary (pct : option Q).

Record CoverageSummary : Type := { statements : option Statements }.

(** [coverage] is a bare percentage in the findings of [checkTests]. *)
Inductive Coverage : Type :=
| CoverageNum (q : Q)
| CoverageObj (c : CoverageSummary).

Record WeightedPart : Type := {
  part_coverage : Q;
  part_files : nat;
  part_weight : Q;
  part_points : Q
}.

Record WeightedCoverage : Type := {
  weightedScore : option Q;
  coreLogicCoverage : Q;
  infrastructureCoverage : Q;
  coreLogicFiles : nat;
  infrastructureFiles : nat;
  breakdown_coreLogic : WeightedPart;
  breakdown_infrastructure : WeightedPart
}.

(** The properties [calculateWeightedTestScore] reads from its argument. *)
Record TestScoreInput : Type := {
  ts_weightedCoverage : option WeightedCoverage;
  ts_coverage : option Coverage
}.

Record Violation : Type := {
  v_file : string;
  v_line : nat;
  v_rule : option string;
  v_severity : option string;
  v_message : option string;
  v_suggestion : option string;
  v_matchedText : string
}.

(** A finding is a duck-typed record: every analyzer fills the properties
    it owns, the scoring functions probe the ones they know.  [None] is an
    absent property. *)
Record Finding : Type := {
  success : option bool;
  error : option string;
  errors : option nat;
  warnings : option nat;
  vulnerabilities : option nat;
  violations : option nat;
  details : option (list Violation);
  coverage : option Coverage;
  score : option Q;
  circularDependencies : option SubResult;
  outdatedPackages : option SubResult;
  securityVulnerabilities : option SubResult;
  performanceIssues : option (list Issue);
  antiPatterns : option (list Issue);
  bugs : option (list Issue);
  potentialIssues : option (list Issue);
  securityRisks : option (list Issue);
  missingTests : option (list Issue);
  testQuality : option (list TestQuality);
  weightedCoverage : option WeightedCoverage;
  testCases : option TestScoreInput
}.

Definition emptyFinding : Finding :=
  {| success := None; error := None; errors := None; warnings := None;
     vulnerabilities := None; violations := None; details := None;
     coverage := None; score := None; circularDependencies := None;
     outdatedPackages := None; securityVulnerabilities := None;
     performanceIssues := None; antiPatterns := None; bugs := None;
     potentialIssues := None; securityRisks := None; missingTests := None;
     testQuality := None; weightedCoverage := None; testCases := None |}.

(** [{ success: false, error: message }] *)
Definition failureRecord (message : string) : Finding :=
  {| success := Some false; error := Some message; errors := None;
     warnings := None; vulnerabilities := None; violations := None;
     details := None; coverage := None; score := None;
     circularDependencies := None; outdatedPackages := None;
     securityVulnerabilities := None; performanceIssues := None;
     antiPatterns := None; bugs := None; potentialIssues := None;
     securityRisks := None; missingTests := None; testQuality := None;
     weightedCoverage := None; testCases := None |}.

(** What an analyzer call does: it returns a finding or it throws an
    [Error] carrying a message. *)
Inductive Outcome : Type :=
| Returns (f : Finding)
| Throws (message : string).

End Findings.

(* ===================================================================== *)
(** * lib/analyzer-base.js *)
(* ===================================================================== *)

Module AnalyzerBase.

Import Findings.

Local Open Scope Q_scope.

(** One entry of coverage-summary.json: [fileCoverage.statements?.pct]. *)
Record FileCoverage : Type := { statements_pct : option Q }.

(** [fileCoverage.statements?.pct || 0] *)
Definition statements_or_zero (fileCoverage : FileCoverage) : Q :=
  match statements_pct fileCoverage with
  | Some q => if Qeq_bool q 0 then 0 else q
  | None => 0
  end.

Definition isCoreLogicFile (filePath : string) : bool :=
  let fileName := Js.basename filePath in
  if Js.includes fileName "controller" || Js.includes fileName "service"
  then true
  else if Js.includes fileName "util" || Js.includes fileName "helper"
  then true
  else if Js.includes fileName "config" || Js.includes fileName "constant"
  then true
  else if Js.includes fileName "validation"
  then true
  else if Js.includes fileName "route" || Js.includes fileName "middleware"
  then false
  else true.

(** The four accumulators of [calculateWeightedCoverage]. *)
Record Totals : Type := {
  coreLogicSum : Q;
  infrastructureSum : Q;
  coreLogicCount : nat;
  infrastructureCount : nat
}.

Definition accumulate (acc : Totals) (entry : string * FileCoverage)
  : Totals :=
  let '(filePath, fileCoverage) := entry in
  if String.eqb filePath "total" then acc
  else
    let statements := statements_or_zero fileCoverage in
    if isCoreLogicFile filePath then
      {| coreLogicSum := coreLogicSum acc + statements;
         infrastructureSum := infrastructureSum acc;
         coreLogicCount := S (coreLogicCount acc);
         infrastructureCount := infrastructureCount acc |}
    else
      {| coreLogicSum := coreLogicSum acc;
         infrastructureSum := infrastructureSum acc + statements;
         coreLogicCount := coreLogicCount acc;
         infrastructureCount := S (infrastructureCount acc) |}.

Definition average (sum : Q) (count : nat) : Q :=
  if (0 <? count)%nat then sum / inject_Z (Z.of_nat count) else 0.

(** [Math.round(x * 100) / 100] *)
Definition round2 (x : Q) : Q :=
  inject_Z (Js.round_half_up (x * 100)) / 100.

(** [Math.round(x * k * 10) / 100], the "points" of a class. *)
Definition points (x k : Q) : Q :=
  inject_Z (Js.round_half_up (x * k * 10)) / 100.

(** [coverageData] is the parsed summary: file path to entry, in key
    order, with the aggregate under the key "total". *)
Definition calculateWeightedCoverage
    (coverageData : list (string * FileCoverage)) : WeightedCoverage :=
  let acc :=
    fold_left accumulate coverageData
      {| coreLogicSum := 0; infrastructureSum := 0;
         coreLogicCount := 0; infrastructureCount := 0 |} in
  let avgCoreLogicCoverage := average (coreLogicSum acc) (coreLogicCount acc) in
  let avgInfrastructureCoverage :=
    average (infrastructureSum acc) (infrastructureCount acc) in
  let weighted :=
    avgCoreLogicCoverage * (8 # 10) + avgInfrastructureCoverage * (2 # 10) in
  {| weightedScore := Some (round2 weighted);
     coreLogicCoverage := round2 avgCoreLogicCoverage;
     infrastructureCoverage := round2 avgInfrastructureCoverage;
     coreLogicFiles := coreLogicCount acc;
     infrastructureFiles := infrastructureCount acc;
     breakdown_coreLogic :=
       {| part_coverage := avgCoreLogicCoverage;
          part_files := coreLogicCount acc;
          part_weight := 8 # 10;
          part_points := points avgCoreLogicCoverage (8 # 10) |};
     breakdown_infrastructure :=
       {| part_coverage := avgInfrastructureCoverage;
          part_files := infrastructureCount acc;
          part_weight := 2 # 10;
          part_points := points avgInfrastructureCoverage (2 # 10) |} |}.

(** ** checkCustomRules *)

(** [ruleEngine] as the analyzer sees it: possibly null, its [rules]
    possibly missing. *)
Record RuleEngineObject : Type := {
  rules : option (list RuleEngine.Rule)
}.

(** One match of [regex.exec(content)]: its offset and the matched text. *)
Record RegexMatch : Type := { match_index : nat; match_text : string }.

(** The log of what a call touched. *)
Record ScanLog : Type := {
  files_read : list string;
  scan_warnings : list string
}.

Section CustomRules.

(** What [getSourceFiles(src)] returned, with what [readFileSync] gives
    for each path: the content, or [None] when reading throws.  (When
    [getSourceFiles] itself throws, for want of a readable [src]
    directory, so does [checkCustomRules]; that call is outside this
    model.) *)
Variable sourceFiles : list (string * option string).

(** All matches of [new RegExp(pattern, 'gm')] that the [exec] loop finds
    in a content, in order; [None] when the constructor throws.  (On a
    pattern that matches the empty string the loop of the source does not
    end; that call is outside this model.) *)
Variable exec_all : string -> string -> option (list RegexMatch).

(** [content.substring(0, index).split('\n').length] *)
Definition lineNumber (content : string) (index : nat) : nat :=
  S (Js.count_char "010" (Js.substring_to index content)).

Definition violations_of_rule (relativePath content : string)
    (rule : RuleEngine.Rule) : list Violation * list string :=
  match exec_all (default "" (RuleEngine.pattern rule)) content with
  | Some found =>
      (map (fun m =>
              {| v_file := relativePath;
                 v_line := lineNumber content (match_index m);
                 v_rule := RuleEngine.id rule;
                 v_severity := RuleEngine.severity rule;
                 v_message := RuleEngine.description rule;
                 v_suggestion := RuleEngine.suggestion rule;
                 v_matchedText := match_text m |}) found,
       [])
  | None => ([], [default "" (RuleEngine.id rule)])
  end.

(** The rules of a file are selected before the [try] that guards the
    read, the read and the matching happen inside it.  [None] only when
    a glob of some rule leaves the modelled fragment of [RegExp]. *)
Definition scan_file (ruleList : list RuleEngine.Rule)
    (acc : option (list Violation * ScanLog)) (file : string * option string)
  : option (list Violation * ScanLog) :=
  '(found, log) ← acc;
  let '(relativePath, read) := file in
  rulesForFile ← RuleEngine.getRulesForFile ruleList relativePath;
  match read with
  | Some content =>
      let per_rule := map (violations_of_rule relativePath content) rulesForFile in
      Some (found ++ flat_map fst per_rule,
            {| files_read := files_read log ++ [relativePath];
               scan_warnings := scan_warnings log ++ flat_map snd per_rule |})
  | None =>
      Some (found,
            {| files_read := files_read log ++ [relativePath];
               scan_warnings := scan_warnings log ++ [relativePath] |})
  end.

(** The summary of the rule set that the source attaches to a successful
    result is not part of the modelled record.  The result is [None] when
    the rules of some file cannot be selected inside the modelled fragment
    of [RegExp]. *)
Definition checkCustomRules (ruleEngine : option RuleEngineObject)
  : option (Finding * ScanLog) :=
  let nothing := {| files_read := []; scan_warnings := [] |} in
  match ruleEngine with
  | None => Some (failureRecord "No custom rules defined", nothing)
  | Some engine =>
      match rules engine with
      | None | Some [] =>
          Some (failureRecord "No custom rules defined", nothing)
      | Some ruleList =>
          '(found, log) ←
            fold_left (scan_file ruleList) sourceFiles (Some ([], nothing));
          Some
            ({| success := Some true; error := None; errors := None;
                warnings := None; vulnerabilities := None;
                violations := Some (length found); details := Some found;
                coverage := None; score := None;
                circularDependencies := None; outdatedPackages := None;
                securityVulnerabilities := None; performanceIssues := None;
                antiPatterns := None; bugs := None; potentialIssues := None;
                securityRisks := None; missingTests := None;
                testQuality := None; weightedCoverage := None;
                testCases := None |}, log)
      end
  end.

End CustomRules.

End AnalyzerBase.

(* ===================================================================== *)
(** * lib/index.js (src/lib/index.js) *)
(* ===================================================================== *)

Module CodeReviewTool.

Import Findings.

(** ** runAnalyzers *)

(** The outcome of each method of [this.analyzer] during the run. *)
Record AnalyzerRun : Type := {
  checkESLint : Outcome;
  checkTypeScript : Outcome;
  checkSecurity : Outcome;
  checkTests : Outcome;
  analyzeComplexity : Outcome;
  checkCustomRules : Outcome;
  checkDependencies : Outcome;
  checkCoverage : Outcome;
  checkPerformance : Outcome;
  checkArchitecture : Outcome;
  checkBugDetection : Outcome;
  checkTestCases : Outcome
}.

(** The [switch]: for each [case], the property of [findings] that is
    assigned and the method that is awaited. *)
Definition cases : list (string * (string * (AnalyzerRun -> Outcome))) :=
  [ ("eslint", ("eslint", checkESLint));
    ("typescript", ("typescript", checkTypeScript));
    ("security", ("security", checkSecurity));
    ("tests", ("tests", checkTests));
    ("complexity", ("complexity", analyzeComplexity));
    ("custom-rules", ("customRules", checkCustomRules));
    ("dependencies", ("dependencies", checkDependencies));
    ("coverage", ("coverage", checkCoverage));
    ("performance", ("performance", checkPerformance));
    ("architecture", ("architecture", checkArchitecture));
    ("bug-detection", ("bugDetection", checkBugDetection));
    ("test-cases", ("testCases", checkTestCases)) ].

Fixpoint switch (analyzerName : string)
    (cs : list (string * (string * (AnalyzerRun -> Outcome))))
  : option (string * (AnalyzerRun -> Outcome)) :=
  match cs with
  | [] => None
  | (name, target) :: rest =>
      if String.eqb analyzerName name then Some target
      else switch analyzerName rest
  end.

Record RunState : Type := {
  findings : gmap string Finding;
  executed : list string;   (* analyzers whose method was called *)
  unknown : list string     (* names answered with a warning *)
}.

Definition try_catch {A} (body : string + A) (handler : string -> A) : A :=
  match body with
  | inl message => handler message
  | inr a => a
  end.

Section Run.

Variable analyzer : AnalyzerRun.

(** The body of the [try] for one name. *)
Definition attempt (st : RunState) (analyzerName : string)
  : string + RunState :=
  match switch analyzerName cases with
  | Some (key, method) =>
      match method analyzer with
      | Returns f =>
          inr {| findings := <[key := f]> (findings st);
                 executed := executed st ++ [analyzerName];
                 unknown := unknown st |}
      | Throws message => inl message
      end
  | None =>
      inr {| findings := findings st;
             executed := executed st;
             unknown := unknown st ++ [analyzerName] |}
  end.

(** One iteration of the [for] loop: [try { ... } catch (error) { ... }].
    A method that throws was called all the same. *)
Definition iteration (st : RunState) (analyzerName : string) : RunState :=
  try_catch (attempt st analyzerName)
    (fun message =>
       {| findings := <[analyzerName := failureRecord message]> (findings st);
          executed := executed st ++ [analyzerName];
          unknown := unknown st |}).

Definition runAnalyzers (enabledAnalyzers : list string) : RunState :=
  fold_left iteration enabledAnalyzers
    {| findings := ∅; executed := []; unknown := [] |}.

End Run.

(** ** getAnalyzerScore *)

Import Js.

Local Open Scope Q_scope.

(** [(n || 0)] for a count that may be missing. *)
Definition count_or_zero (n : option nat) : number := of_nat (default 0%nat n).

(** [xs.length] of an array property, read only when the array is there
    (an array is truthy even when empty). *)
Definition penalty (xs : option (list Issue)) (each : Q) : number :=
  match xs with
  | Some l => Num (inject_Z (Z.of_nat (length l)) * each)
  | None => Num 0
  end.

(** [sub && !sub.success] *)
Definition sub_failed (sub : option SubResult) : bool :=
  match sub with
  | Some r => negb (sub_success r)
  | None => false
  end.

(** [findings.coverage && findings.coverage.statements], and when that is
    truthy the value of [findings.coverage.statements.pct]: a number, or
    [undefined], which [Math.min] turns into NaN. *)
Definition statements_pct (f : Finding) : option number :=
  match coverage f with
  | Some (CoverageObj c) =>
      match statements c with
      | Some (StatementsSummary (Some p)) => Some (Num p)
      | Some (StatementsSummary None) => Some NaN
      | Some (StatementsNum q) => if Qeq_bool q 0 then None else Some NaN
      | None => None
      end
  | Some (CoverageNum _) | None => None
  end.

Definition getAnalyzerScore (analyzer : string) (f : Finding) : number :=
  if String.eqb analyzer "eslint" then
    let issues :=
      add (count_or_zero (errors f))
          (mul (count_or_zero (warnings f)) (Num (1 # 2))) in
    Math_max (Num 0) (sub (Num 100) (mul issues (Num 2)))
  else if String.eqb analyzer "typescript" then
    match errors f with
    | Some n => if (0 <? n)%nat then Num 0 else Num 100
    | None => Num 100
    end
  else if String.eqb analyzer "security" then
    let vulns := count_or_zero (vulnerabilities f) in
    Math_max (Num 0) (sub (Num 100) (mul vulns (Num 20)))
  else if String.eqb analyzer "tests" then
    let coverage :=
      match coverage f with
      | Some (CoverageNum q) => if Qeq_bool q 0 then Num 0 else Num q
      | Some (CoverageObj _) => NaN
      | None => Num 0
      end in
    Math_min (Num 100) coverage
  else if String.eqb analyzer "complexity" then
    match score f with
    | Some q => if Qeq_bool q 0 then Num 100 else Num q
    | None => Num 100
    end
  else if String.eqb analyzer "dependencies" then
    let depScore := Num 100 in
    let depScore :=
      if sub_failed (circularDependencies f)
      then sub depScore (Num 30) else depScore in
    let depScore :=
      if sub_failed (outdatedPackages f)
      then sub depScore (Num 20) else depScore in
    let depScore :=
      if sub_failed (securityVulnerabilities f)
      then sub depScore (Num 50) else depScore in
    Math_max (Num 0) depScore
  else if String.eqb analyzer "coverage" then
    match statements_pct f with
    | Some pct => Math_min (Num 100) pct
    | None => if bool_decide (success f = Some true) then Num 100 else Num 0
    end
  else if String.eqb analyzer "performance" then
    let perfScore := sub (Num 100) (penalty (performanceIssues f) 10) in
    Math_max (Num 0) perfScore
  else if String.eqb analyzer "architecture" then
    let archScore := sub (Num 100) (penalty (antiPatterns f) 15) in
    Math_max (Num 0) archScore
  else if String.eqb analyzer "bug-detection" then
    let bugScore := sub (Num 100) (penalty (bugs f) 25) in
    let bugScore := sub bugScore (penalty (potentialIssues f) 5) in
    let bugScore := sub bugScore (penalty (securityRisks f) 30) in
    let bugScore := sub bugScore (penalty (performanceIssues f) 10) in
    Math_max (Num 0) bugScore
  else if String.eqb analyzer "test-cases" then
    let testScore := sub (Num 100) (penalty (missingTests f) 10) in
    let testScore :=
      match testQuality f with
      | Some qs =>
          let poorQualityTests :=
            length (List.filter (fun t => match quality t with POOR => true | _ => false end) qs) in
          sub testScore (Num (inject_Z (Z.of_nat poorQualityTests) * 20))
      | None => testScore
      end in
    let testScore :=
      match statements_pct f with
      | Some pct => Math_min testScore pct
      | None => testScore
      end in
    Math_max (Num 0) testScore
  else Num 100.

(** ** calculateScore *)

Definition weights : list (string * Z) :=
  [ ("eslint", 12); ("typescript", 12); ("security", 20); ("tests", 10);
    ("complexity", 8); ("dependencies", 8); ("coverage", 8);
    ("performance", 8); ("architecture", 5); ("bug-detection", 15);
    ("test-cases", 12) ]%Z.

Inductive Grade : Type := A | B | C | D | F.

Definition getGrade (score : number) : Grade :=
  if geb score (Num 90) then A
  else if geb score (Num 80) then B
  else if geb score (Num 70) then C
  else if geb score (Num 60) then D
  else F.

Record BreakdownEntry : Type := {
  entry_score : number;
  entry_weight : Z;
  entry_findings : Finding
}.

Definition getScoreBreakdown (fs : gmap string Finding)
    (ws : list (string * Z)) : gmap string BreakdownEntry :=
  fold_left
    (fun breakdown '(analyzer, weight) =>
       match fs !! analyzer with
       | Some f =>
           <[analyzer := {| entry_score := getAnalyzerScore analyzer f;
                            entry_weight := weight;
                            entry_findings := f |}]> breakdown
       | None => breakdown
       end) ws ∅.

(** [findings[analyzer] && findings[analyzer].success !== false] *)
Definition counted (fs : gmap string Finding) (analyzer : string) : bool :=
  match fs !! analyzer with
  | Some f => negb (bool_decide (success f = Some false))
  | None => false
  end.

(** One call of the [forEach] callback on [(totalScore, maxScore)]. *)
Definition tally (fs : gmap string Finding) (acc : number * number)
    (entry : string * Z) : number * number :=
  let '(totalScore, maxScore) := acc in
  let '(analyzer, weight) := entry in
  let maxScore := add maxScore (Num (inject_Z weight)) in
  match fs !! analyzer with
  | Some f =>
      if negb (bool_decide (success f = Some false)) then
        let analyzerScore := getAnalyzerScore analyzer f in
        (add totalScore
           (mul (div analyzerScore (Num 100)) (Num (inject_Z weight))),
         maxScore)
      else (totalScore, maxScore)
  | None => (totalScore, maxScore)
  end.

Record Score : Type := {
  overall : number;
  grade : Grade;
  breakdown : gmap string BreakdownEntry
}.

Definition calculateScore (fs : gmap string Finding) : Score :=
  let '(totalScore, maxScore) := fold_left (tally fs) weights (Num 0, Num 0) in
  let overall := Math_round (mul (div totalScore maxScore) (Num 100)) in
  {| overall := overall;
     grade := getGrade overall;
     breakdown := getScoreBreakdown fs weights |}.

(** ** Reading the switch *)

(** The property of [findings] a successful run of an analyzer is stored
    under. *)
Definition successKey (analyzerName : string) : option string :=
  fst <$> switch analyzerName cases.

(** What the method behind a name does in a run. *)
Definition outcome (analyzer : AnalyzerRun) (analyzerName : string)
  : option Outcome :=
  (fun target => snd target analyzer) <$> switch analyzerName cases.

(** The entry one iteration writes, if any. *)
Definition written (analyzer : AnalyzerRun) (analyzerName : string)
  : option (string * Finding) :=
  match switch analyzerName cases with
  | Some (key, method) =>
      match method analyzer with
      | Returns f => Some (key, f)
      | Throws message => Some (analyzerName, failureRecord message)
      end
  | None => None
  end.

(** The analyzer a key of the findings map belongs to. *)
Definition analyzer_of_key (key : string) : string :=
  if String.eqb key "customRules" then "custom-rules"
  else if String.eqb key "bugDetection" then "bug-detection"
  else if String.eqb key "testCases" then "test-cases"
  else key.

(** The names of the [switch]. *)
Definition known_names : list string := map fst cases.

(** The key under which the iteration for a name leaves an entry. *)
Definition key_written (analyzer : AnalyzerRun) (analyzerName : string)
  : string :=
  match written analyzer analyzerName with
  | Some (key, _) => key
  | None => analyzerName
  end.

End CodeReviewTool.

(* ===================================================================== *)
(** * lib/index.js, the revision with weighted test scoring and report
    modes (second document of src/unnamed/part_001) *)
(* ===================================================================== *)

Module CodeReviewToolWeighted.

Import Findings Js.

Local Open Scope Q_scope.

Definition as_input (f : Finding) : TestScoreInput :=
  {| ts_weightedCoverage := weightedCoverage f; ts_coverage := coverage f |}.

(** [findings.coverage?.statements || 0], then the same read again under
    [typeof findings.coverage === 'object'].  A summary record in the place
    of the percentage behaves as NaN in the comparisons and products that
    follow. *)
Definition statementsCoverage (input : TestScoreInput) : number :=
  match ts_coverage input with
  | Some (CoverageObj c) =>
      match statements c with
      | Some (StatementsNum q) => if Qeq_bool q 0 then Num 0 else Num q
      | Some (StatementsSummary _) => NaN
      | None => Num 0
      end
  | Some (CoverageNum _) | None => Num 0
  end.

Definition calculateWeightedTestScore (input : TestScoreInput) : number :=
  match ts_weightedCoverage input with
  | Some {| weightedScore := Some ws |} => Math_min (Num 100) (Num ws)
  | _ =>
      let statementsCoverage := statementsCoverage input in
      if geb statementsCoverage (Num 70) then
        Math_min (Num 100) (mul statementsCoverage (Num (11 # 10)))
      else if geb statementsCoverage (Num 40) then
        statementsCoverage
      else
        Math_max (Num 0) (mul statementsCoverage (Num (8 # 10)))
  end.

(** The cases that differ from src/lib/index.js are written out; the
    others are the same text in both revisions. *)
Definition getAnalyzerScore (analyzer : string) (f : Finding) : number :=
  if String.eqb analyzer "tests" then
    match coverage f with
    | Some (CoverageObj _) =>
        let weightedScore := calculateWeightedTestScore (as_input f) in
        Math_min (Num 100) weightedScore
    | Some (CoverageNum q) =>
        Math_min (Num 100) (if Qeq_bool q 0 then Num 0 else Num q)
    | None => Math_min (Num 100) (Num 0)
    end
  else if String.eqb analyzer "test-cases" then
    match testCases f with
    | Some nested =>
        match ts_weightedCoverage nested with
        | Some _ =>
            let weightedScore := calculateWeightedTestScore nested in
            Math_min (Num 100) weightedScore
        | None => Num 0
        end
    | None => Num 0
    end
  else if String.eqb analyzer "coverage" then Num 100
  else CodeReviewTool.getAnalyzerScore analyzer f.

(** ** generateReports *)

(** The properties of [options] that [generateReports] reads. *)
Record ToolOptions : Type := {
  reporters : option (list string);
  aiAnalysis : bool;
  aiPrompts : bool
}.

Inductive Rendered : Type :=
| Artifact (path : string)
| RenderThrows (message : string).

(** The outcome of the calls each [case] makes on the reporter (and, for
    the AI reports, on the analyzer before it). *)
Record ReporterRun : Type := {
  generateHTMLReport : Rendered;
  generateAISummaryMD : Rendered;
  generateJSONReport : Rendered;
  generateMarkdownReport : Rendered;
  generateAIPrompts : Rendered;
  performAICodeAnalysis : Rendered
}.

Record ReportState : Type := {
  reports : gmap string string;
  rendered : list string;      (* reporter names whose renderer was called *)
  failed : list string;        (* reporter names whose case threw *)
  unknownReporters : list string
}.

Definition includes_name (names : list string) (name : string) : bool :=
  existsb (String.eqb name) names.

Definition isAITesting (options : ToolOptions) : bool :=
  aiAnalysis options || aiPrompts options ||
  match reporters options with
  | Some rs => includes_name rs "ai-analysis" || includes_name rs "ai-prompts"
  | None => false
  end.

(** [options.reporters && options.reporters.includes(name)] *)
Definition requested (options : ToolOptions) (name : string) : bool :=
  match reporters options with
  | Some rs => includes_name rs name
  | None => false
  end.

Section Reports.

Variable reporter : ReporterRun.
Variable options : ToolOptions.

Definition render (st : ReportState) (reporterName key : string)
    (r : Rendered) : ReportState :=
  match r with
  | Artifact path =>
      {| reports := <[key := path]> (reports st);
         rendered := rendered st ++ [reporterName];
         failed := failed st;
         unknownReporters := unknownReporters st |}
  | RenderThrows _ =>
      {| reports := reports st;
         rendered := rendered st ++ [reporterName];
         failed := failed st ++ [reporterName];
         unknownReporters := unknownReporters st |}
  end.

Definition report (st : ReportState) (reporterName : string) : ReportState :=
  if String.eqb reporterName "html" then
    render st reporterName "html" (generateHTMLReport reporter)
  else if String.eqb reporterName "ai-summary" then
    render st reporterName "aiSummary" (generateAISummaryMD reporter)
  else if String.eqb reporterName "json" then
    if requested options "json"
    then render st reporterName "json" (generateJSONReport reporter)
    else st
  else if String.eqb reporterName "markdown" then
    if requested options "markdown"
    then render st reporterName "markdown" (generateMarkdownReport reporter)
    else st
  else if String.eqb reporterName "ai-prompts" then
    if requested options "ai-prompts"
    then render st reporterName "aiPrompts" (generateAIPrompts reporter)
    else st
  else if String.eqb reporterName "ai-analysis" then
    if requested options "ai-analysis"
    then render st reporterName "aiAnalysis" (performAICodeAnalysis reporter)
    else st
  else
    {| reports := reports st; rendered := rendered st; failed := failed st;
       unknownReporters := unknownReporters st ++ [reporterName] |}.

(** [configured] is [this.configManager.getEnabledReporters()]; the mode
    override that follows replaces whatever list was selected. *)
Definition generateReports (configured : list string) : ReportState :=
  let enabledReporters := default configured (reporters options) in
  let enabledReporters :=
    if isAITesting options then [ "html"; "ai-summary" ] else [ "html" ] in
  fold_left report enabledReporters
    {| reports := ∅; rendered := []; failed := []; unknownReporters := [] |}.

End Reports.

End CodeReviewToolWeighted.

(* ===================================================================== *)
(** * bin/cli.js: the options of the analyze command *)
(* ===================================================================== *)

Module Cli.

(** What commander hands to the action. *)
Record Options : Type := {
  reporters : option string;   (* -r, --reporters <reporters> *)
  aiPrompts : bool;            (* --ai-prompts *)
  aiAnalysis : bool;           (* --ai-analysis *)
  noReports : bool
}.

(** [toolOptions.reporters] after the four [if]s. *)
Definition toolReporters (options : Options) : option (list string) :=
  let r :=
    if Js.truthy_str (reporters options)
    then Some (map Js.trim (Js.split_on "," (default "" (reporters options))))
    else None in
  let r := if aiPrompts options then Some (default [] r ++ [ "ai-prompts" ]) else r in
  let r := if aiAnalysis options then Some (default [] r ++ [ "ai-analysis" ]) else r in
  if noReports options then Some [] else r.

(** [toolOptions] carries [projectRoot], [severity], [verbose],
    [analyzers] and [reporters]; the two AI flags are not copied. *)
Definition toolOptions (options : Options) : CodeReviewToolWeighted.ToolOptions :=
  {| CodeReviewToolWeighted.reporters := toolReporters options;
     CodeReviewToolWeighted.aiAnalysis := false;
     CodeReviewToolWeighted.aiPrompts := false |}.

(** The command line of a run without [--reporters]; the two flags decide
    the mode. *)
Definition no_explicit_list (aiPrompts aiAnalysis : bool) : Options :=
  {| reporters := None; aiPrompts := aiPrompts;
     aiAnalysis := aiAnalysis; noReports := false |}.

(** What the action logs before the run: in AI testing mode 'Will
    generate HTML + AI Summary MD', in general testing mode 'Will generate
    HTML only'. *)
Inductive Mode : Type := AITestingMode | GeneralTestingMode.

(** [options.aiAnalysis || options.aiPrompts || (options.reporters &&
    (options.reporters.includes('ai-analysis') ||
     options.reporters.includes('ai-prompts')))], on the option string as
    commander hands it over. *)
Definition announced (options : Options) : Mode :=
  if aiAnalysis options || aiPrompts options ||
     (Js.truthy_str (reporters options) &&
      (Js.includes (default "" (reporters options)) "ai-analysis" ||
       Js.includes (default "" (reporters options)) "ai-prompts"))
  then AITestingMode else GeneralTestingMode.

End Cli.

(* ===================================================================== *)
(** * lib/index.js (src/lib/index.js): generateReports *)
(* ===================================================================== *)

Module CodeReviewToolReports.

Import CodeReviewToolWeighted.

(** This revision has no report modes: it renders the list it is given,
or the configured one. *)

Section Reports.

Variable reporter : ReporterRun.
Variable options : ToolOptions.

Definition report (st : ReportState) (reporterName : string) : ReportState :=
  if String.eqb reporterName "html" then
    render st reporterName "html" (generateHTMLReport reporter)
  else if String.eqb reporterName "json" then
    render st reporterName "json" (generateJSONReport reporter)
  else if String.eqb reporterName "markdown" then
    render st reporterName "markdown" (generateMarkdownReport reporter)
  else if String.eqb reporterName "ai-prompts" then
    render st reporterName "aiPrompts" (generateAIPrompts reporter)
  else
    {| reports := reports st; rendered := rendered st; failed := failed st;
       unknownReporters := unknownReporters st ++ [reporterName] |}.

Definition generateReports (configured : list string) : ReportState :=
  let enabledReporters := default configured (reporters options) in
  fold_left report enabledReporters
    {| reports := ∅; rendered := []; failed := []; unknownReporters := [] |}.

End Reports.

End CodeReviewToolReports.

(* ===================================================================== *)
(** * The formulas of the specification, in its own words *)
(* ===================================================================== *)

Module Spec.

Import Findings Js.

Local Open Scope Q_scope.

(** ** Two-tier coverage weighting *)

(** The covered files of one class: core logic ([true]) or
    infrastructure ([false]). *)
Definition class_entries (core : bool)
    (coverageData : list (string * AnalyzerBase.FileCoverage))
  : list (string * AnalyzerBase.FileCoverage) :=
  List.filter
    (fun entry =>
       negb (String.eqb (fst entry) "total") &&
       Bool.eqb (AnalyzerBase.isCoreLogicFile (fst entry)) core)
    coverageData.

Definition sum_statements
    (entries : list (string * AnalyzerBase.FileCoverage)) : Q :=
  fold_right (fun entry s => AnalyzerBase.statements_or_zero (snd entry) + s)
    0 entries.

(** The mean statement coverage of a class; an empty class counts as 0. *)
Definition mean_statements
    (entries : list (string * AnalyzerBase.FileCoverage)) : Q :=
  match entries with
  | [] => 0
  | _ => sum_statements entries / inject_Z (Z.of_nat (length entries))
  end.

(** [0.8 × meanCoreLogicCoverage + 0.2 × meanInfrastructureCoverage] *)
Definition weighted_coverage
    (coverageData : list (string * AnalyzerBase.FileCoverage)) : Q :=
  (8 # 10) * mean_statements (class_entries true coverageData) +
  (2 # 10) * mean_statements (class_entries false coverageData).

(** The two families of file-name patterns. *)
Definition core_logic_name (fileName : string) : bool :=
  existsb (includes fileName)
    [ "controller"; "service"; "util"; "helper"; "config"; "constant";
      "validation" ]%string.

Definition infrastructure_name (fileName : string) : bool :=
  existsb (includes fileName) [ "route"; "middleware" ]%string.

(** ** Overall aggregation *)

Definition sum_numbers (xs : list number) : number :=
  fold_right add (Num 0) xs.

(** The weight-table entries whose analyzer is present in the findings. *)
Definition present (fs : gmap string Finding) (ws : list (string * Z))
  : list (string * Z) :=
  List.filter (fun entry => bool_decide (is_Some (fs !! fst entry))) ws.

Definition weighted_subscore (fs : gmap string Finding)
    (entry : string * Z) : number :=
  match fs !! fst entry with
  | Some f =>
      mul (div (CodeReviewTool.getAnalyzerScore (fst entry) f) (Num 100))
          (Num (inject_Z (snd entry)))
  | None => Num 0
  end.

(** [round(Σ(subscore_i/100 × weight_i) / Σ(weight_i) × 100)] with both
    sums over the analyzers present in the findings and in the table. *)
Definition overall (fs : gmap string Finding) : number :=
  let table := present fs CodeReviewTool.weights in
  Math_round
    (mul (div (sum_numbers (map (weighted_subscore fs) table))
              (sum_numbers (map (fun entry => Num (inject_Z (snd entry))) table)))
         (Num 100)).

(** What the source sums instead: every entry of the table counts in the
    denominator, an entry counts in the numerator when its analyzer has a
    finding that is not marked as failed. *)
Definition contribution (fs : gmap string Finding)
    (entry : string * Z) : number :=
  if CodeReviewTool.counted fs (fst entry)
  then weighted_subscore fs entry else Num 0.

(** ** The coverage curve *)

(** At least 70: times 1.1, at most 100; from 40 up to 70: unchanged;
    below 40: times 0.8. *)
Definition coverage_curve (s : Q) : Q :=
  if Qle_bool 70 s then Qmin 100 (s * (11 # 10))
  else if Qle_bool 40 s then s
  else s * (8 # 10).

(** Weighted coverage data is unavailable: there is no weighted record,
    or it carries no score. *)
Definition weighted_unavailable (w : option WeightedCoverage) : Prop :=
  match w with
  | Some {| weightedScore := Some _ |} => False
  | _ => True
  end.

(** ** Findings the scoring cases can read *)

(** [coverage.statements], where present, is a summary record with a
    non-negative percentage (or the number 0, which the source skips). *)
Definition structured_statements (f : Finding) : Prop :=
  match coverage f with
  | Some (CoverageObj c) =>
      match statements c with
      | Some (StatementsSummary (Some p)) => 0 <= p
      | Some (StatementsSummary None) => False
      | Some (StatementsNum q) => q == 0
      | None => True
      end
  | Some (CoverageNum _) | None => True
  end.

(** The shape the scoring case of an analyzer expects of its finding:
    a non-negative bare percentage for [tests], a pre-computed score
    between 0 and 100 for [complexity], structured statement coverage for
    [coverage] and [test-cases]. *)
Definition shaped (analyzer : string) (f : Finding) : Prop :=
  (analyzer = "tests"%string ->
     match coverage f with
     | Some (CoverageNum q) => 0 <= q
     | Some (CoverageObj _) => False
     | None => True
     end)
  /\ (analyzer = "complexity"%string ->
       forall q, score f = Some q -> 0 <= q <= 100)
  /\ (analyzer = "coverage"%string \/ analyzer = "test-cases"%string ->
       structured_statements f).

(** The analyzers whose sub-score is computed from counts alone. *)
Definition count_based (analyzer : string) : Prop :=
  analyzer ∉ [ "tests"; "complexity"; "coverage"; "test-cases" ]%string.

Definition integral (q : Q) : Prop := exists z : Z, q == inject_Z z.

End Spec.

(* ===================================================================== *)
(** * Sample inputs *)
(* ===================================================================== *)

Module Samples.

Import Findings.

Local Open Scope Q_scope.
Local Open Scope string_scope.

Definition coverage_90_50 : list (string * AnalyzerBase.FileCoverage) :=
  [ ("total", {| AnalyzerBase.statements_pct := Some 70 |});
    ("src/services/user.service.js", {| AnalyzerBase.statements_pct := Some 100 |});
    ("src/utils/format.js", {| AnalyzerBase.statements_pct := Some 80 |});
    ("src/routes/user.routes.js", {| AnalyzerBase.statements_pct := Some 50 |}) ].

Definition coverage_one_service : list (string * AnalyzerBase.FileCoverage) :=
  [ ("src/services/auth.service.js",
     {| AnalyzerBase.statements_pct := Some (3333 # 100) |}) ].

(** A finding with a structured [coverage] and the given weighted data. *)
Definition tests_finding (s : Q) (w : option WeightedCoverage) : Finding :=
  {| success := Some true; error := None; errors := None; warnings := None;
     vulnerabilities := None; violations := None; details := None;
     coverage := Some (CoverageObj {| statements := Some (StatementsNum s) |});
     score := None; circularDependencies := None; outdatedPackages := None;
     securityVulnerabilities := None; performanceIssues := None;
     antiPatterns := None; bugs := None; potentialIssues := None;
     securityRisks := None; missingTests := None; testQuality := None;
     weightedCoverage := w; testCases := None |}.

(** A run in which the security audit throws and every other analyzer
    returns. *)
Definition lint_finding (e w : nat) : Finding :=
  {| success := Some (Nat.eqb e 0); error := None; errors := Some e;
     warnings := Some w; vulnerabilities := None; violations := None;
     details := None; coverage := None; score := None;
     circularDependencies := None; outdatedPackages := None;
     securityVulnerabilities := None; performanceIssues := None;
     antiPatterns := None; bugs := None; potentialIssues := None;
     securityRisks := None; missingTests := None; testQuality := None;
     weightedCoverage := None; testCases := None |}.

Definition clean : Outcome := Returns (lint_finding 0 0).

Definition security_down : CodeReviewTool.AnalyzerRun :=
  {| CodeReviewTool.checkESLint := Returns (lint_finding 0 2);
     CodeReviewTool.checkTypeScript := clean;
     CodeReviewTool.checkSecurity := Throws "npm audit timed out";
     CodeReviewTool.checkTests := clean;
     CodeReviewTool.analyzeComplexity := clean;
     CodeReviewTool.checkCustomRules := clean;
     CodeReviewTool.checkDependencies := clean;
     CodeReviewTool.checkCoverage := clean;
     CodeReviewTool.checkPerformance := clean;
     CodeReviewTool.checkArchitecture := clean;
     CodeReviewTool.checkBugDetection := clean;
     CodeReviewTool.checkTestCases := clean |}.


(** A findings map holding the result of a clean lint run only. *)
Definition only_eslint : gmap string Finding :=
  {[ "eslint" := lint_finding 0 0 ]}.

(** The finding of the test analyzer for a project covered at 85.5%. *)
Definition tests_85_5 : Finding :=
  {| success := Some true; error := None; errors := None; warnings := None;
     vulnerabilities := None; violations := None; details := None;
     coverage := Some (CoverageNum (855 # 10));
     score := None; circularDependencies := None; outdatedPackages := None;
     securityVulnerabilities := None; performanceIssues := None;
     antiPatterns := None; bugs := None; potentialIssues := None;
     securityRisks := None; missingTests := None; testQuality := None;
     weightedCoverage := None; testCases := None |}.

(** The end-to-end scenario: three lint errors and two warnings, no
    vulnerability. *)
Definition lint_and_security : gmap string Finding :=
  <[ "security" :=
       {| success := Some true; error := None; errors := None;
          warnings := None; vulnerabilities := Some 0%nat; violations := None;
          details := None; coverage := None; score := None;
          circularDependencies := None; outdatedPackages := None;
          securityVulnerabilities := None; performanceIssues := None;
          antiPatterns := None; bugs := None; potentialIssues := None;
          securityRisks := None; missingTests := None; testQuality := None;
          weightedCoverage := None; testCases := None |} ]>
    {[ "eslint" := lint_finding 0 2 ]}.

(** Rules of a configuration. *)
Definition rule (i p : string) (fs : option (list string)) : RuleEngine.Rule :=
  {| RuleEngine.id := Some i;
     RuleEngine.category := Some "quality";
     RuleEngine.severity := Some "ERROR";
     RuleEngine.description := Some "Forbidden call";
     RuleEngine.pattern := Some p;
     RuleEngine.suggestion := Some "Remove the call";
     RuleEngine.files := fs;
     RuleEngine.example := None |}.

Definition no_console : RuleEngine.Rule :=
  rule "no-console" "console\.log" (Some [ "src/**/*.js" ]).

Definition no_eval : RuleEngine.Rule := rule "no-eval" "eval" None.

(** [{ id: 'no-eval' }] *)
Definition rename_to_no_eval : RuleEngine.Rule :=
  {| RuleEngine.id := Some "no-eval"; RuleEngine.category := None;
     RuleEngine.severity := None; RuleEngine.description := None;
     RuleEngine.pattern := None; RuleEngine.suggestion := None;
     RuleEngine.files := None; RuleEngine.example := None |}.


End Samples.

(* ===================================================================== *)
(** * lib/rule-engine.js: queries over the rule set *)
(* ===================================================================== *)

Module RuleSet.

Import RuleEngine.




(** An own property of a breakdown: a count, or the text that [+ 1] makes
    of a function. *)
Inductive Cell : Type :=
| Count (n : nat)
| Text.




Definition getRulesByCategory (categoryName : string) (rules : list Rule)
  : list Rule :=
  List.filter (fun rule => bool_decide (category rule = Some categoryName))
    rules.



Record Summary : Type := {
  totalRules : nat;
  categories : nat;
  severityBreakdown : gmap string Cell;
  categoryBreakdown : gmap string Cell;
  highPriorityRules : nat
}.







(** A rule [validateRule] has no error for: the six required fields are
    non-empty strings, the severity is one of the four levels and the
    pattern compiles. *)
Definition well_formed (regexp_compiles : string -> bool) (rule : Rule)
  : Prop :=
  Forall (fun field => Js.truthy_str (snd field rule) = true) requiredFields
  /\ (exists s, severity rule = Some s /\ s ∈ validSeverities)
  /\ (exists p, pattern rule = Some p /\ regexp_compiles p = true).

(** A glob without wildcard and without any other character that is
    special in a regular expression. *)
Definition literal (pattern : string) : bool :=
  forallb Regexp.plain (list_ascii_of_string pattern).

End RuleSet.

(* ===================================================================== *)
(** * lib/config-manager.js: updating and validating a configuration *)
(* ===================================================================== *)

Module ConfigChecks.

Import ConfigManager.

(** [updateConfig]: [loaded] is [this.config] once [loadConfig] has run,
    [None] before. *)
Definition updateConfig (loaded : option Config) (updates : Config)
  : string + Config :=
  match loaded with
  | None => inl "Configuration not loaded. Call loadConfig() first."
  | Some config => inr (mergeConfigs config updates)
  end.








Definition validSeverities : list string :=
  [ "info"; "warning"; "error"; "critical" ].



End ConfigChecks.

(* ===================================================================== *)
(** * lib/report-generator.js: summary and recommendations *)
(* ===================================================================== *)

Module ReportGenerator.

Import Findings Js CodeReviewTool.

Local Open Scope Q_scope.

(** [a < b] on numbers; a comparison with NaN or [undefined] is false. *)
Definition ltb (a b : number) : bool := gtb b a.

Definition getScoreColor (score : number) : string :=
  if geb score (Num 90) then "#4CAF50"
  else if geb score (Num 80) then "#8BC34A"
  else if geb score (Num 70) then "#FFC107"
  else if geb score (Num 60) then "#FF9800"
  else "#f44336".

Record Summary : Type := {
  totalIssues : nat;
  criticalIssues : nat;
  passedAnalyzers : nat;
  failedAnalyzers : nat;
  overallGrade : Grade;
  needsImprovement : bool
}.

(** [Object.values(findings)]; only sums and counts are taken of it, so
    the order of the keys does not matter. *)
Definition values (fs : gmap string Finding) : list Finding :=
  snd <$> map_to_list fs.

Definition failed (result : Finding) : bool :=
  bool_decide (success result = Some false).

Definition generateSummary (fs : gmap string Finding) (score : Score)
  : Summary :=
  {| totalIssues :=
       fold_left
         (fun sum result =>
            (sum + default 0 (errors result) + default 0 (warnings result)
             + default 0 (violations result))%nat) (values fs) 0%nat;
     criticalIssues :=
       fold_left (fun sum result => (sum + default 0 (errors result))%nat)
         (values fs) 0%nat;
     passedAnalyzers :=
       length (List.filter (fun result => negb (failed result)) (values fs));
     failedAnalyzers := length (List.filter failed (values fs));
     overallGrade := grade score;
     needsImprovement := ltb (overall score) (Num 80) |}.

Inductive Recommendation : Type :=
| CriticalQualityIssues
| ESLintIssues
| TestCoverage
| SecurityVulnerabilities
| GreatJob.

(** [score.breakdown?.[analyzer]?.score < bound] *)
Definition below (score : Score) (analyzer : string) (bound : Q) : bool :=
  match breakdown score !! analyzer with
  | Some entry => ltb (entry_score entry) (Num bound)
  | None => false
  end.

Definition generateRecommendations (score : Score) : list Recommendation :=
  let recommendations :=
    (if ltb (overall score) (Num 60) then [CriticalQualityIssues] else [])
    ++ (if below score "eslint" 80 then [ESLintIssues] else [])
    ++ (if below score "tests" 70 then [TestCoverage] else [])
    ++ (if below score "security" 100 then [SecurityVulnerabilities] else []) in
  if (length recommendations =? 0)%nat then [GreatJob] else recommendations.

(** The recommendation that looks at the sub-score of an analyzer. *)
Definition recommendation_of (analyzer : string) : option Recommendation :=
  if String.eqb analyzer "eslint" then Some ESLintIssues
  else if String.eqb analyzer "tests" then Some TestCoverage
  else if String.eqb analyzer "security" then Some SecurityVulnerabilities
  else None.

(** The colour a grade is drawn in. *)
Definition colour_of (g : Grade) : string :=
  match g with
  | A => "#4CAF50"
  | B => "#8BC34A"
  | C => "#FFC107"
  | D => "#FF9800"
  | F => "#f44336"
  end.

Definition rank (g : Grade) : nat :=
  match g with
  | A => 4
  | B => 3
  | C => 2
  | D => 1
  | F => 0
  end.

End ReportGenerator.

(* ===================================================================== *)
(** * Orderings on findings *)
(* ===================================================================== *)

Module Ordering.

Import Findings.

(** [xs.length] of an array property, 0 when the property is absent. *)
Definition size_of {A} (xs : option (list A)) : nat :=
  match xs with
  | Some l => length l
  | None => 0
  end.

(** [f'] reports at least as many problems as [f], count by count. *)
Definition no_fewer_issues (f f' : Finding) : Prop :=
  (default 0 (errors f) <= default 0 (errors f'))%nat
  /\ (default 0 (warnings f) <= default 0 (warnings f'))%nat
  /\ (default 0 (vulnerabilities f) <= default 0 (vulnerabilities f'))%nat
  /\ (size_of (performanceIssues f) <= size_of (performanceIssues f'))%nat
  /\ (size_of (antiPatterns f) <= size_of (antiPatterns f'))%nat
  /\ (size_of (bugs f) <= size_of (bugs f'))%nat
  /\ (size_of (potentialIssues f) <= size_of (potentialIssues f'))%nat
  /\ (size_of (securityRisks f) <= size_of (securityRisks f'))%nat.

(** The analyzers scored by subtracting a penalty per problem. *)
Definition penalised : list string :=
  [ "eslint"; "typescript"; "security"; "performance"; "architecture";
    "bug-detection" ].

(** The weight the findings can still earn: the weights of the table
    entries that [calculateScore] counts. *)
Definition attainable (fs : gmap string Finding) (ws : list (string * Z))
  : Z :=
  fold_right
    (fun entry sum =>
       ((if CodeReviewTool.counted fs (fst entry) then snd entry else 0)
        + sum)%Z) 0%Z ws.

End Ordering.

(* ===================================================================== *)
(** * lib/index.js (src/lib/index.js): reading the reporter switch *)
(* ===================================================================== *)

Module ReportCases.

Import CodeReviewToolWeighted.

(** The [case] a reporter name selects in [generateReports] of
    src/lib/index.js: the property of [reports] that is assigned and the
    outcome of the renderer. *)
Definition case_of (reporter : ReporterRun) (reporterName : string)
  : option (string * Rendered) :=
  if String.eqb reporterName "html"
  then Some ("html", generateHTMLReport reporter)
  else if String.eqb reporterName "json"
  then Some ("json", generateJSONReport reporter)
  else if String.eqb reporterName "markdown"
  then Some ("markdown", generateMarkdownReport reporter)
  else if String.eqb reporterName "ai-prompts"
  then Some ("aiPrompts", generateAIPrompts reporter)
  else None.

Definition known (reporter : ReporterRun) (reporterName : string) : bool :=
  bool_decide (is_Some (case_of reporter reporterName)).

Definition throws (reporter : ReporterRun) (reporterName : string) : bool :=
  match case_of reporter reporterName with
  | Some (_, RenderThrows _) => true
  | _ => false
  end.

(** What a renderer leaves in [reports]. *)
Definition artifact (r : Rendered) : option string :=
  match r with
  | Artifact path => Some path
  | RenderThrows _ => None
  end.

End ReportCases.

(* ===================================================================== *)
(** * lib/analyzer-base.js: what a violation of the custom-rules scan is *)
(* ===================================================================== *)

Module Scan.

Import Findings.

(** A violation comes from a rule of the list that applies to a file
    which could be read, and sits on a line of that file. *)
Definition genuine (sourceFiles : list (string * option string))
    (ruleList : list RuleEngine.Rule) (v : Violation) : Prop :=
  exists content rule,
    (v_file v, Some content) ∈ sourceFiles
    /\ rule ∈ ruleList
    /\ RuleEngine.rule_applies rule (v_file v) = Some true
    /\ v_rule v = RuleEngine.id rule
    /\ v_severity v = RuleEngine.severity rule
    /\ (1 <= v_line v <= S (Js.count_char "010" content))%nat.

End Scan.

(* ===================================================================== *)
(** * lib/analyzer-base.js: the records the analyzers assemble *)
(* ===================================================================== *)

Module AnalyzerResults.

Import Findings.

Local Open Scope Q_scope.

(** The result of [checkESLint] once the JSON output is totalled: the
    properties the scoring and the summary read. *)
Definition eslintResult (totalErrors totalWarnings : nat) : Finding :=
  {| success := Some (Nat.eqb totalErrors 0); error := None;
     errors := Some totalErrors; warnings := Some totalWarnings;
     vulnerabilities := None; violations := None; details := None;
     coverage := None; score := None; circularDependencies := None;
     outdatedPackages := None; securityVulnerabilities := None;
     performanceIssues := None; antiPatterns := None; bugs := None;
     potentialIssues := None; securityRisks := None; missingTests := None;
     testQuality := None; weightedCoverage := None; testCases := None |}.

(** [totalFunctions > 0
      ? Math.max(0, 100 - (complexFunctions / totalFunctions) * 100) : 100] *)
Definition complexityScore (totalFunctions complexFunctions : nat) : Q :=
  if (0 <? totalFunctions)%nat then
    Qmax 0 (100 - (inject_Z (Z.of_nat complexFunctions)
                   / inject_Z (Z.of_nat totalFunctions)) * 100)
  else 100.

(** The result of [analyzeComplexity]: [score: Math.round(complexityScore)]. *)
Definition complexityResult (totalFunctions complexFunctions : nat)
  : Finding :=
  {| success := Some true; error := None; errors := None; warnings := None;
     vulnerabilities := None; violations := None; details := None;
     coverage := None;
     score := Some (inject_Z (Js.round_half_up
                                (complexityScore totalFunctions
                                   complexFunctions)));
     circularDependencies := None; outdatedPackages := None;
     securityVulnerabilities := None; performanceIssues := None;
     antiPatterns := None; bugs := None; potentialIssues := None;
     securityRisks := None; missingTests := None; testQuality := None;
     weightedCoverage := None; testCases := None |}.

Inductive Priority : Type := HIGH | MEDIUM | LOW.

(** [getTestPriority]; [content] is what [readFileSync] returned. *)
Definition getTestPriority (filePath content : string) : Priority :=
  let fileName := Js.basename filePath in
  if Js.includes fileName "controller" || Js.includes fileName "service"
  then HIGH
  else if Js.includes fileName "util" || Js.includes fileName "helper"
  then HIGH
  else if Js.includes fileName "config" || Js.includes fileName "constant"
  then HIGH
  else if Js.includes fileName "validation"
  then HIGH
  else if Js.includes content "export" && Js.includes content "function"
  then HIGH
  else if Js.includes fileName "route" || Js.includes fileName "middleware"
  then LOW
  else MEDIUM.

End AnalyzerResults.

(* ===================================================================== *)
(** * lib/index.js, the revision with weighted test scoring: the run and
    the overall score (second document of src/unnamed/part_001) *)
(* ===================================================================== *)

Module WeightedRun.

Import Findings Js CodeReviewTool.

(** The [switch] of this revision has no case for 'coverage'. *)
Definition cases : list (string * (string * (AnalyzerRun -> Outcome))) :=
  [ ("eslint", ("eslint", checkESLint));
    ("typescript", ("typescript", checkTypeScript));
    ("security", ("security", checkSecurity));
    ("tests", ("tests", checkTests));
    ("complexity", ("complexity", analyzeComplexity));
    ("custom-rules", ("customRules", checkCustomRules));
    ("dependencies", ("dependencies", checkDependencies));
    ("performance", ("performance", checkPerformance));
    ("architecture", ("architecture", checkArchitecture));
    ("bug-detection", ("bugDetection", checkBugDetection));
    ("test-cases", ("testCases", checkTestCases)) ].

Section Loop.

Variable analyzer : AnalyzerRun.

Definition attempt (st : RunState) (analyzerName : string)
  : string + RunState :=
  match switch analyzerName cases with
  | Some (key, method) =>
      match method analyzer with
      | Returns f =>
          inr {| findings := <[key := f]> (findings st);
                 executed := executed st ++ [analyzerName];
                 unknown := unknown st |}
      | Throws message => inl message
      end
  | None =>
      inr {| findings := findings st;
             executed := executed st;
             unknown := unknown st ++ [analyzerName] |}
  end.

Definition iteration (st : RunState) (analyzerName : string) : RunState :=
  try_catch (attempt st analyzerName)
    (fun message =>
       {| findings := <[analyzerName := failureRecord message]> (findings st);
          executed := executed st ++ [analyzerName];
          unknown := unknown st |}).

Definition runAnalyzers (enabledAnalyzers : list string) : RunState :=
  fold_left iteration enabledAnalyzers
    {| findings := ∅; executed := []; unknown := [] |}.

End Loop.

Definition weights : list (string * Z) :=
  [ ("eslint", 15); ("typescript", 15); ("security", 25);
    ("test-cases", 10); ("complexity", 10); ("dependencies", 10);
    ("performance", 10); ("architecture", 10); ("bug-detection", 10) ]%Z.

Definition getScoreBreakdown (fs : gmap string Finding)
    (ws : list (string * Z)) : gmap string BreakdownEntry :=
  fold_left
    (fun breakdown '(analyzer, weight) =>
       match fs !! analyzer with
       | Some f =>
           <[analyzer :=
               {| entry_score :=
                    CodeReviewToolWeighted.getAnalyzerScore analyzer f;
                  entry_weight := weight;
                  entry_findings := f |}]> breakdown
       | None => breakdown
       end) ws ∅.

Definition tally (fs : gmap string Finding) (acc : number * number)
    (entry : string * Z) : number * number :=
  let '(totalScore, maxScore) := acc in
  let '(analyzer, weight) := entry in
  let maxScore := add maxScore (Num (inject_Z weight)) in
  match fs !! analyzer with
  | Some f =>
      if negb (bool_decide (success f = Some false)) then
        let analyzerScore :=
          CodeReviewToolWeighted.getAnalyzerScore analyzer f in
        (add totalScore
           (mul (div analyzerScore (Num 100)) (Num (inject_Z weight))),
         maxScore)
      else (totalScore, maxScore)
  | None => (totalScore, maxScore)
  end.

Definition calculateScore (fs : gmap string Finding) : Score :=
  let '(totalScore, maxScore) := fold_left (tally fs) weights (Num 0, Num 0) in
  let overall := Math_round (mul (div totalScore maxScore) (Num 100)) in
  {| overall := overall;
     grade := getGrade overall;
     breakdown := getScoreBreakdown fs weights |}.

(** Two behaviours of the analyzers that differ at most in what
    [checkTests] and [checkTestCases] do. *)
Definition same_but_tests (a b : AnalyzerRun) : Prop :=
  checkESLint a = checkESLint b
  /\ checkTypeScript a = checkTypeScript b
  /\ checkSecurity a = checkSecurity b
  /\ analyzeComplexity a = analyzeComplexity b
  /\ checkCustomRules a = checkCustomRules b
  /\ checkDependencies a = checkDependencies b
  /\ checkPerformance a = checkPerformance b
  /\ checkArchitecture a = checkArchitecture b
  /\ checkBugDetection a = checkBugDetection b.

(** The keys under which the two test analyzers leave their results. *)
Definition test_keys : list string := [ "tests"; "testCases"; "test-cases" ].

(** The failure records are the only entries a run leaves under
    'test-cases'. *)
Definition only_failures (fs : gmap string Finding) : Prop :=
  forall f, fs !! "test-cases"%string = Some f ->
            exists message, f = failureRecord message.

End WeightedRun.

(* ===================================================================== *)
(** * Further sample inputs *)
(* ===================================================================== *)

Module Scenarios.

Import Findings.

Local Open Scope string_scope.

(** Every pattern of the sample rules compiles. *)
Definition compiles (_ : string) : bool := true.

(** [{ severity: 'WARNING' }] *)
Definition soften : RuleEngine.Rule :=
  {| RuleEngine.id := None; RuleEngine.category := None;
     RuleEngine.severity := Some "WARNING"; RuleEngine.description := None;
     RuleEngine.pattern := None; RuleEngine.suggestion := None;
     RuleEngine.files := None; RuleEngine.example := None |}.

(** A rule restricted to the literal glob 'test'. *)
Definition in_tests : RuleEngine.Rule :=
  Samples.rule "no-only" "only" (Some [ "test" ]).

(** [{ analyzers: ['coverage'], reporters: ['json'] }] *)
Definition adds_coverage : ConfigManager.Config :=
  {| ConfigManager.extends := None;
     ConfigManager.analyzers := Some [ "coverage" ];
     ConfigManager.reporters := Some [ "json" ] |}.

(** A lint result next to the result of the custom-rules analyzer. *)
Definition with_custom_rules : gmap string Finding :=
  <[ "customRules" := Samples.lint_finding 3 0 ]> Samples.only_eslint.

(** A finding without [coverage] and without [score]. *)
Definition counts_only (f : Finding) : bool :=
  match coverage f, score f with
  | None, None => true
  | _, _ => false
  end.

(** Two source files, the second of which cannot be read, and the
    matches of the pattern 'eval' in the first. *)
Definition newline : string := String "010" EmptyString.

Definition sources : list (string * option string) :=
  [ ("src/app.ts",
     Some ("eval(x)" +:+ newline +:+ "console.log(x)" +:+ newline
           +:+ "eval(y)"));
    ("src/broken.ts", None) ].

Definition find_eval (pattern content : string)
  : option (list AnalyzerBase.RegexMatch) :=
  if String.eqb pattern "eval" then
    Some [ {| AnalyzerBase.match_index := 0;
              AnalyzerBase.match_text := "eval" |};
           {| AnalyzerBase.match_index := 23;
              AnalyzerBase.match_text := "eval" |} ]
  else Some [].

(** The run of [Samples.security_down] with other test results. *)
Definition tests_differ : CodeReviewTool.AnalyzerRun :=
  {| CodeReviewTool.checkESLint := Returns (Samples.lint_finding 0 2);
     CodeReviewTool.checkTypeScript := Samples.clean;
     CodeReviewTool.checkSecurity := Throws "npm audit timed out";
     CodeReviewTool.checkTests := Returns Samples.tests_85_5;
     CodeReviewTool.analyzeComplexity := Samples.clean;
     CodeReviewTool.checkCustomRules := Samples.clean;
     CodeReviewTool.checkDependencies := Samples.clean;
     CodeReviewTool.checkCoverage := Samples.clean;
     CodeReviewTool.checkPerformance := Samples.clean;
     CodeReviewTool.checkArchitecture := Samples.clean;
     CodeReviewTool.checkBugDetection := Samples.clean;
     CodeReviewTool.checkTestCases := Throws "jest is not installed" |}.

Definition default_names : list string :=
  [ "eslint"; "typescript"; "security"; "tests"; "complexity";
    "bug-detection"; "test-cases" ].

End Scenarios.

(* ===================================================================== *)
(** * The numbers of the language: IEEE 754 binary64 *)
(* ===================================================================== *)

Module Double.

Definition double : Set := PrimFloat.float.

(** The double nearest to a rational, ties to the even mantissa: the value
    a numeric literal of the sources, or a number of a parsed JSON text,
    denotes.  Integers below 2^53 in absolute value are exact. *)
Definition of_Q (q : Q) : double :=
  let den := SpecFloat.S754_finite false (Qden q) 0 in
  match Qnum q with
  | Z0 => PrimFloat.zero
  | Zpos n =>
      FloatOps.SF2Prim
        (SpecFloat.SFdiv FloatOps.prec FloatOps.emax
           (SpecFloat.S754_finite false n 0) den)
  | Zneg n =>
      FloatOps.SF2Prim
        (SpecFloat.SFdiv FloatOps.prec FloatOps.emax
           (SpecFloat.S754_finite true n 0) den)
  end.

Definition of_Z (z : Z) : double := of_Q (inject_Z z).

Definition of_nat (n : nat) : double := of_Z (Z.of_nat n).

Definition zero : double := PrimFloat.zero.

Definition nan : double := PrimFloat.nan.

(** [+], [-], [*] and [/]: each rounds its exact result to the nearest
    double. *)
Definition add : double -> double -> double := PrimFloat.add.
Definition sub : double -> double -> double := PrimFloat.sub.
Definition mul : double -> double -> double := PrimFloat.mul.
Definition div : double -> double -> double := PrimFloat.div.

(** [a >= b] and [a > b]: false when an operand is NaN. *)
Definition geb (a b : double) : bool := PrimFloat.leb b a.
Definition gtb (a b : double) : bool := PrimFloat.ltb b a.

(** Truthiness of a number: [0], [-0] and NaN are falsy. *)
Definition truthy (a : double) : bool :=
  negb (PrimFloat.eqb a PrimFloat.zero || PrimFloat.is_nan a).

(** [Math.max] and [Math.min]: NaN as soon as one argument is NaN, and
    [-0] below [+0]. *)
Definition Math_max (a b : double) : double :=
  if PrimFloat.is_nan a || PrimFloat.is_nan b then PrimFloat.nan
  else if PrimFloat.ltb a b then b
  else if PrimFloat.ltb b a then a
  else if PrimFloat.get_sign a then b else a.

Definition Math_min (a b : double) : double :=
  if PrimFloat.is_nan a || PrimFloat.is_nan b then PrimFloat.nan
  else if PrimFloat.ltb a b then a
  else if PrimFloat.ltb b a then b
  else if PrimFloat.get_sign a then a else b.

(** [Math.round]: the integer nearest to the argument, ties towards plus
    infinity; NaN, the infinities and the zeros are returned as they are,
    and an argument in [[-0.5, 0)] gives [-0].  The argument
    [(-1)^s * m * 2^e] is decoded and [floor(x + 1/2)] is computed on
    integers, so that no rounding happens on the way; when [e < 0] the
    result is below 2^53 in absolute value. *)
Definition Math_round (x : double) : double :=
  match FloatOps.Prim2SF x with
  | SpecFloat.S754_finite s m e =>
      if (0 <=? e)%Z then x
      else
        let signed := if s then Z.neg m else Z.pos m in
        let r := Z.shiftr (2 * signed + 2 ^ (- e)) (1 - e) in
        if (r =? 0)%Z then (if s then PrimFloat.neg_zero else PrimFloat.zero)
        else of_Z r
  | _ => x
  end.

End Double.

(* ===================================================================== *)
(** * lib/index.js (src/lib/index.js): the score, in doubles *)
(* ===================================================================== *)

Module DoubleScore.

Import Findings Double.

(** The numbers of a finding, given as counts and rationals in
    [Findings.Finding], are read as the doubles the program holds. *)

(** [(n || 0)] for a count that may be missing. *)
Definition count_or_zero (n : option nat) : double := of_nat (default 0%nat n).

(** [if (xs) score -= xs.length * each] *)
Definition less (score : double) (xs : option (list Issue)) (each : Z)
  : double :=
  match xs with
  | Some l => sub score (mul (of_nat (length l)) (of_Z each))
  | None => score
  end.

(** [sub && !sub.success] *)
Definition sub_failed (sub : option SubResult) : bool :=
  match sub with
  | Some r => negb (sub_success r)
  | None => false
  end.

(** [findings.coverage && findings.coverage.statements], and when that is
    truthy the value of [findings.coverage.statements.pct]: a number, or
    [undefined], which [Math.min] turns into NaN. *)
Definition statements_pct (f : Finding) : option double :=
  match coverage f with
  | Some (CoverageObj c) =>
      match statements c with
      | Some (StatementsSummary (Some p)) => Some (of_Q p)
      | Some (StatementsSummary None) => Some nan
      | Some (StatementsNum q) => if truthy (of_Q q) then Some nan else None
      | None => None
      end
  | Some (CoverageNum _) | None => None
  end.

Definition getAnalyzerScore (analyzer : string) (f : Finding) : double :=
  if String.eqb analyzer "eslint" then
    let issues :=
      add (count_or_zero (errors f))
          (mul (count_or_zero (warnings f)) (of_Q (1 # 2))) in
    Math_max (of_Z 0) (sub (of_Z 100) (mul issues (of_Z 2)))
  else if String.eqb analyzer "typescript" then
    match errors f with
    | Some n => if (0 <? n)%nat then of_Z 0 else of_Z 100
    | None => of_Z 100
    end
  else if String.eqb analyzer "security" then
    let vulns := count_or_zero (vulnerabilities f) in
    Math_max (of_Z 0) (sub (of_Z 100) (mul vulns (of_Z 20)))
  else if String.eqb analyzer "tests" then
    let coverage :=
      match coverage f with
      | Some (CoverageNum q) => if truthy (of_Q q) then of_Q q else of_Z 0
      | Some (CoverageObj _) => nan
      | None => of_Z 0
      end in
    Math_min (of_Z 100) coverage
  else if String.eqb analyzer "complexity" then
    match score f with
    | Some q => if truthy (of_Q q) then of_Q q else of_Z 100
    | None => of_Z 100
    end
  else if String.eqb analyzer "dependencies" then
    let depScore := of_Z 100 in
    let depScore :=
      if sub_failed (circularDependencies f)
      then sub depScore (of_Z 30) else depScore in
    let depScore :=
      if sub_failed (outdatedPackages f)
      then sub depScore (of_Z 20) else depScore in
    let depScore :=
      if sub_failed (securityVulnerabilities f)
      then sub depScore (of_Z 50) else depScore in
    Math_max (of_Z 0) depScore
  else if String.eqb analyzer "coverage" then
    match statements_pct f with
    | Some pct => Math_min (of_Z 100) pct
    | None => if bool_decide (success f = Some true) then of_Z 100 else of_Z 0
    end
  else if String.eqb analyzer "performance" then
    let perfScore := less (of_Z 100) (performanceIssues f) 10 in
    Math_max (of_Z 0) perfScore
  else if String.eqb analyzer "architecture" then
    let archScore := less (of_Z 100) (antiPatterns f) 15 in
    Math_max (of_Z 0) archScore
  else if String.eqb analyzer "bug-detection" then
    let bugScore := less (of_Z 100) (bugs f) 25 in
    let bugScore := less bugScore (potentialIssues f) 5 in
    let bugScore := less bugScore (securityRisks f) 30 in
    let bugScore := less bugScore (performanceIssues f) 10 in
    Math_max (of_Z 0) bugScore
  else if String.eqb analyzer "test-cases" then
    let testScore := less (of_Z 100) (missingTests f) 10 in
    let testScore :=
      match testQuality f with
      | Some qs =>
          let poorQualityTests :=
            length (List.filter (fun t => match quality t with POOR => true | _ => false end) qs) in
          sub testScore (mul (of_nat poorQualityTests) (of_Z 20))
      | None => testScore
      end in
    let testScore :=
      match statements_pct f with
      | Some pct => Math_min testScore pct
      | None => testScore
      end in
    Math_max (of_Z 0) testScore
  else of_Z 100.

Definition getGrade (score : double) : CodeReviewTool.Grade :=
  if geb score (of_Z 90) then CodeReviewTool.A
  else if geb score (of_Z 80) then CodeReviewTool.B
  else if geb score (of_Z 70) then CodeReviewTool.C
  else if geb score (of_Z 60) then CodeReviewTool.D
  else CodeReviewTool.F.

(** One call of the [forEach] callback on [(totalScore, maxScore)]. *)
Definition tally (fs : gmap string Finding) (acc : double * double)
    (entry : string * Z) : double * double :=
  let '(totalScore, maxScore) := acc in
  let '(analyzer, weight) := entry in
  let maxScore := add maxScore (of_Z weight) in
  match fs !! analyzer with
  | Some f =>
      if negb (bool_decide (success f = Some false)) then
        let analyzerScore := getAnalyzerScore analyzer f in
        (add totalScore (mul (div analyzerScore (of_Z 100)) (of_Z weight)),
         maxScore)
      else (totalScore, maxScore)
  | None => (totalScore, maxScore)
  end.

(** The [breakdown] of the result is [CodeReviewTool.getScoreBreakdown]
    and is left out of this record. *)
Record Score : Type := {
  overall : double;
  grade : CodeReviewTool.Grade
}.

Definition calculateScore (fs : gmap string Finding) : Score :=
  let '(totalScore, maxScore) :=
    fold_left (tally fs) CodeReviewTool.weights (of_Z 0, of_Z 0) in
  let overall := Math_round (mul (div totalScore maxScore) (of_Z 100)) in
  {| overall := overall; grade := getGrade overall |}.

(** ** The sums the loop computes *)

(** [total + x1 + x2 + ...], added from the left as the loop does. *)
Definition sum_from (total : double) (xs : list double) : double :=
  fold_left add xs total.

(** The entries of the weight table whose analyzer has a finding that is
    not marked as failed. *)
Definition counted_entries (fs : gmap string Finding) (ws : list (string * Z))
  : list (string * Z) :=
  List.filter (fun entry => CodeReviewTool.counted fs (fst entry)) ws.

(** [(subscore / 100) * weight] *)
Definition weighted_subscore (fs : gmap string Finding)
    (entry : string * Z) : double :=
  match fs !! fst entry with
  | Some f =>
      mul (div (getAnalyzerScore (fst entry) f) (of_Z 100)) (of_Z (snd entry))
  | None => zero
  end.

(** A lint run without errors and with [w] warnings, and one
    anti-pattern reported by the architecture analyzer. *)
Definition warnings_and_one_antipattern (w : nat) : gmap string Finding :=
  <[ "architecture"%string :=
       {| success := Some true; error := None; errors := None;
          warnings := None; vulnerabilities := None; violations := None;
          details := None; coverage := None; score := None;
          circularDependencies := None; outdatedPackages := None;
          securityVulnerabilities := None; performanceIssues := None;
          antiPatterns :=
            Some [ {| issue_file := "src/app.js";
                      issue_text := "God object" |} ];
          bugs := None; potentialIssues := None;
          securityRisks := None; missingTests := None; testQuality := None;
          weightedCoverage := None; testCases := None |} ]>
    {[ "eslint"%string := Samples.lint_finding 0 w ]}.

End DoubleScore.

(* ===================================================================== *)
(** * lib/analyzer-base.js: calculateWeightedCoverage, in doubles *)
(* ===================================================================== *)

Module DoubleCoverage.

Import Double.

(** [fileCoverage.statements?.pct || 0] *)
Definition statements_or_zero (fileCoverage : AnalyzerBase.FileCoverage)
  : double :=
  match AnalyzerBase.statements_pct fileCoverage with
  | Some q => if truthy (of_Q q) then of_Q q else of_Z 0
  | None => of_Z 0
  end.

(** The four accumulators. *)
Record Totals : Type := {
  coreLogicSum : double;
  infrastructureSum : double;
  coreLogicCount : nat;
  infrastructureCount : nat
}.

Definition accumulate (acc : Totals)
    (entry : string * AnalyzerBase.FileCoverage) : Totals :=
  let '(filePath, fileCoverage) := entry in
  if String.eqb filePath "total" then acc
  else
    let statements := statements_or_zero fileCoverage in
    if AnalyzerBase.isCoreLogicFile filePath then
      {| coreLogicSum := add (coreLogicSum acc) statements;
         infrastructureSum := infrastructureSum acc;
         coreLogicCount := S (coreLogicCount acc);
         infrastructureCount := infrastructureCount acc |}
    else
      {| coreLogicSum := coreLogicSum acc;
         infrastructureSum := add (infrastructureSum acc) statements;
         coreLogicCount := coreLogicCount acc;
         infrastructureCount := S (infrastructureCount acc) |}.

(** [count > 0 ? sum / count : 0] *)
Definition average (sum : double) (count : nat) : double :=
  if (0 <? count)%nat then div sum (of_nat count) else of_Z 0.

(** [Math.round(x * 100) / 100] *)
Definition round2 (x : double) : double :=
  div (Math_round (mul x (of_Z 100))) (of_Z 100).

(** [Math.round(x * k * 10) / 100] *)
Definition points (x k : double) : double :=
  div (Math_round (mul (mul x k) (of_Z 10))) (of_Z 100).

Record WeightedPart : Type := {
  part_coverage : double;
  part_files : nat;
  part_weight : double;
  part_points : double
}.

Record WeightedCoverage : Type := {
  weightedScore : double;
  coreLogicCoverage : double;
  infrastructureCoverage : double;
  coreLogicFiles : nat;
  infrastructureFiles : nat;
  breakdown_coreLogic : WeightedPart;
  breakdown_infrastructure : WeightedPart
}.

Definition calculateWeightedCoverage
    (coverageData : list (string * AnalyzerBase.FileCoverage))
  : WeightedCoverage :=
  let acc :=
    fold_left accumulate coverageData
      {| coreLogicSum := of_Z 0; infrastructureSum := of_Z 0;
         coreLogicCount := 0; infrastructureCount := 0 |} in
  let avgCoreLogicCoverage := average (coreLogicSum acc) (coreLogicCount acc) in
  let avgInfrastructureCoverage :=
    average (infrastructureSum acc) (infrastructureCount acc) in
  let weighted :=
    add (mul avgCoreLogicCoverage (of_Q (8 # 10)))
        (mul avgInfrastructureCoverage (of_Q (2 # 10))) in
  {| weightedScore := round2 weighted;
     coreLogicCoverage := round2 avgCoreLogicCoverage;
     infrastructureCoverage := round2 avgInfrastructureCoverage;
     coreLogicFiles := coreLogicCount acc;
     infrastructureFiles := infrastructureCount acc;
     breakdown_coreLogic :=
       {| part_coverage := avgCoreLogicCoverage;
          part_files := coreLogicCount acc;
          part_weight := of_Q (8 # 10);
          part_points := points avgCoreLogicCoverage (of_Q (8 # 10)) |};
     breakdown_infrastructure :=
       {| part_coverage := avgInfrastructureCoverage;
          part_files := infrastructureCount acc;
          part_weight := of_Q (2 # 10);
          part_points := points avgInfrastructureCoverage (of_Q (2 # 10)) |} |}.

(** ** The means the loop computes *)

(** The percentages of a list of entries, added from the left, over their
    number; 0 for no entry. *)
Definition mean (entries : list (string * AnalyzerBase.FileCoverage))
  : double :=
  average
    (fold_left add (map (fun entry => statements_or_zero (snd entry)) entries)
       (of_Z 0))
    (length entries).

(** One file without coverage and two route files covered at 9.52 and
    9.53 percent. *)
Definition coverage_near_tie : list (string * AnalyzerBase.FileCoverage) :=
  [ ("src/services/user.service.js"%string,
     {| AnalyzerBase.statements_pct := Some 0%Q |});
    ("src/routes/user.routes.js"%string,
     {| AnalyzerBase.statements_pct := Some (952 # 100)%Q |});
    ("src/routes/order.routes.js"%string,
     {| AnalyzerBase.statements_pct := Some (953 # 100)%Q |}) ].

(** Four route files, and the same four with the last two exchanged. *)
Definition four_routes : list (string * AnalyzerBase.FileCoverage) :=
  [ ("src/routes/user.routes.js"%string,
     {| AnalyzerBase.statements_pct := Some (6696 # 100)%Q |});
    ("src/routes/order.routes.js"%string,
     {| AnalyzerBase.statements_pct := Some (2625 # 100)%Q |});
    ("src/routes/cart.routes.js"%string,
     {| AnalyzerBase.statements_pct := Some (91 # 10)%Q |});
    ("src/routes/admin.routes.js"%string,
     {| AnalyzerBase.statements_pct := Some (5519 # 100)%Q |}) ].

Definition four_routes_exchanged : list (string * AnalyzerBase.FileCoverage) :=
  [ ("src/routes/user.routes.js"%string,
     {| AnalyzerBase.statements_pct := Some (6696 # 100)%Q |});
    ("src/routes/order.routes.js"%string,
     {| AnalyzerBase.statements_pct := Some (2625 # 100)%Q |});
    ("src/routes/admin.routes.js"%string,
     {| AnalyzerBase.statements_pct := Some (5519 # 100)%Q |});
    ("src/routes/cart.routes.js"%string,
     {| AnalyzerBase.statements_pct := Some (91 # 10)%Q |}) ].

End DoubleCoverage.

(* ===================================================================== *)
(** * Properties *)
(* ===================================================================== *)

(** ** Doubles *)

Section Doubles.

Import Double.

(** The conversion, the arithmetic and [Math.round] on a few values:
    0.1 is 7205759403792794 * 2^-56; 0.1 + 0.2 is 0.30000000000000004;
    90 * 1.1 is 99.00000000000001; 2.5 rounds to 3, -2.5 to -2,
    0.49999999999999994 to 0 and -0.25 to -0. *)
Example double_samples :
  FloatOps.Prim2SF (of_Q (1 # 10))
  = SpecFloat.S754_finite false 7205759403792794 (-56)
  /\ of_Q (952 # 100) = div (of_Z 952) (of_Z 100)
  /\ add (of_Q (1 # 10)) (of_Q (2 # 10))
     = of_Q (30000000000000004 # 100000000000000000)
  /\ mul (of_Z 90) (of_Q (11 # 10))
     = of_Q (9900000000000001 # 100000000000000)
  /\ Math_round (of_Q (5 # 2)) = of_Z 3
  /\ Math_round (of_Q (-5 # 2)) = of_Z (-2)
  /\ Math_round (of_Q (49999999999999994 # 100000000000000000)) = of_Z 0
  /\ Math_round (of_Q (-1 # 4)) = PrimFloat.neg_zero
  /\ Math_round (of_Z 7) = of_Z 7
  /\ Math_round nan = nan
  /\ Math_max (of_Z 0) nan = nan
  /\ Math_max (of_Z 0) (of_Z (-16)) = of_Z 0
  /\ Math_min (of_Z 100) (of_Q (855 # 10)) = of_Q (855 # 10)
  /\ truthy (of_Z 0) = false /\ truthy nan = false
  /\ truthy (of_Q (1 # 10)) = true.
Proof. repeat split; vm_compute; reflexivity. Qed.

End Doubles.

(** ** Rounding *)

Section Rounding.

Local Open Scope Q_scope.

Lemma round_half_up_proper x y : x == y -> Js.round_half_up x = Js.round_half_up y.
Proof.
  intros E. unfold Js.round_half_up. apply Qfloor_comp. now rewrite E.
Qed.

Lemma round2_proper x y : x == y -> AnalyzerBase.round2 x = AnalyzerBase.round2 y.
Proof.
  intros E. unfold AnalyzerBase.round2.
  rewrite (round_half_up_proper (x * 100) (y * 100)); [reflexivity|].
  now rewrite E.
Qed.

Lemma round_half_up_Z (z : Z) : Js.round_half_up (inject_Z z) = z.
Proof.
  unfold Js.round_half_up.
  pose proof (Qfloor_le (inject_Z z + (1 # 2))) as Hle.
  pose proof (Qlt_floor (inject_Z z + (1 # 2))) as Hlt.
  set (f := Qfloor (inject_Z z + (1 # 2))) in *.
  unfold Qle, Qlt in *; cbn in *. lia.
Qed.

Lemma round_half_up_mono x y : x <= y -> (Js.round_half_up x <= Js.round_half_up y)%Z.
Proof. intros H. apply Qfloor_resp_le. lra. Qed.

Lemma round_half_up_bounds (x : Q) (lo hi : Z) :
  inject_Z lo <= x -> x <= inject_Z hi ->
  (lo <= Js.round_half_up x <= hi)%Z.
Proof.
  intros Hlo Hhi. split.
  - rewrite <- (round_half_up_Z lo). now apply round_half_up_mono.
  - rewrite <- (round_half_up_Z hi). now apply round_half_up_mono.
Qed.

End Rounding.

(** ** Two-tier coverage weighting *)

Section WeightedCoverage.

Import AnalyzerBase.

Local Open Scope Q_scope.

Lemma accumulate_total acc c : accumulate acc ("total"%string, c) = acc.
Proof. reflexivity. Qed.

(** The loop adds each file to the sum and the count of its class. *)
Lemma fold_accumulate data : forall acc,
  let r := fold_left accumulate data acc in
  coreLogicSum r == coreLogicSum acc + Spec.sum_statements (Spec.class_entries true data)
  /\ infrastructureSum r ==
       infrastructureSum acc + Spec.sum_statements (Spec.class_entries false data)
  /\ coreLogicCount r =
       (coreLogicCount acc + length (Spec.class_entries true data))%nat
  /\ infrastructureCount r =
       (infrastructureCount acc + length (Spec.class_entries false data))%nat.
Proof.
  induction data as [|[p c] data IH]; intros acc; cbn zeta.
  - cbn. repeat split; try lra; lia.
  - cbn [fold_left].
    specialize (IH (accumulate acc (p, c))). cbn zeta in IH.
    destruct IH as (H1 & H2 & H3 & H4).
    rewrite H1, H2, H3, H4. clear H1 H2 H3 H4.
    unfold Spec.class_entries. cbn [List.filter fst].
    unfold accumulate.
    destruct (String.eqb p "total"); cbn [negb andb].
    + repeat split; try lra; lia.
    + destruct (isCoreLogicFile p); cbn [Bool.eqb negb andb coreLogicSum
        infrastructureSum coreLogicCount infrastructureCount
        Spec.sum_statements fold_right length snd].
      * repeat split; try lra; try lia.
        fold (Spec.sum_statements
                (List.filter (fun entry => negb (String.eqb (fst entry) "total")
                   && Bool.eqb (isCoreLogicFile (fst entry)) true) data)).
        lra.
      * repeat split; try lra; try lia.
        fold (Spec.sum_statements
                (List.filter (fun entry => negb (String.eqb (fst entry) "total")
                   && Bool.eqb (isCoreLogicFile (fst entry)) false) data)).
        lra.
Qed.

Lemma average_mean sum count entries :
  sum == Spec.sum_statements entries -> count = length entries ->
  average sum count == Spec.mean_statements entries.
Proof.
  intros Hs ->. unfold average, Spec.mean_statements.
  destruct entries as [|e entries]; [reflexivity|].
  cbn [length Nat.ltb Nat.leb]. now rewrite Hs.
Qed.

Lemma weightedScore_rounded data :
  Findings.weightedScore (calculateWeightedCoverage data)
  = Some (round2 (Spec.weighted_coverage data)).
Proof.
  unfold calculateWeightedCoverage. cbn [Findings.weightedScore]. f_equal.
  apply round2_proper.
  pose proof (fold_accumulate data
    {| coreLogicSum := 0; infrastructureSum := 0;
       coreLogicCount := 0; infrastructureCount := 0 |}) as H.
  cbn zeta in H. cbn [coreLogicSum infrastructureSum coreLogicCount
    infrastructureCount] in H.
  destruct H as (H1 & H2 & H3 & H4).
  unfold Spec.weighted_coverage.
  rewrite (average_mean _ _ (Spec.class_entries true data)); [|lra|lia].
  rewrite (average_mean _ _ (Spec.class_entries false data)); [|lra|lia].
  lra.
Qed.

End WeightedCoverage.

Section WeightedCoverageClaim.

Import AnalyzerBase.

Local Open Scope Q_scope.

(** A file is infrastructure exactly when its base name has a route or
    middleware pattern and none of the core-logic patterns. *)
Lemma isCoreLogicFile_classes filePath :
  isCoreLogicFile filePath =
  Spec.core_logic_name (Js.basename filePath)
  || negb (Spec.infrastructure_name (Js.basename filePath)).
Proof.
  unfold isCoreLogicFile, Spec.core_logic_name, Spec.infrastructure_name.
  cbn [existsb].
  repeat match goal with
         | |- context [Js.includes ?a ?b] => destruct (Js.includes a b)
         end; reflexivity.
Qed.

Lemma num_eq_refl a : Js.num_eq a a.
Proof. destruct a; cbn; [reflexivity | exact I]. Qed.

(** In the revision with weighted scoring, the sub-score of the test
    analyzer is the weighted score, capped at 100, whenever the finding has
    a structured coverage and weighted data. *)
Lemma tests_score_weighted (f : Findings.Finding) c w ws :
  Findings.coverage f = Some (Findings.CoverageObj c) ->
  Findings.weightedCoverage f = Some w ->
  Findings.weightedScore w = Some ws ->
  Js.num_eq (CodeReviewToolWeighted.getAnalyzerScore "tests" f)
            (Js.Num (Qmin 100 ws)).
Proof.
  intros Hc Hw Hs. unfold CodeReviewToolWeighted.getAnalyzerScore.
  cbn [String.eqb Ascii.eqb Bool.eqb]. rewrite Hc.
  unfold CodeReviewToolWeighted.calculateWeightedTestScore,
    CodeReviewToolWeighted.as_input.
  cbn [Findings.ts_weightedCoverage]. rewrite Hw.
  destruct w as [ws' ? ? ? ? ? ?]. cbn in Hs. subst ws'.
  cbn. 
  rewrite Q.min_assoc, Q.min_id. reflexivity.
Qed.

(** C4, as stated, fails: a single service file covered at 33.33 percent
    scores 26.66, not 0.8 x 33.33 = 26.664. *)
Lemma weighted_coverage_not_exact :
  exists w,
    Findings.weightedScore (calculateWeightedCoverage Samples.coverage_one_service)
      = Some w
    /\ w == 2666 # 100
    /\ Spec.weighted_coverage Samples.coverage_one_service == 26664 # 1000
    /\ ~ w == Spec.weighted_coverage Samples.coverage_one_service.
Proof.
  eexists. split; [reflexivity|]. split; [reflexivity|].
  split; [reflexivity|]. vm_compute. discriminate.
Qed.

End WeightedCoverageClaim.

(** ** Two-tier coverage weighting, as the program computes it *)

Section WeightedCoverageInDoubles.

Import Double DoubleCoverage.

Local Open Scope Q_scope.

(** The loop adds each file to the sum and the count of its class, the
    sums from the left. *)
Lemma double_fold_accumulate data : forall acc,
  let r := fold_left accumulate data acc in
  coreLogicSum r
  = fold_left add
      (map (fun entry => statements_or_zero (snd entry))
         (Spec.class_entries true data)) (coreLogicSum acc)
  /\ infrastructureSum r
     = fold_left add
         (map (fun entry => statements_or_zero (snd entry))
            (Spec.class_entries false data)) (infrastructureSum acc)
  /\ coreLogicCount r
     = (coreLogicCount acc + length (Spec.class_entries true data))%nat
  /\ infrastructureCount r
     = (infrastructureCount acc + length (Spec.class_entries false data))%nat.
Proof.
  induction data as [|[p c] data IH]; intros acc; cbn zeta.
  - cbn. repeat split; lia.
  - cbn [fold_left].
    specialize (IH (accumulate acc (p, c))). cbn zeta in IH.
    destruct IH as (H1 & H2 & H3 & H4).
    rewrite H1, H2, H3, H4. clear H1 H2 H3 H4.
    unfold Spec.class_entries. cbn [List.filter fst].
    unfold accumulate.
    destruct (String.eqb p "total"); cbn [negb andb]; [repeat split|].
    destruct (AnalyzerBase.isCoreLogicFile p);
      cbn [Bool.eqb negb andb coreLogicSum infrastructureSum coreLogicCount
           infrastructureCount map fold_left length snd];
      repeat split; lia.
Qed.

Lemma double_weightedScore data :
  weightedScore (calculateWeightedCoverage data)
  = round2
      (add (mul (mean (Spec.class_entries true data)) (of_Q (8 # 10)))
           (mul (mean (Spec.class_entries false data)) (of_Q (2 # 10)))).
Proof.
  unfold calculateWeightedCoverage. cbn [weightedScore].
  pose proof (double_fold_accumulate data
    {| coreLogicSum := of_Z 0; infrastructureSum := of_Z 0;
       coreLogicCount := 0; infrastructureCount := 0 |}) as H.
  cbn zeta in H. cbn [coreLogicSum infrastructureSum coreLogicCount
    infrastructureCount plus] in H.
  destruct H as (-> & -> & -> & ->). reflexivity.
Qed.

(** C4 (as amended).  The weighted coverage score is
    Math.round(w * 100) / 100 for w = meanCore * 0.8 + meanInfra * 0.2,
    evaluated in doubles, where the mean of a class adds the statement
    percentages of its files from the left and divides by their number,
    and is 0 for a class without files.  A file is infrastructure exactly
    when its base name contains "route" or "middleware" and none of the
    core-logic patterns, and core logic otherwise.  Means of 90 and 50 give
    82, and one service file covered at 33.33 percent gives 26.66.
    Because every operation rounds, the score is not always the exact
    combination rounded half up: an infrastructure mean of 9.525 beside a
    core mean of 0 gives 1.9, where the exact value 1.905 rounds to
    1.91. *)
Theorem weighted_coverage_two_decimals
    (coverageData : list (string * AnalyzerBase.FileCoverage)) :
  let meanCore := mean (Spec.class_entries true coverageData) in
  let meanInfra := mean (Spec.class_entries false coverageData) in
  weightedScore (calculateWeightedCoverage coverageData)
  = div (Math_round
           (mul (add (mul meanCore (of_Q (8 # 10)))
                     (mul meanInfra (of_Q (2 # 10))))
                (of_Z 100)))
        (of_Z 100)
  /\ (forall filePath,
        AnalyzerBase.isCoreLogicFile filePath = false <->
        Spec.infrastructure_name (Js.basename filePath) = true /\
        Spec.core_logic_name (Js.basename filePath) = false)
  /\ (meanCore = of_Z 90 -> meanInfra = of_Z 50 ->
      weightedScore (calculateWeightedCoverage coverageData) = of_Z 82)
  /\ (mean (Spec.class_entries true Samples.coverage_90_50) = of_Z 90
      /\ mean (Spec.class_entries false Samples.coverage_90_50) = of_Z 50
      /\ weightedScore (calculateWeightedCoverage Samples.coverage_90_50)
         = of_Z 82)
  /\ weightedScore (calculateWeightedCoverage Samples.coverage_one_service)
     = of_Q (2666 # 100)
  /\ (weightedScore (calculateWeightedCoverage coverage_near_tie)
      = of_Q (19 # 10)
      /\ Spec.weighted_coverage coverage_near_tie == 1905 # 1000
      /\ AnalyzerBase.round2 (1905 # 1000) == 191 # 100).
Proof.
  cbn zeta. split; [apply double_weightedScore|]. split.
  { intros filePath. rewrite isCoreLogicFile_classes.
    destruct (Spec.core_logic_name _), (Spec.infrastructure_name _);
      cbn; intuition congruence. }
  split.
  { intros H90 H50. rewrite double_weightedScore, H90, H50.
    vm_compute. reflexivity. }
  split; [repeat split; vm_compute; reflexivity|].
  split; [vm_compute; reflexivity|].
  split; [vm_compute; reflexivity|]. split; reflexivity.
Qed.

End WeightedCoverageInDoubles.

(** ** The fallback curve of the test score *)

Section CoverageCurve.

Import Findings Js CodeReviewToolWeighted.

Local Open Scope Q_scope.

Lemma Qle_bool_false x y : Qle_bool x y = false <-> y < x.
Proof.
  split; intros H.
  - apply Qnot_le_lt. intros Hle. apply Qle_bool_iff in Hle. congruence.
  - destruct (Qle_bool x y) eqn:E; [|reflexivity].
    apply Qle_bool_iff in E. lra.
Qed.

Ltac qbool :=
  repeat match goal with
         | H : Qle_bool _ _ = true |- _ => apply Qle_bool_iff in H
         | H : Qle_bool _ _ = false |- _ => apply Qle_bool_false in H
         | H : Qeq_bool _ _ = true |- _ => apply Qeq_bool_iff in H
         | H : Qeq_bool _ _ = false |- _ => apply Qeq_bool_neq in H
         end.

Lemma coverage_curve_bounds s : 0 <= s -> 0 <= Spec.coverage_curve s <= 100.
Proof.
  intros Hs. unfold Spec.coverage_curve.
  destruct (Qle_bool 70 s) eqn:E70; [|destruct (Qle_bool 40 s) eqn:E40]; qbool.
  - split; [apply Q.min_glb; lra | apply Q.le_min_l].
  - lra.
  - lra.
Qed.

(** The three branches of the source agree with the curve, whichever
    representation of the percentage they are run on. *)
Lemma fallback_branches s' s :
  s' == s -> 0 <= s ->
  num_eq
    (if geb (Num s') (Num 70) then Math_min (Num 100) (mul (Num s') (Num (11 # 10)))
     else if geb (Num s') (Num 40) then Num s'
     else Math_max (Num 0) (mul (Num s') (Num (8 # 10))))
    (Num (Spec.coverage_curve s)).
Proof.
  intros E Hs. unfold Spec.coverage_curve. cbn [geb].
  destruct (Qle_bool 70 s') eqn:E1, (Qle_bool 70 s) eqn:E2; qbool; try lra.
  - cbn. now rewrite E.
  - destruct (Qle_bool 40 s') eqn:E3, (Qle_bool 40 s) eqn:E4; qbool; try lra.
    + cbn. exact E.
    + cbn. rewrite E. apply Q.max_r. lra.
Qed.

(** The fallback of [calculateWeightedTestScore] and the [tests] case that
    calls it, on a structured coverage record. *)
Lemma fallback_on_structured_coverage (input : TestScoreInput) (s : Q) :
  Spec.weighted_unavailable (ts_weightedCoverage input) ->
  ts_coverage input
    = Some (CoverageObj {| statements := Some (StatementsNum s) |}) ->
  0 <= s ->
  num_eq (calculateWeightedTestScore input) (Num (Spec.coverage_curve s))
  /\ (forall f : Finding,
        as_input f = input ->
        num_eq (getAnalyzerScore "tests" f) (Num (Spec.coverage_curve s))).
Proof.
  intros Hun Hcov Hs.
  assert (Hcalc :
    num_eq (calculateWeightedTestScore input) (Num (Spec.coverage_curve s))).
  { unfold calculateWeightedTestScore.
    assert (Hsc : exists s', statementsCoverage input = Num s' /\ s' == s).
    { unfold statementsCoverage. rewrite Hcov. cbn [statements].
      destruct (Qeq_bool s 0) eqn:E; qbool.
      - exists 0. split; [reflexivity | now symmetry].
      - exists s. split; reflexivity. }
    destruct Hsc as (s' & -> & E).
    destruct (ts_weightedCoverage input) as [[[ws|] ? ? ? ? ? ?]|];
      cbn in Hun; try contradiction; now apply fallback_branches. }
  split; [exact Hcalc|].
  intros f Hf. unfold getAnalyzerScore.
  cbn [String.eqb Ascii.eqb Bool.eqb].
  assert (Hc : coverage f
               = Some (CoverageObj {| statements := Some (StatementsNum s) |})).
  { rewrite <- Hcov, <- Hf. reflexivity. }
  rewrite Hc, Hf.
  pose proof (coverage_curve_bounds s Hs) as [_ Hle].
  fold (Spec.coverage_curve s).
  destruct (calculateWeightedTestScore input) as [q|]; cbn in *;
    [|contradiction].
  rewrite Hcalc. apply Q.min_r. exact Hle.
Qed.



End CoverageCurve.

(** ** Default report selection *)

Section ReportSelection.

Import CodeReviewToolWeighted.

Local Open Scope string_scope.

Lemma plain_is_not_ai : isAITesting (Cli.toolOptions (Cli.no_explicit_list false false)) = false.
Proof. reflexivity. Qed.

Lemma flags_are_ai aiPrompts aiAnalysis :
  (aiPrompts || aiAnalysis)%bool = true ->
  isAITesting (Cli.toolOptions (Cli.no_explicit_list aiPrompts aiAnalysis)) = true.
Proof. destruct aiPrompts, aiAnalysis; cbn; congruence. Qed.

(** The revision of lib/index.js kept in src/unnamed/part_001 does what
    the command line announces: without an explicit report list, a plain
    run calls the html renderer and no other; a run with AI prompts (or AI
    analysis) requested calls the html renderer and then the AI summary
    renderer.  The report map holds the artifact of every renderer that
    returned. *)
Lemma mode_override_selection (reporter : ReporterRun)
    (configured : list string) (aiAnalysis : bool) :
  let plain :=
    generateReports reporter (Cli.toolOptions (Cli.no_explicit_list false false))
      configured in
  let exploratory :=
    generateReports reporter (Cli.toolOptions (Cli.no_explicit_list true aiAnalysis))
      configured in
  rendered plain = [ "html" ]
  /\ rendered exploratory = [ "html"; "ai-summary" ]
  /\ (forall name, name ∈ rendered plain -> name ∈ rendered exploratory)
  /\ ("ai-summary" ∈ rendered exploratory)
  /\ ("ai-summary" ∉ rendered plain)
  /\ (forall html, generateHTMLReport reporter = Artifact html ->
        reports plain = {[ "html" := html ]})
  /\ (forall html summary,
        generateHTMLReport reporter = Artifact html ->
        generateAISummaryMD reporter = Artifact summary ->
        reports exploratory = <[ "aiSummary" := summary ]> {[ "html" := html ]})
  /\ dom (reports plain) ⊆ ({[ "html" ]} : gset string)
  /\ dom (reports exploratory) ⊆ ({[ "html"; "aiSummary" ]} : gset string).
Proof.
  cbn zeta.
  unfold generateReports.
  rewrite plain_is_not_ai, (flags_are_ai true aiAnalysis) by reflexivity.
  cbn [fold_left]. unfold report. cbn [String.eqb Ascii.eqb Bool.eqb].
  unfold render.
  assert (Hin : forall name : string,
            name ∈ [ "html" ] -> name ∈ [ "html"; "ai-summary" ]).
  { intros name. rewrite !elem_of_cons. tauto. }
  assert (Hsum : "ai-summary" ∈ [ "html"; "ai-summary" ]).
  { rewrite !elem_of_cons. tauto. }
  assert (Hnot : "ai-summary" ∉ [ "html" ]).
  { rewrite !elem_of_cons, elem_of_nil. intros [[=]|[]]. }
  destruct (generateHTMLReport reporter) as [h|e1],
           (generateAISummaryMD reporter) as [s|e2];
    cbn [rendered reports app];
    (split; [reflexivity|]); (split; [reflexivity|]);
    (split; [exact Hin|]); (split; [exact Hsum|]); (split; [exact Hnot|]);
    (split; [intros html Hh;
             first [ discriminate Hh
                   | inversion Hh; subst;
                     first [ apply insert_empty | reflexivity ] ] |]);
    (split; [intros html summary Hh Hs;
             first [ discriminate Hh | discriminate Hs
                   | inversion Hh; inversion Hs; subst; reflexivity ] |]);
    clear; rewrite ?dom_insert_L, ?dom_empty_L; split; set_unfold; tauto.
Qed.

(** The revision in src/lib/index.js renders the list it is given: under
    the same command lines a plain run with the default configuration
    renders html, and a run with [--ai-prompts] renders the AI prompts
    alone. *)
Example listed_reports_follow_the_list (reporter : ReporterRun) :
  rendered (CodeReviewToolReports.generateReports reporter
              (Cli.toolOptions (Cli.no_explicit_list false false))
              (ConfigManager.getEnabledReporters ConfigManager.getDefaultConfig))
  = [ "html" ]
  /\ rendered (CodeReviewToolReports.generateReports reporter
                 (Cli.toolOptions (Cli.no_explicit_list true false))
                 (ConfigManager.getEnabledReporters ConfigManager.getDefaultConfig))
     = [ "ai-prompts" ].
Proof.
  unfold CodeReviewToolReports.generateReports. cbn [fold_left default].
  split.
  - cbn. destruct (generateHTMLReport reporter); reflexivity.
  - cbn. destruct (generateAIPrompts reporter); reflexivity.
Qed.

(** C6.  In src/lib/index.js, as bin/cli.js calls it, a run with
    [--ai-prompts] and no [--reporters] is announced as AI testing mode
    (HTML and AI summary) and renders the AI prompts alone: the html
    renderer is not called, no AI summary exists, whatever the
    configuration lists.  A run with [--ai-analysis] alone renders
    nothing.  A plain run renders the reports of the configuration, html
    alone under the default one; so the reports of the exploratory run do
    not contain those of the plain run. *)
Theorem ai_prompts_run_renders_no_html (reporter : ReporterRun)
    (configured : list string) :
  let exploratory :=
    CodeReviewToolReports.generateReports reporter
      (Cli.toolOptions (Cli.no_explicit_list true false)) configured in
  let analysis :=
    CodeReviewToolReports.generateReports reporter
      (Cli.toolOptions (Cli.no_explicit_list false true)) configured in
  let plain :=
    CodeReviewToolReports.generateReports reporter
      (Cli.toolOptions (Cli.no_explicit_list false false)) configured in
  let by_default :=
    CodeReviewToolReports.generateReports reporter
      (Cli.toolOptions (Cli.no_explicit_list false false))
      (ConfigManager.getEnabledReporters ConfigManager.getDefaultConfig) in
  Cli.announced (Cli.no_explicit_list true false) = Cli.AITestingMode
  /\ Cli.announced (Cli.no_explicit_list false true) = Cli.AITestingMode
  /\ Cli.announced (Cli.no_explicit_list false false) = Cli.GeneralTestingMode
  /\ rendered exploratory = [ "ai-prompts" ]
  /\ ("html" ∉ rendered exploratory)
  /\ ("ai-summary" ∉ rendered exploratory)
  /\ dom (reports exploratory) ⊆ ({[ "aiPrompts" ]} : gset string)
  /\ rendered analysis = []
  /\ unknownReporters analysis = [ "ai-analysis" ]
  /\ reports analysis = ∅
  /\ plain
     = fold_left (CodeReviewToolReports.report reporter) configured
         {| reports := ∅; rendered := []; failed := [];
            unknownReporters := [] |}
  /\ rendered by_default = [ "html" ]
  /\ ~ (forall name, name ∈ rendered by_default -> name ∈ rendered exploratory).
Proof.
  intros exploratory analysis plain by_default.
  assert (He : rendered exploratory = [ "ai-prompts" ]).
  { subst exploratory. cbn. unfold render.
    now destruct (generateAIPrompts reporter). }
  assert (Hd : rendered by_default = [ "html" ]).
  { subst by_default. cbn. unfold render.
    now destruct (generateHTMLReport reporter). }
  do 3 (split; [reflexivity|]).
  rewrite He, Hd.
  split; [reflexivity|].
  split; [rewrite elem_of_cons, elem_of_nil; intros [[=]|[]]|].
  split; [rewrite elem_of_cons, elem_of_nil; intros [[=]|[]]|].
  split.
  { subst exploratory. cbn. unfold render.
    destruct (generateAIPrompts reporter); cbn [reports];
      rewrite ?dom_insert_L, ?dom_empty_L; set_solver. }
  do 4 (split; [reflexivity|]).
  split; [reflexivity|].
  intros H. specialize (H "html"). rewrite !elem_of_cons, !elem_of_nil in H.
  destruct H as [[=]|[]]. now left.
Qed.

End ReportSelection.

(** ** The enabled analyzers are duplicate-free *)

Section EnabledAnalyzers.

Import ConfigManager.

Lemma unique_from_spec xs : forall seen,
  NoDup (unique_from seen xs)
  /\ forall x, x ∈ unique_from seen xs -> x ∉ seen.
Proof.
  induction xs as [|x xs IH]; intros seen; cbn.
  - split; [constructor | intros x Hx; inversion Hx].
  - case_bool_decide as Hseen.
    + apply IH.
    + destruct (IH (x :: seen)) as [Hnd Hfresh]. split.
      * constructor; [|exact Hnd].
        intros Hin. apply (Hfresh x Hin). left.
      * intros y Hy. apply elem_of_cons in Hy as [->|Hy]; [exact Hseen|].
        intros Hys. apply (Hfresh y Hy). now right.
Qed.

Lemma NoDup_unique xs : NoDup (unique xs).
Proof. apply unique_from_spec. Qed.






End EnabledAnalyzers.

(** ** The orchestrator *)

Section Orchestrator.

Import Findings CodeReviewTool.

Variable analyzer : AnalyzerRun.

Lemma switch_Some_known name target :
  switch name cases = Some target -> name ∈ known_names.
Proof.
  unfold known_names. generalize cases. intros cs.
  induction cs as [|[n t] cs IH]; cbn; [discriminate|].
  destruct (String.eqb name n) eqn:E.
  - apply String.eqb_eq in E as ->. intros _. left.
  - intros H. right. now apply IH.
Qed.

Lemma known_cases (P : string -> Prop) name :
  name ∈ known_names ->
  P "eslint" -> P "typescript" -> P "security" -> P "tests" ->
  P "complexity" -> P "custom-rules" -> P "dependencies" -> P "coverage" ->
  P "performance" -> P "architecture" -> P "bug-detection" ->
  P "test-cases" -> P name.
Proof.
  unfold known_names. cbn [map cases fst].
  rewrite !elem_of_cons, elem_of_nil.
  intuition (subst; assumption).
Qed.

(** One iteration writes exactly the entry [written] describes. *)
Lemma iteration_findings st name :
  findings (iteration analyzer st name) =
  match written analyzer name with
  | Some (key, f) => <[key := f]> (findings st)
  | None => findings st
  end.
Proof.
  unfold iteration, attempt, written, try_catch.
  destruct (switch name cases) as [[key method]|]; [|reflexivity].
  destruct (method analyzer); reflexivity.
Qed.

Lemma iteration_executed st name :
  executed (iteration analyzer st name) =
  match written analyzer name with
  | Some _ => executed st ++ [name]
  | None => executed st
  end.
Proof.
  unfold iteration, attempt, written, try_catch.
  destruct (switch name cases) as [[key method]|]; [|reflexivity].
  destruct (method analyzer); reflexivity.
Qed.

Lemma iteration_unknown st name :
  unknown (iteration analyzer st name) =
  match written analyzer name with
  | Some _ => unknown st
  | None => unknown st ++ [name]
  end.
Proof.
  unfold iteration, attempt, written, try_catch.
  destruct (switch name cases) as [[key method]|]; [|reflexivity].
  destruct (method analyzer); reflexivity.
Qed.

(** The key an iteration writes stands for the analyzer that was asked
    for, whether it returned or threw. *)
Lemma analyzer_of_written name key f :
  written analyzer name = Some (key, f) -> analyzer_of_key key = name.
Proof.
  unfold written.
  destruct (switch name cases) as [[k method]|] eqn:Hs; [|discriminate].
  pose proof (switch_Some_known _ _ Hs) as Hk.
  revert k method Hs.
  apply (known_cases
           (fun name => forall k method,
              switch name cases = Some (k, method) ->
              match method analyzer with
              | Returns f0 => Some (k, f0)
              | Throws message => Some (name, failureRecord message)
              end = Some (key, f) -> analyzer_of_key key = name) name Hk);
    intros k method [= <- <-];
    match goal with |- context [?m analyzer] => destruct (m analyzer) end;
    intros [= <- _]; reflexivity.
Qed.



(** The whole loop, for names that are all in the [switch]. *)
Lemma run_fold names : forall st,
  (forall n, n ∈ names -> is_Some (written analyzer n)) ->
  let final := fold_left (iteration analyzer) names st in
  executed final = executed st ++ names
  /\ unknown final = unknown st
  /\ (forall key, key ∉ key_written analyzer <$> names ->
       findings final !! key = findings st !! key).
Proof.
  induction names as [|name names IH]; intros st Hw; cbn zeta.
  - cbn. rewrite app_nil_r. auto.
  - cbn [fold_left].
    destruct (IH (iteration analyzer st name)) as (He & Hu & Hf).
    { intros n Hn. apply Hw. now right. }
    destruct (Hw name) as [[key f] Ew]; [left|].
    rewrite He, Hu, iteration_executed, iteration_unknown, Ew.
    split; [now rewrite <- app_assoc|]. split; [reflexivity|].
    intros k Hk. rewrite fmap_cons, not_elem_of_cons in Hk.
    destruct Hk as [Hne Hk]. rewrite (Hf k Hk), iteration_findings, Ew.
    apply lookup_insert_ne. unfold key_written in Hne. now rewrite Ew in Hne.
Qed.


End Orchestrator.

Section OrchestratorClaims.

Import Findings CodeReviewTool.

Lemma outcome_throws analyzer name message :
  outcome analyzer name = Some (Throws message) ->
  written analyzer name = Some (name, failureRecord message).
Proof.
  unfold outcome, written.
  destruct (switch name cases) as [[key method]|]; [|discriminate].
  cbn. now intros [= ->].
Qed.

Lemma outcome_returns analyzer name f :
  outcome analyzer name = Some (Returns f) ->
  exists key, successKey name = Some key
              /\ written analyzer name = Some (key, f).
Proof.
  unfold outcome, written, successKey.
  destruct (switch name cases) as [[key method]|]; [|discriminate].
  cbn. intros [= ->]. now exists key.
Qed.





(** The three hyphenated names of the [switch]. *)
Lemma written_hyphenated analyzer name key f :
  written analyzer name = Some (key, f) ->
  key ∈ [ "custom-rules"; "bug-detection"; "test-cases" ]%string ->
  exists message, f = failureRecord message.
Proof.
  unfold written.
  destruct (switch name cases) as [[k method]|] eqn:Hs; [|discriminate].
  pose proof (switch_Some_known _ _ Hs) as Hk.
  revert k method Hs.
  apply (known_cases
           (fun name => forall k method,
              switch name cases = Some (k, method) ->
              match method analyzer with
              | Returns f0 => Some (k, f0)
              | Throws message => Some (name, failureRecord message)
              end = Some (key, f) ->
              key ∈ [ "custom-rules"; "bug-detection"; "test-cases" ]%string ->
              exists message, f = failureRecord message) name Hk);
    intros k method [= <- <-];
    match goal with |- context [?m analyzer] => destruct (m analyzer) end;
    intros [= <- <-] Hkey; eauto;
    rewrite !elem_of_cons, elem_of_nil in Hkey;
    destruct Hkey as [|[|[|[]]]]; discriminate.
Qed.

(** Under a hyphenated name the findings map only ever holds a failure
    record. *)
Lemma hyphenated_entries analyzer names key : forall st,
  key ∈ [ "custom-rules"; "bug-detection"; "test-cases" ]%string ->
  (forall f, findings st !! key = Some f ->
     exists message, f = failureRecord message) ->
  forall f, findings (fold_left (iteration analyzer) names st) !! key = Some f ->
    exists message, f = failureRecord message.
Proof.
  induction names as [|name names IH]; intros st Hkey Hst; [exact Hst|].
  cbn [fold_left]. apply IH; [exact Hkey|].
  intros f. rewrite iteration_findings.
  destruct (written analyzer name) as [[k v]|] eqn:Ew; [|apply Hst].
  destruct (decide (k = key)) as [->|Hne].
  - rewrite lookup_insert_eq. intros [= <-].
    now apply (written_hyphenated analyzer name key v).
  - rewrite lookup_insert_ne by exact Hne. apply Hst.
Qed.

Lemma counted_failure (fs : gmap string Finding) name :
  (forall f, fs !! name = Some f -> exists message, f = failureRecord message) ->
  counted fs name = false.
Proof.
  intros H. unfold counted. destruct (fs !! name) as [f|]; [|reflexivity].
  destruct (H f eq_refl) as [message ->]. reflexivity.
Qed.

(** C9.  For 'custom-rules', 'bug-detection' and 'test-cases' a run that
    returns is stored under the camelCase key, which is not the requested
    name, and a run that throws is stored under the requested name.  So in
    the findings of any run the three hyphenated keys hold failure records
    only, and the weight-table entries 'bug-detection' and 'test-cases'
    never add to the score. *)
Theorem hyphenated_keys_hold_failures (analyzer : AnalyzerRun)
    (names : list string) :
  let run := runAnalyzers analyzer names in
  (forall name key,
     (name, key) ∈ [ ("custom-rules", "customRules");
                     ("bug-detection", "bugDetection");
                     ("test-cases", "testCases") ]%string ->
     successKey name = Some key /\ key ≠ name
     /\ (forall f, outcome analyzer name = Some (Returns f) ->
          findings (runAnalyzers analyzer [name]) = {[ key := f ]})
     /\ (forall message, outcome analyzer name = Some (Throws message) ->
          findings (runAnalyzers analyzer [name])
          = {[ name := failureRecord message ]}))
  /\ (forall name f,
        name ∈ [ "custom-rules"; "bug-detection"; "test-cases" ]%string ->
        findings run !! name = Some f ->
        exists message, f = failureRecord message)
  /\ (forall entry,
        entry ∈ weights ->
        fst entry ∈ [ "bug-detection"; "test-cases" ]%string ->
        counted (findings run) (fst entry) = false
        /\ Spec.contribution (findings run) entry = Js.Num 0).
Proof.
  cbn zeta.
  assert (Hfail : forall name f,
            name ∈ [ "custom-rules"; "bug-detection"; "test-cases" ]%string ->
            findings (runAnalyzers analyzer names) !! name = Some f ->
            exists message, f = failureRecord message).
  { intros name f Hname. unfold runAnalyzers.
    apply hyphenated_entries; [exact Hname|].
    intros g. cbn [findings]. rewrite lookup_empty. discriminate. }
  split; [|split; [exact Hfail|]].
  - intros name key Hpair. rewrite !elem_of_cons, elem_of_nil in Hpair.
    destruct Hpair as [[= -> ->]|[[= -> ->]|[[= -> ->]|[]]]];
      (split; [reflexivity|]); (split; [discriminate|]);
      (split; [intros f Hf | intros message Hm]);
      unfold runAnalyzers; cbn [fold_left]; rewrite iteration_findings;
      first [ destruct (outcome_returns _ _ _ Hf) as (k & [= <-] & ->)
            | rewrite (outcome_throws _ _ _ Hm) ];
      cbn [findings]; apply insert_empty.
  - intros entry _ Hentry.
    assert (Hc : counted (findings (runAnalyzers analyzer names)) (fst entry)
                 = false).
    { apply counted_failure. intros f. apply Hfail.
      rewrite !elem_of_cons, elem_of_nil in *. tauto. }
    split; [exact Hc|]. unfold Spec.contribution. now rewrite Hc.
Qed.

(** Only the iteration for 'custom-rules' writes the key [customRules]. *)
Lemma customRules_last analyzer f names : forall st,
  checkCustomRules analyzer = Returns f ->
  "custom-rules"%string ∈ names \/ findings st !! "customRules"%string = Some f ->
  findings (fold_left (iteration analyzer) names st) !! "customRules"%string
  = Some f.
Proof.
  induction names as [|name names IH]; intros st Hret Hst.
  - destruct Hst as [Hin|Hst]; [inversion Hin | exact Hst].
  - cbn [fold_left]. apply IH; [exact Hret|].
    destruct (decide (name = "custom-rules"%string)) as [->|Hne].
    + right. rewrite iteration_findings. unfold written. cbn. rewrite Hret.
      apply lookup_insert_eq.
    + destruct Hst as [Hin|Hst].
      * left. apply elem_of_cons in Hin as [E|Hin]; [congruence | exact Hin].
      * right. rewrite iteration_findings.
        destruct (written analyzer name) as [[k v]|] eqn:Ew; [|exact Hst].
        rewrite lookup_insert_ne; [exact Hst|].
        intros ->. apply Hne.
        now rewrite <- (analyzer_of_written _ _ _ _ Ew).
Qed.

(** C10.  With a rule engine that is absent, or whose rule list is absent
    or empty, the custom-rules analyzer returns the record
    [{ success: false, error: 'No custom rules defined' }], with no other
    property, and reads no file; the run that asked for it records that
    failure, not a success with zero violations. *)
Theorem no_rules_is_a_failure
    (sourceFiles : list (string * option string))
    (exec_all : string -> string -> option (list AnalyzerBase.RegexMatch))
    (ruleEngine : option AnalyzerBase.RuleEngineObject) :
  (forall engine ruleList,
     ruleEngine = Some engine -> AnalyzerBase.rules engine = Some ruleList ->
     ruleList = []) ->
  AnalyzerBase.checkCustomRules sourceFiles exec_all ruleEngine
  = Some ({| success := Some false; error := Some "No custom rules defined"%string;
             errors := None; warnings := None; vulnerabilities := None;
             violations := None; details := None; coverage := None;
             score := None; circularDependencies := None;
             outdatedPackages := None; securityVulnerabilities := None;
             performanceIssues := None; antiPatterns := None; bugs := None;
             potentialIssues := None; securityRisks := None;
             missingTests := None; testQuality := None;
             weightedCoverage := None; testCases := None |},
          {| AnalyzerBase.files_read := [];
             AnalyzerBase.scan_warnings := [] |})
  /\ forall (analyzer : AnalyzerRun) (names : list string) result log,
       AnalyzerBase.checkCustomRules sourceFiles exec_all ruleEngine
       = Some (result, log) ->
       checkCustomRules analyzer = Returns result ->
       "custom-rules"%string ∈ names ->
       let run := runAnalyzers analyzer names in
       findings run !! "customRules"%string = Some result
       /\ success result = Some false
       /\ error result = Some "No custom rules defined"%string
       /\ violations result = None
       /\ details result = None
       /\ AnalyzerBase.files_read log = []
       /\ counted (findings run) "customRules" = false.
Proof.
  intros Hempty.
  assert (Hcheck :
    AnalyzerBase.checkCustomRules sourceFiles exec_all ruleEngine
    = Some (failureRecord "No custom rules defined",
            {| AnalyzerBase.files_read := [];
               AnalyzerBase.scan_warnings := [] |})).
  { unfold AnalyzerBase.checkCustomRules.
    destruct ruleEngine as [engine|]; [|reflexivity].
    destruct (AnalyzerBase.rules engine) as [ruleList|] eqn:Er; [|reflexivity].
    now rewrite (Hempty engine ruleList eq_refl Er). }
  split; [exact Hcheck|].
  intros analyzer names result log Hres Hret Hin. cbn zeta.
  rewrite Hcheck in Hres. injection Hres as <- <-.
  assert (Hlook :
    findings (runAnalyzers analyzer names) !! "customRules"%string
    = Some (failureRecord "No custom rules defined")).
  { unfold runAnalyzers. apply customRules_last; [exact Hret | now left]. }
  split; [exact Hlook|]. do 5 (split; [reflexivity|]).
  unfold counted. now rewrite Hlook.
Qed.

Lemma no_rules_is_a_failure_witness :
  exists result,
    AnalyzerBase.checkCustomRules
      [ ("src/app.js"%string, Some "console.log(1)"%string) ]
      (fun _ _ => Some [])
      (Some {| AnalyzerBase.rules := Some [] |})
    = Some (result,
            {| AnalyzerBase.files_read := [];
               AnalyzerBase.scan_warnings := [] |})
    /\ success result = Some false
    /\ error result = Some "No custom rules defined"%string
    /\ violations result = None.
Proof.
  eexists. split.
  - refine (proj1 (no_rules_is_a_failure _ _ _ _)).
    intros engine ruleList [= <-] [= <-]. reflexivity.
  - repeat split.
Defined.

End OrchestratorClaims.

(** ** Numbers *)

Section Numbers.

Import Js.

Local Open Scope Q_scope.

Lemma num_eq_sym a b : num_eq a b -> num_eq b a.
Proof. destruct a, b; cbn; auto. intros H. now symmetry. Qed.

Lemma num_eq_trans a b c : num_eq a b -> num_eq b c -> num_eq a c.
Proof.
  destruct a, b, c; cbn; auto; try contradiction.
  intros H1 H2. now rewrite H1.
Qed.

Lemma add_proper a a' b b' :
  num_eq a a' -> num_eq b b' -> num_eq (add a b) (add a' b').
Proof.
  destruct a, a', b, b'; cbn; auto; try contradiction.
  intros H1 H2. now rewrite H1, H2.
Qed.

Lemma mul_proper a a' b b' :
  num_eq a a' -> num_eq b b' -> num_eq (mul a b) (mul a' b').
Proof.
  destruct a, a', b, b'; cbn; auto; try contradiction.
  intros H1 H2. now rewrite H1, H2.
Qed.

Lemma div_proper a a' b b' :
  num_eq a a' -> num_eq b b' -> num_eq (div a b) (div a' b').
Proof.
  destruct a as [x|], a' as [x'|], b as [y|], b' as [y'|]; cbn; auto;
    try contradiction.
  intros H1 H2.
  destruct (Qeq_bool y 0) eqn:E, (Qeq_bool y' 0) eqn:E'; cbn; auto.
  - apply Qeq_bool_iff in E. apply Qeq_bool_neq in E'. rewrite H2 in E.
    contradiction.
  - apply Qeq_bool_iff in E'. apply Qeq_bool_neq in E. rewrite H2 in E.
    contradiction.
  - now rewrite H1, H2.
Qed.

Lemma Math_round_proper a b : num_eq a b -> Math_round a = Math_round b.
Proof.
  destruct a, b; cbn [num_eq Math_round]; auto; try contradiction.
  intros H. now rewrite (round_half_up_proper _ _ H).
Qed.

Lemma add_assoc a b c : num_eq (add (add a b) c) (add a (add b c)).
Proof. destruct a, b, c; cbn; auto. ring. Qed.

Lemma add_zero_r a : num_eq (add a (Num 0)) a.
Proof. destruct a; cbn; auto. ring. Qed.

End Numbers.

(** ** Overall aggregation *)

Section Aggregation.

Import Findings Js CodeReviewTool.

Local Open Scope Q_scope.

Variable fs : gmap string Finding.

Lemma tally_step total max entry :
  tally fs (total, max) entry
  = (add total (Spec.contribution fs entry),
     add max (Num (inject_Z (snd entry))))
  \/ (Spec.contribution fs entry = Num 0
      /\ tally fs (total, max) entry
         = (total, add max (Num (inject_Z (snd entry))))).
Proof.
  destruct entry as [analyzer weight].
  unfold tally, Spec.contribution, Spec.weighted_subscore, counted.
  cbn [fst snd].
  destruct (fs !! analyzer) as [f|]; [|right; auto].
  destruct (negb (bool_decide (success f = Some false))); [left|right]; auto.
Qed.

(** The loop of [calculateScore]: the second accumulator collects every
    weight, the first the contributions. *)
Lemma fold_tally ws : forall total max,
  let r := fold_left (tally fs) ws (total, max) in
  num_eq (fst r) (add total (Spec.sum_numbers (map (Spec.contribution fs) ws)))
  /\ num_eq (snd r)
       (add max (Spec.sum_numbers
                   (map (fun entry => Num (inject_Z (snd entry))) ws))).
Proof.
  induction ws as [|entry ws IH]; intros total max; cbn zeta.
  - cbn. split; apply num_eq_sym, add_zero_r.
  - cbn [fold_left map Spec.sum_numbers fold_right].
    fold (Spec.sum_numbers (map (Spec.contribution fs) ws)).
    fold (Spec.sum_numbers (map (fun entry => Num (inject_Z (snd entry))) ws)).
    destruct (tally_step total max entry) as [->|[Hz ->]].
    + destruct (IH (add total (Spec.contribution fs entry))
                   (add max (Num (inject_Z (snd entry))))) as [H1 H2].
      split; (eapply num_eq_trans; [eassumption | apply add_assoc]).
    + destruct (IH total (add max (Num (inject_Z (snd entry))))) as [H1 H2].
      split.
      * eapply num_eq_trans; [exact H1|]. rewrite Hz.
        apply add_proper; [apply num_eq_refl|].
        destruct (Spec.sum_numbers _); cbn; auto. ring.
      * eapply num_eq_trans; [exact H2 | apply add_assoc].
Qed.

Lemma maxScore_is_118 total max :
  fold_left (tally fs) weights (Num 0, Num 0) = (total, max) ->
  num_eq max (Num 118).
Proof.
  intros E. pose proof (fold_tally weights (Num 0) (Num 0)) as [_ H].
  cbn zeta in H. rewrite E in H. cbn [snd] in H.
  eapply num_eq_trans; [exact H|]. vm_compute. reflexivity.
Qed.

(** The overall score in closed form. *)
Lemma overall_closed_form :
  overall (calculateScore fs)
  = Math_round
      (mul (div (Spec.sum_numbers (map (Spec.contribution fs) weights))
                (Num 118))
           (Num 100)).
Proof.
  unfold calculateScore.
  destruct (fold_left (tally fs) weights (Num 0, Num 0)) as [total max] eqn:E.
  cbn [overall]. apply Math_round_proper.
  apply mul_proper; [|apply num_eq_refl].
  apply div_proper; [|exact (maxScore_is_118 _ _ E)].
  pose proof (fold_tally weights (Num 0) (Num 0)) as [H _].
  cbn zeta in H. rewrite E in H. cbn [fst] in H.
  eapply num_eq_trans; [exact H|].
  destruct (Spec.sum_numbers _); cbn; auto. ring.
Qed.

End Aggregation.

(** ** Overall aggregation, as the program computes it *)

Section AggregationInDoubles.

Import Findings Double DoubleScore.

Variable fs : gmap string Finding.

(** The loop of [calculateScore]: the first accumulator adds, from the
    left, the weighted sub-scores of the counted entries; the second adds
    every weight. *)
Lemma double_fold_tally ws : forall total max,
  fold_left (tally fs) ws (total, max)
  = (sum_from total (map (weighted_subscore fs) (counted_entries fs ws)),
     sum_from max (map (fun entry => of_Z (snd entry)) ws)).
Proof.
  induction ws as [|[analyzer weight] ws IH]; intros total max;
    [reflexivity|].
  cbn [fold_left]. unfold tally at 2.
  unfold counted_entries. cbn [List.filter map fst snd].
  unfold CodeReviewTool.counted at 1.
  destruct (fs !! analyzer) as [f|] eqn:E.
  - destruct (negb (bool_decide (success f = Some false))).
    + rewrite IH. unfold sum_from, counted_entries.
      cbn [map fold_left]. unfold weighted_subscore at 3.
      cbn [fst snd]. now rewrite E.
    + now rewrite IH.
  - now rewrite IH.
Qed.

Lemma counted_entries_spec ws entry :
  entry ∈ counted_entries fs ws
  <-> entry ∈ ws
      /\ exists f, fs !! fst entry = Some f /\ success f <> Some false.
Proof.
  unfold counted_entries.
  rewrite list_elem_of_In, filter_In, <- list_elem_of_In.
  unfold CodeReviewTool.counted.
  destruct (fs !! fst entry) as [f|].
  - case_bool_decide as Hs; cbn [negb].
    + split; [intros [_ [=]] | intros [_ (g & [= <-] & Hg)]; contradiction].
    + split; [intros [H _]; eauto | tauto].
  - split; [intros [_ [=]] | intros [_ (g & [=] & _)]].
Qed.

(** C1 (as amended).  The overall score is
    Math.round((totalScore / 118) * 100), evaluated in doubles, where
    totalScore adds from the left, in the order of the weight table, the
    terms (subscore_i / 100) * weight_i of the analyzers that have a
    finding not marked [success: false]; 118 is the sum of all eleven
    weights, whether or not an analyzer has a finding: a clean lint
    finding alone scores 10.  An absent analyzer and one marked as failed
    add no term.  Because every operation rounds,
    the result is not always the rounding of the exact quotient: no lint
    error, 42 warnings and one anti-pattern give 9, where the exact value
    9.5 rounds to 10. *)
Theorem overall_over_whole_table :
  overall (calculateScore fs)
  = Math_round
      (mul (div (sum_from (of_Z 0)
                   (map (weighted_subscore fs)
                      (counted_entries fs CodeReviewTool.weights)))
                (of_Z 118))
           (of_Z 100))
  /\ sum_from (of_Z 0)
       (map (fun entry => of_Z (snd entry)) CodeReviewTool.weights)
     = of_Z 118
  /\ (forall entry,
        entry ∈ counted_entries fs CodeReviewTool.weights
        <-> entry ∈ CodeReviewTool.weights
            /\ exists f, fs !! fst entry = Some f /\ success f <> Some false)
  /\ (forall analyzer weight,
        fs !! analyzer = None ->
        (analyzer, weight) ∉ counted_entries fs CodeReviewTool.weights)
  /\ (forall analyzer weight f,
        fs !! analyzer = Some f -> success f = Some false ->
        (analyzer, weight) ∉ counted_entries fs CodeReviewTool.weights)
  /\ overall (calculateScore Samples.only_eslint) = of_Z 10
  /\ overall (calculateScore (warnings_and_one_antipattern 42)) = of_Z 9
  /\ CodeReviewTool.overall
       (CodeReviewTool.calculateScore (warnings_and_one_antipattern 42))
     = Js.Num 10.
Proof.
  assert (Hmax : sum_from (of_Z 0)
                   (map (fun entry => of_Z (snd entry)) CodeReviewTool.weights)
                 = of_Z 118) by (vm_compute; reflexivity).
  split.
  { unfold calculateScore. rewrite double_fold_tally, Hmax. reflexivity. }
  split; [exact Hmax|].
  split; [intros entry; apply counted_entries_spec|].
  split.
  { intros analyzer weight Hf Hin.
    apply counted_entries_spec in Hin as [_ (f & Hf' & _)].
    cbn [fst] in Hf'. congruence. }
  split.
  { intros analyzer weight f Hf Hs Hin.
    apply counted_entries_spec in Hin as [_ (g & Hg & Hn)].
    cbn [fst] in Hg. congruence. }
  split; [vm_compute; reflexivity|].
  split; vm_compute; reflexivity.
Qed.

End AggregationInDoubles.

Section AggregationExamples.

Import Findings Js CodeReviewTool.

(** C1, as stated, fails: with a clean lint finding alone the overall
    score is 10 (12 of 118), where the formula over the present analyzers
    gives 100 (12 of 12). *)
Lemma absent_analyzers_count_in_denominator :
  overall (calculateScore Samples.only_eslint) = Num 10
  /\ Spec.overall Samples.only_eslint = Num 100
  /\ overall (calculateScore Samples.only_eslint)
     <> Spec.overall Samples.only_eslint.
Proof.
  split; [vm_compute; reflexivity|]. split; [vm_compute; reflexivity|].
  vm_compute. discriminate.
Qed.

End AggregationExamples.

(** ** Sub-scores *)

Section SubScores.

Import Findings Js CodeReviewTool.

Local Open Scope Q_scope.

Lemma count_nonneg (n : nat) : 0 <= inject_Z (Z.of_nat n).
Proof. change 0 with (inject_Z 0). rewrite <- Zle_Qle. lia. Qed.

Lemma max0_bounds x : x <= 100 -> 0 <= Qmax 0 x <= 100.
Proof.
  intros H. split; [apply Q.le_max_l|]. apply Q.max_lub; [lra | exact H].
Qed.

Lemma min100_bounds x : 0 <= x -> 0 <= Qmin 100 x <= 100.
Proof.
  intros H. split; [|apply Q.le_min_l]. apply Q.min_glb; [lra | exact H].
Qed.

Lemma integral_proper x y : x == y -> Spec.integral x -> Spec.integral y.
Proof. intros E [z Hz]. exists z. now rewrite <- E. Qed.

Lemma integral_Z z : Spec.integral (inject_Z z).
Proof. now exists z. Qed.

Lemma integral_sub x y :
  Spec.integral x -> Spec.integral y -> Spec.integral (x - y).
Proof.
  intros [a Ha] [b Hb]. exists (a - b)%Z.
  rewrite Ha, Hb. unfold Z.sub. rewrite inject_Z_plus, inject_Z_opp. ring.
Qed.

Lemma integral_mul x y :
  Spec.integral x -> Spec.integral y -> Spec.integral (x * y).
Proof.
  intros [a Ha] [b Hb]. exists (a * b)%Z.
  rewrite Ha, Hb, inject_Z_mult. reflexivity.
Qed.

Lemma integral_max0 x : Spec.integral x -> Spec.integral (Qmax 0 x).
Proof.
  intros Hx. destruct (Q.max_spec 0 x) as [[_ E]|[_ E]].
  - now apply (integral_proper x).
  - apply (integral_proper 0); [now symmetry | exact (integral_Z 0)].
Qed.

Lemma penalty_spec xs (each : Z) :
  (0 <= each)%Z ->
  exists p, penalty xs (inject_Z each) = Num p /\ 0 <= p /\ Spec.integral p.
Proof.
  intros He. destruct xs as [l|]; cbn [penalty].
  - eexists. split; [reflexivity|]. split.
    + apply Qmult_le_0_compat; [apply count_nonneg|].
      change 0 with (inject_Z 0). now rewrite <- Zle_Qle.
    + apply integral_mul; apply integral_Z.
  - exists 0. split; [reflexivity|]. split; [lra | exact (integral_Z 0)].
Qed.

Ltac penalty_of xs each p :=
  let Hp := fresh "Hp" in
  let Hnn := fresh "Hnn" in
  let Hint := fresh "Hint" in
  destruct (penalty_spec xs each ltac:(lia)) as (p & Hp & Hnn & Hint);
  change (inject_Z each) with (each # 1) in Hp;
  rewrite Hp; clear Hp.

Lemma eqb_branch analyzer name :
  {analyzer = name /\ String.eqb analyzer name = true}
  + {analyzer <> name /\ String.eqb analyzer name = false}.
Proof.
  destruct (String.eqb analyzer name) eqn:E.
  - left. split; [now apply String.eqb_eq | reflexivity].
  - right. split; [now apply String.eqb_neq | reflexivity].
Qed.

(** The end of the [test-cases] case: the score so far, capped by the
    statement coverage when there is one, then floored at 0. *)
Lemma test_cases_tail t f :
  t <= 100 -> Spec.structured_statements f ->
  exists q,
    Math_max (Num 0)
      match statements_pct f with
      | Some pct => Math_min (Num t) pct
      | None => Num t
      end = Num q /\ 0 <= q <= 100.
Proof.
  intros Ht Hcov.
  unfold statements_pct. unfold Spec.structured_statements in Hcov.
  assert (Hplain : exists q, Math_max (Num 0) (Num t) = Num q
                             /\ 0 <= q <= 100).
  { cbn [Math_max lift2]. eexists. split; [reflexivity|].
    now apply max0_bounds. }
  destruct (coverage f) as [[q|c]|]; try exact Hplain.
  destruct (statements c) as [[q|[p|]]|]; try contradiction;
    try exact Hplain.
  - apply Qeq_bool_iff in Hcov. rewrite Hcov. exact Hplain.
  - cbn [Math_min Math_max lift2]. eexists. split; [reflexivity|].
    apply max0_bounds. apply (Qle_trans _ t); [apply Q.le_min_l | exact Ht].
Qed.

(** Every scoring case answers a number between 0 and 100 on a finding of
    the shape it expects, an integer when it only counts. *)
Lemma getAnalyzerScore_bounds analyzer f :
  Spec.shaped analyzer f ->
  exists q, getAnalyzerScore analyzer f = Num q /\ 0 <= q <= 100
            /\ (Spec.count_based analyzer -> Spec.integral q).
Proof.
  intros (Htests & Hcomplexity & Hcov).
  unfold getAnalyzerScore.
  destruct (eqb_branch analyzer "eslint") as [[-> ->]|[N1 ->]].
  { cbn [count_or_zero of_nat add mul sub Math_max lift2].
    eexists. split; [reflexivity|].
    pose proof (count_nonneg (default 0%nat (errors f))).
    pose proof (count_nonneg (default 0%nat (warnings f))).
    split; [apply max0_bounds; lra|]. intros _.
    apply integral_max0.
    apply (integral_proper
             (100 - (inject_Z (2 * Z.of_nat (default 0%nat (errors f)))
                     + inject_Z (Z.of_nat (default 0%nat (warnings f)))))).
    - rewrite inject_Z_mult. change (inject_Z 2) with 2. field.
    - apply integral_sub; [exact (integral_Z 100)|].
      rewrite <- inject_Z_plus. apply integral_Z. }
  destruct (eqb_branch analyzer "typescript") as [[-> ->]|[N2 ->]].
  { destruct (errors f) as [n|]; [destruct (0 <? n)%nat|];
      eexists; (split; [reflexivity|]); (split; [lra|]); intros _;
      first [exact (integral_Z 0) | exact (integral_Z 100)]. }
  destruct (eqb_branch analyzer "security") as [[-> ->]|[N3 ->]].
  { cbn [count_or_zero of_nat add mul sub Math_max lift2].
    eexists. split; [reflexivity|].
    pose proof (count_nonneg (default 0%nat (vulnerabilities f))).
    split; [apply max0_bounds; lra|]. intros _.
    apply integral_max0, integral_sub; [exact (integral_Z 100)|].
    apply integral_mul; [apply integral_Z | exact (integral_Z 20)]. }
  destruct (eqb_branch analyzer "tests") as [[-> ->]|[N4 ->]].
  { specialize (Htests eq_refl).
    assert (Hno : ~ Spec.count_based "tests").
    { intros H. apply H. rewrite !elem_of_cons. tauto. }
    destruct (coverage f) as [[q|c]|]; [|contradiction|].
    - destruct (Qeq_bool q 0); cbn [Math_min lift2];
        eexists; (split; [reflexivity|]);
        (split; [apply min100_bounds; lra | intros H; now destruct Hno]).
    - cbn [Math_min lift2]. eexists. split; [reflexivity|].
      split; [apply min100_bounds; lra | intros H; now destruct Hno]. }
  destruct (eqb_branch analyzer "complexity") as [[-> ->]|[N5 ->]].
  { specialize (Hcomplexity eq_refl).
    assert (Hno : ~ Spec.count_based "complexity").
    { intros H. apply H. rewrite !elem_of_cons. tauto. }
    destruct (score f) as [q|].
    - specialize (Hcomplexity q eq_refl).
      destruct (Qeq_bool q 0); eexists; (split; [reflexivity|]);
        (split; [lra | intros H; now destruct Hno]).
    - eexists. split; [reflexivity|].
      split; [lra | intros H; now destruct Hno]. }
  destruct (eqb_branch analyzer "dependencies") as [[-> ->]|[N6 ->]].
  { destruct (sub_failed (circularDependencies f)),
             (sub_failed (outdatedPackages f)),
             (sub_failed (securityVulnerabilities f));
      cbn [sub Math_max lift2];
      eexists; (split; [reflexivity|]);
      (split; [apply max0_bounds; lra|]); intros _;
      apply integral_max0;
      repeat (apply integral_sub;
              [|first [ exact (integral_Z 30) | exact (integral_Z 20)
                      | exact (integral_Z 50) ]]);
      exact (integral_Z 100). }
  destruct (eqb_branch analyzer "coverage") as [[-> ->]|[N7 ->]].
  { specialize (Hcov (or_introl eq_refl)).
    assert (Hno : ~ Spec.count_based "coverage").
    { intros H. apply H. rewrite !elem_of_cons. tauto. }
    unfold statements_pct. unfold Spec.structured_statements in Hcov.
    assert (Hflag : exists q,
              (if bool_decide (success f = Some true) then Num 100 else Num 0)
              = Num q /\ 0 <= q <= 100).
    { destruct (bool_decide _); eexists; (split; [reflexivity | lra]). }
    destruct Hflag as (q0 & E0 & B0).
    destruct (coverage f) as [[q|c]|];
      try (exists q0; split; [exact E0|]; split; [exact B0|];
           intros H; now destruct Hno).
    destruct (statements c) as [[q|[p|]]|];
      try contradiction;
      try (exists q0; split; [exact E0|]; split; [exact B0|];
           intros H; now destruct Hno).
    - apply Qeq_bool_iff in Hcov. rewrite Hcov.
      exists q0. split; [exact E0|]. split; [exact B0|].
      intros H; now destruct Hno.
    - cbn [Math_min lift2]. eexists. split; [reflexivity|].
      split; [now apply min100_bounds | intros H; now destruct Hno]. }
  destruct (eqb_branch analyzer "performance") as [[-> ->]|[N8 ->]].
  { penalty_of (performanceIssues f) 10%Z p.
    cbn [sub Math_max lift2]. eexists. split; [reflexivity|].
    split; [apply max0_bounds; lra|]. intros _.
    apply integral_max0, integral_sub; [exact (integral_Z 100) | exact Hint]. }
  destruct (eqb_branch analyzer "architecture") as [[-> ->]|[N9 ->]].
  { penalty_of (antiPatterns f) 15%Z p.
    cbn [sub Math_max lift2]. eexists. split; [reflexivity|].
    split; [apply max0_bounds; lra|]. intros _.
    apply integral_max0, integral_sub; [exact (integral_Z 100) | exact Hint]. }
  destruct (eqb_branch analyzer "bug-detection") as [[-> ->]|[N10 ->]].
  { penalty_of (bugs f) 25%Z p1.
    penalty_of (potentialIssues f) 5%Z p2.
    penalty_of (securityRisks f) 30%Z p3.
    penalty_of (performanceIssues f) 10%Z p4.
    cbn [sub Math_max lift2]. eexists. split; [reflexivity|].
    split; [apply max0_bounds; lra|]. intros _.
    apply integral_max0.
    repeat (apply integral_sub; [|assumption]). exact (integral_Z 100). }
  destruct (eqb_branch analyzer "test-cases") as [[-> ->]|[N11 ->]].
  { specialize (Hcov (or_intror eq_refl)).
    assert (Hno : ~ Spec.count_based "test-cases").
    { intros H. apply H. rewrite !elem_of_cons. tauto. }
    penalty_of (missingTests f) 10%Z p1. cbn zeta.
    destruct (testQuality f) as [qs|]; cbn [sub lift2];
      [pose proof (count_nonneg (length (List.filter
         (fun t => match quality t with POOR => true | _ => false end) qs)))|];
      (edestruct test_cases_tail as (q & E & B);
       [|exact Hcov
        |exists q; split; [exact E|]; split; [exact B|];
         intros Hcount; now destruct Hno]); lra. }
  exists 100. split; [reflexivity|]. split; [lra|]. intros _.
  exact (integral_Z 100).
Qed.

End SubScores.

Section OverallBounds.

Import Findings Js CodeReviewTool.

Local Open Scope Q_scope.

Variable fs : gmap string Finding.

Hypothesis fs_shaped :
  forall analyzer f, fs !! analyzer = Some f -> Spec.shaped analyzer f.

Lemma contribution_bounds analyzer (weight : Z) :
  (0 <= weight)%Z ->
  exists c, Spec.contribution fs (analyzer, weight) = Num c
            /\ 0 <= c <= inject_Z weight.
Proof.
  intros Hw.
  assert (Hw' : 0 <= inject_Z weight).
  { change 0 with (inject_Z 0). now rewrite <- Zle_Qle. }
  unfold Spec.contribution, Spec.weighted_subscore, counted. cbn [fst snd].
  destruct (fs !! analyzer) as [f|] eqn:Ef;
    [|exists 0; split; [reflexivity | lra]].
  destruct (negb (bool_decide (success f = Some false)));
    [|exists 0; split; [reflexivity | lra]].
  destruct (getAnalyzerScore_bounds analyzer f (fs_shaped _ _ Ef))
    as (q & -> & [Hq0 Hq100] & _).
  cbn. eexists. split; [reflexivity|].
  set (w := inject_Z weight) in *.
  assert (H1 : 0 <= q / 100) by (apply Qle_shift_div_l; lra).
  assert (H2 : q / 100 <= 1) by (apply Qle_shift_div_r; lra).
  split.
  - now apply Qmult_le_0_compat.
  - apply (Qle_trans _ (1 * w)); [now apply Qmult_le_compat_r|].
    rewrite Qmult_1_l. apply Qle_refl.
Qed.

Lemma contributions_bounds ws :
  Forall (fun entry : string * Z => (0 <= snd entry)%Z) ws ->
  exists total,
    Spec.sum_numbers (map (Spec.contribution fs) ws) = Num total
    /\ 0 <= total <= inject_Z (fold_right Z.add 0%Z (map snd ws)).
Proof.
  induction 1 as [|[analyzer weight] ws Hw _ IH].
  - exists 0. split; [reflexivity|]. split; apply Qle_refl.
  - destruct IH as (total & E & Ht).
    destruct (contribution_bounds analyzer weight Hw) as (c & Ec & Hc).
    cbn [map Spec.sum_numbers fold_right snd].
    fold (Spec.sum_numbers (map (Spec.contribution fs) ws)).
    rewrite Ec, E. cbn [add lift2]. eexists. split; [reflexivity|].
    rewrite inject_Z_plus. lra.
Qed.

Lemma overall_bounds :
  exists z, overall (calculateScore fs) = Num (inject_Z z)
            /\ (0 <= z <= 100)%Z.
Proof.
  rewrite (overall_closed_form fs).
  destruct (contributions_bounds weights) as (total & -> & Ht).
  { repeat constructor; cbn; lia. }
  change (inject_Z (fold_right Z.add 0%Z (map snd weights))) with 118 in Ht.
  cbn [div mul lift2 Math_round].
  replace (Qeq_bool 118 0) with false by reflexivity.
  eexists. split; [reflexivity|].
  apply round_half_up_bounds.
  - change (inject_Z 0) with 0.
    apply Qmult_le_0_compat; [apply Qle_shift_div_l|]; lra.
  - change (inject_Z 100) with 100.
    assert (H : total / 118 <= 1) by (apply Qle_shift_div_r; lra).
    apply (Qle_trans _ (1 * 100)); [|lra].
    apply Qmult_le_compat_r; [exact H | lra].
Qed.

End OverallBounds.

Section ScoreBounds.

Import Findings Js CodeReviewTool.

Local Open Scope Q_scope.

(** C8 (as amended).  On a findings map whose findings have the shape the
    scoring cases read, the overall score is an integer between 0 and 100
    and every sub-score is a number between 0 and 100, clamped at 0 and at
    100; it is an integer for the analyzers that only count (lint, type
    check, security, dependencies, performance, architecture, bug
    detection), while [tests], [coverage], [test-cases] and [complexity]
    pass a number of the finding through without rounding it. *)
Theorem scores_within_bounds (fs : gmap string Finding) :
  (forall analyzer f, fs !! analyzer = Some f -> Spec.shaped analyzer f) ->
  (exists z, overall (calculateScore fs) = Num (inject_Z z)
             /\ (0 <= z <= 100)%Z)
  /\ (forall analyzer f, fs !! analyzer = Some f ->
        exists q, getAnalyzerScore analyzer f = Num q /\ 0 <= q <= 100
                  /\ (Spec.count_based analyzer -> Spec.integral q)).
Proof.
  intros Hshaped. split; [now apply overall_bounds|].
  intros analyzer f Hf. apply getAnalyzerScore_bounds. now apply Hshaped.
Qed.

Lemma scores_within_bounds_witness :
  exists z, overall (calculateScore Samples.lint_and_security)
            = Num (inject_Z z) /\ (0 <= z <= 100)%Z.
Proof.
  refine (proj1 (scores_within_bounds Samples.lint_and_security _)).
  intros analyzer f. unfold Samples.lint_and_security.
  rewrite lookup_insert. case_decide as Hs.
  - intros _. subst analyzer.
    split; [discriminate|]. split; [discriminate|]. intros [|]; discriminate.
  - rewrite lookup_singleton. case_decide as He; [|discriminate].
    intros _. subst analyzer.
    split; [discriminate|]. split; [discriminate|]. intros [|]; discriminate.
Defined.

(** C8, as stated, fails: a project covered at 85.5% has the test
    sub-score 85.5, which is not an integer. *)
Lemma percentage_is_not_rounded :
  exists q, getAnalyzerScore "tests" Samples.tests_85_5 = Num q
            /\ q == 855 # 10 /\ ~ Spec.integral q.
Proof.
  exists (855 # 10). split; [reflexivity|]. split; [reflexivity|].
  intros [z Hz]. unfold Qeq in Hz. cbn in Hz. lia.
Qed.

(** A statement coverage stored as a bare number where the [coverage]
    case expects a summary record is read as [undefined]: the sub-score
    and with it the overall score are NaN.  The bounds above do not cover
    such findings. *)
Example number_for_summary_is_NaN :
  let f := Samples.tests_finding 85 None in
  getAnalyzerScore "coverage" f = NaN
  /\ overall (calculateScore {[ "coverage" := f ]}) = NaN.
Proof. split; vm_compute; reflexivity. Qed.

(** Worked examples of the scoring functions. *)
Example lint_three_errors_two_warnings :
  num_eq (getAnalyzerScore "eslint" (Samples.lint_finding 3 2)) (Num 92).
Proof. reflexivity. Qed.

Example grade_boundaries :
  getGrade (Num 90) = A /\ getGrade (Num 89) = B /\ getGrade (Num 80) = B
  /\ getGrade (Num 70) = C /\ getGrade (Num 60) = D /\ getGrade (Num 59) = F
  /\ getGrade NaN = F.
Proof. repeat split. Qed.

Example lint_and_security_overall :
  overall (calculateScore Samples.lint_and_security) = Num 27.
Proof. vm_compute. reflexivity. Qed.

End ScoreBounds.

(** ** The rule engine *)

Section FileMatching.

Import RuleEngine.

Local Open Scope string_scope.

(** A rule without a [files] restriction applies to every path. *)
Lemma unrestricted_rule_applies rule filePath :
  files rule = None \/ files rule = Some [] ->
  rule_applies rule filePath = Some true.
Proof. unfold rule_applies. intros [->| ->]; reflexivity. Qed.

Lemma unrestricted_rules_kept rules filePath :
  Forall (fun rule => files rule = None \/ files rule = Some []) rules ->
  getRulesForFile rules filePath = Some rules.
Proof.
  induction 1 as [|rule rules Hr _ IH]; [reflexivity|].
  cbn [getRulesForFile].
  rewrite (unrestricted_rule_applies rule filePath Hr), IH. reflexivity.
Qed.

(** The second [replace] rewrites the star that the first one produced:
    two stars become "one character, then anything but a separator". *)
Lemma double_star_is_rewritten_twice :
  forall before after,
    Js.includes before "*" = false ->
    glob_to_regex (before +:+ "**" +:+ after)
    = Js.replace_char "?" "." before +:+ ".[^/]*" +:+ glob_to_regex after.
Proof.
  intros before after. unfold glob_to_regex.
  induction before as [|c before IH]; cbn [Js.includes].
  - intros _. reflexivity.
  - rewrite orb_false_iff. intros [Hc Hrest]. specialize (IH Hrest).
    cbn [String.prefix] in Hc.
    destruct (Ascii.eqb_spec "*" c) as [<-|Hne].
    + destruct before; discriminate Hc.
    + cbn [append Js.replace_star_star].
      assert (E : Js.replace_star_star ".*" (String c (before +:+ "**" +:+ after))
                  = String c (Js.replace_star_star ".*" (before +:+ "**" +:+ after))).
      { cbn [Js.replace_star_star].
        destruct c as [[] [] [] [] [] [] [] []]; try reflexivity.
        exfalso. apply Hne. reflexivity. }
      unfold String.app in *. rewrite E. cbn [Js.replace_char].
      destruct (Ascii.eqb_spec "*" c) as [Heq|_]; [now apply Hne in Heq|].
      cbn [Js.replace_char]. rewrite IH.
      destruct (Ascii.eqb "?" c); reflexivity.
Qed.

(** C3 at work on a rule restricted to "src/**/*.js": the pattern is
    turned into [src/.[^/]*/[^/]*.js], which cannot cross the two
    directories of "src/lib/util/index.js", so the rule is dropped for that
    file; under the translation of the specification, [src/.*/[^/]*.js],
    the pattern matches the path.  A file one directory deep is matched
    by both. *)
Theorem double_star_does_not_cross_directories :
  glob_to_regex "src/**/*.js" = "src/.[^/]*/[^/]*.js"
  /\ spec_glob_to_regex "src/**/*.js" = "src/.*/[^/]*.js"
  /\ getRulesForFile [ Samples.no_console; Samples.no_eval ]
       "src/lib/util/index.js" = Some [ Samples.no_eval ]
  /\ spec_pattern_matches "src/**/*.js" "src/lib/util/index.js" = Some true
  /\ getRulesForFile [ Samples.no_console; Samples.no_eval ]
       "src/lib/index.js" = Some [ Samples.no_console; Samples.no_eval ]
  /\ Regexp.test (glob_to_regex "a**b") "ab" = Some false
  /\ spec_pattern_matches "a**b" "ab" = Some true.
Proof. repeat split; vm_compute; reflexivity. Qed.

End FileMatching.

Section RuleMutation.

Import RuleEngine.

Variable regexp_compiles : string -> bool.

(** [addRule] validates the rule and refuses an id that is taken. *)
Lemma addRule_validates rules rule :
  fst (validateRule regexp_compiles rule (length rules)) <> [] ->
  addRule regexp_compiles rules rule
  = inl (InvalidRule (fst (validateRule regexp_compiles rule (length rules)))).
Proof.
  intros H. unfold addRule.
  destruct (fst (validateRule regexp_compiles rule (length rules)));
    [contradiction | reflexivity].
Qed.

Lemma addRule_rejects_duplicate rules rule existing :
  existing ∈ rules -> id existing = id rule ->
  exists e, addRule regexp_compiles rules rule = inl e.
Proof.
  intros Hin Hid. unfold addRule.
  destruct (negb _); [eauto|].
  assert (E : existsb (fun existingRule =>
                bool_decide (id existingRule = id rule)) rules = true).
  { apply existsb_exists. exists existing. split.
    - now apply list_elem_of_In.
    - now apply bool_decide_eq_true_2. }
  rewrite E. eauto.
Qed.

Lemma addRule_appends rules rule rules' :
  addRule regexp_compiles rules rule = inr rules' -> rules' = rules ++ [rule].
Proof.
  unfold addRule. destruct (negb _); [discriminate|].
  destruct (existsb _ _); [discriminate|]. now intros [= <-].
Qed.

Lemma findIndex_lookup ruleId rules index :
  findIndex ruleId rules = Some index ->
  exists rule, rules !! index = Some rule /\ id rule = Some ruleId.
Proof.
  revert index. induction rules as [|rule rules IH]; intros index;
    cbn [findIndex]; [discriminate|].
  case_bool_decide as Hid.
  - intros [= <-]. now exists rule.
  - destruct (findIndex ruleId rules) as [i|]; [|discriminate].
    intros [= <-]. apply (IH i eq_refl).
Qed.

(** [removeRule] takes out one rule and keeps every other one, in order. *)
Lemma removeRule_keeps_others rules ruleId rules' :
  removeRule rules ruleId = inr rules' ->
  exists index removed,
    rules !! index = Some removed /\ id removed = Some ruleId
    /\ rules = take index rules ++ removed :: drop (S index) rules
    /\ rules' = take index rules ++ drop (S index) rules.
Proof.
  unfold removeRule.
  destruct (findIndex ruleId rules) as [index|] eqn:E; [|discriminate].
  intros [= <-]. destruct (findIndex_lookup _ _ _ E) as (removed & Hl & Hid).
  exists index, removed. repeat split; try assumption.
  now rewrite <- (take_drop_middle rules index removed Hl) at 1.
Qed.

(** [updateRule] replaces the rule at the index it found and keeps every
    other one. *)
Lemma updateRule_keeps_others rules ruleId updates rules' :
  updateRule regexp_compiles rules ruleId updates = inr rules' ->
  exists index,
    findIndex ruleId rules = Some index
    /\ forall j, j <> index -> rules' !! j = rules !! j.
Proof.
  unfold updateRule.
  destruct (findIndex ruleId rules) as [index|]; [|discriminate].
  destruct (rules !! index) as [current|]; [|discriminate].
  destruct (negb _); [discriminate|]. intros [= <-].
  exists index. split; [reflexivity|]. intros j Hj.
  now apply list_lookup_insert_ne.
Qed.

(** C7 at work.  With the rules 'no-console' and 'no-eval' in the list,
    renaming the first to 'no-eval' goes through whenever the pattern
    compiles: [updateRule] validates the merged rule but never compares
    its id with the other rules, and leaves two rules with the id
    'no-eval'.  Adding a rule with that id is refused by [addRule], and
    [validateRules] declares the list [updateRule] produced invalid. *)
Theorem updateRule_accepts_duplicate_id :
  let rules := [ Samples.no_console; Samples.no_eval ] in
  let renamed :=
    Samples.rule "no-eval" "console\.log" (Some [ "src/**/*.js" ]) in
  updateRule regexp_compiles rules "no-console" Samples.rename_to_no_eval
  = (if regexp_compiles "console\.log"
     then inr [ renamed; Samples.no_eval ]
     else inl (InvalidRuleUpdate [ InvalidRegexPattern (Some "no-eval") ]))
  /\ addRule regexp_compiles rules renamed
     = (if regexp_compiles "console\.log"
        then inl (AlreadyExists (Some "no-eval"))
        else inl (InvalidRule [ InvalidRegexPattern (Some "no-eval") ]))
  /\ validateRules_valid regexp_compiles [ renamed; Samples.no_eval ] = false.
Proof.
  cbn zeta.
  destruct (regexp_compiles "console\.log") eqn:Ec;
    destruct (regexp_compiles "eval") eqn:Ee;
    (split; [vm_compute; rewrite ?Ec; reflexivity|]);
    (split; [vm_compute; rewrite ?Ec; reflexivity|]);
    vm_compute; rewrite ?Ec, ?Ee; reflexivity.
Qed.

End RuleMutation.

(** ** Validity of a rule set *)

Section RuleSetValidity.

Import RuleEngine RuleSet.

Variable regexp_compiles : string -> bool.

Lemma flat_map_nil {A B} (f : A -> list B) l :
  flat_map f l = [] <-> Forall (fun x => f x = []) l.
Proof.
  induction l as [|x l IH]; cbn.
  - split; [constructor | reflexivity].
  - split.
    + intros H. apply app_eq_nil in H as [H1 H2]. constructor; tauto.
    + intros H. inversion H; subst. apply IH in H3. now rewrite H2, H3.
Qed.

Lemma truthy_str_Some o :
  Js.truthy_str o = true -> exists s, o = Some s /\ Js.truthy_str (Some s) = true.
Proof. destruct o as [s|]; [eauto | discriminate]. Qed.

(** [validateRule] reports no error exactly for the well-formed rules,
    whatever the index. *)
Lemma validateRule_clean rule index :
  fst (validateRule regexp_compiles rule index) = []
  <-> well_formed regexp_compiles rule.
Proof.
  unfold validateRule, well_formed. cbn [fst].
  rewrite !app_nil. rewrite flat_map_nil.
  split.
  - intros (Hm & Hs & Hp). split; [|split].
    + eapply Forall_impl; [exact Hm|]. intros [name get] H. cbn in *.
      destruct (Js.truthy_str (get rule)); [reflexivity | discriminate].
    + assert (Ht : Js.truthy_str (severity rule) = true).
      { inversion Hm as [|? ? _ Hm1]; subst. inversion Hm1 as [|? ? _ Hm2]; subst.
        inversion Hm2 as [|? ? H _]; subst. cbn in H.
        destruct (Js.truthy_str (severity rule)); [reflexivity | discriminate]. }
      apply truthy_str_Some in Ht as (s & Es & Ht). rewrite Es in Hs.
      exists s. split; [exact Es|]. rewrite Ht in Hs. cbn in Hs.
      destruct (bool_decide (s ∈ validSeverities)) eqn:E; [|discriminate].
      now apply bool_decide_eq_true in E.
    + assert (Ht : Js.truthy_str (pattern rule) = true).
      { inversion Hm as [|? ? _ Hm1]; subst. inversion Hm1 as [|? ? _ Hm2]; subst.
        inversion Hm2 as [|? ? _ Hm3]; subst. inversion Hm3 as [|? ? _ Hm4]; subst.
        inversion Hm4 as [|? ? H _]; subst. cbn in H.
        destruct (Js.truthy_str (pattern rule)); [reflexivity | discriminate]. }
      apply truthy_str_Some in Ht as (p & Ep & Ht). rewrite Ep in Hp.
      exists p. split; [exact Ep|]. rewrite Ht in Hp. cbn in Hp.
      destruct (regexp_compiles p); [reflexivity | discriminate].
  - intros (Hm & (s & Es & Hs) & (p & Ep & Hp)). split; [|split].
    + eapply Forall_impl; [exact Hm|]. intros [name get] H. cbn in *.
      now rewrite H.
    + rewrite Es. rewrite (bool_decide_eq_true_2 _ Hs).
      now rewrite andb_false_r.
    + rewrite Ep, Hp. now rewrite andb_false_r.
Qed.

Lemma well_formed_id rule :
  well_formed regexp_compiles rule ->
  exists i, RuleEngine.id rule = Some i /\ Js.truthy_str (Some i) = true.
Proof.
  intros (Hm & _). inversion Hm as [|? ? H _]; subst. cbn in H.
  now apply truthy_str_Some in H.
Qed.

Lemma validateRules_from_nil rules : forall index seen,
  validateRules_from regexp_compiles index seen rules = []
  <-> Forall (well_formed regexp_compiles) rules
      /\ NoDup (RuleEngine.id <$> rules)
      /\ (forall rule i, rule ∈ rules -> RuleEngine.id rule = Some i -> i ∉ seen).
Proof.
  induction rules as [|rule rest IH]; intros index seen.
  - cbn. split; [|reflexivity]. intros _. repeat split.
    + constructor.
    + constructor.
    + intros rule i H. inversion H.
  - cbn [validateRules_from fmap list_fmap]. split.
    + intros H.
      assert (Hc : fst (validateRule regexp_compiles rule index) = []).
      { destruct (RuleEngine.id rule) as [i|];
          [destruct (Js.truthy_str (Some i)); [destruct (bool_decide (i ∈ seen))|]|];
          now apply app_eq_nil in H as [H _]. }
      pose proof (proj1 (validateRule_clean rule index) Hc) as Hw.
      destruct (well_formed_id rule Hw) as (i & Ei & Ht).
      rewrite Hc, Ei, Ht in H. cbn [app] in H.
      destruct (bool_decide (i ∈ seen)) eqn:Es; [discriminate|].
      apply bool_decide_eq_false in Es.
      apply IH in H as (Hall & Hnd & Hseen).
      split; [now constructor|]. split.
      * rewrite Ei. apply NoDup_cons. split; [|exact Hnd].
        intros Hin. apply list_elem_of_fmap in Hin as (r & Er & Hr).
        apply (Hseen r i Hr); [now symmetry|]. set_unfold; tauto.
      * intros r j Hr Ej. apply elem_of_cons in Hr as [->|Hr].
        -- rewrite Ei in Ej. inversion Ej; subst. exact Es.
        -- intros Hj. apply (Hseen r j Hr Ej). set_unfold; tauto.
    + intros (Hall & Hnd & Hseen).
      inversion Hall as [|? ? Hw Hrest]; subst.
      destruct (well_formed_id rule Hw) as (i & Ei & Ht).
      rewrite (proj2 (validateRule_clean rule index) Hw), Ei, Ht. cbn [app].
      rewrite Ei in Hnd. apply NoDup_cons in Hnd as [Hni Hnd].
      rewrite bool_decide_eq_false_2.
      2:{ apply (Hseen rule i); [left | exact Ei]. }
      apply IH. split; [exact Hrest|]. split; [exact Hnd|].
      intros r j Hr Ej Hj. apply elem_of_union in Hj as [Hj|Hj].
      * apply elem_of_singleton in Hj. subst j. apply Hni.
        apply list_elem_of_fmap. exists r. split; [now symmetry | exact Hr].
      * apply (Hseen r j); [now right | exact Ej | exact Hj].
Qed.

(** A rule set passes [validateRules] exactly when every rule is well
    formed and no two rules share an id. *)
Lemma validateRules_valid_iff rules :
  validateRules_valid regexp_compiles rules = true
  <-> Forall (well_formed regexp_compiles) rules
      /\ NoDup (RuleEngine.id <$> rules).
Proof.
  unfold validateRules_valid, validateRules_errors.
  rewrite bool_decide_eq_true, length_zero_iff_nil, validateRules_from_nil.
  split; [tauto|]. intros [H1 H2]. repeat split; try assumption.
  intros rule i _ _ Hi. set_unfold; tauto.
Qed.

(** X1.  For rules whose [files] property is an array or absent, which
    are the rules of type [Rule], [validateRules] accepts a rule set
    exactly when every rule has its six required fields, a severity among
    the four levels and a pattern that compiles, and no two positions hold
    the same id. *)
Theorem valid_rule_sets rules :
  validateRules_valid regexp_compiles rules = true
  <-> (forall rule, rule ∈ rules -> well_formed regexp_compiles rule)
      /\ (forall i j r1 r2,
            rules !! i = Some r1 -> rules !! j = Some r2 ->
            RuleEngine.id r1 = RuleEngine.id r2 -> i = j).
Proof.
  rewrite validateRules_valid_iff, Forall_forall, NoDup_alt.
  split; intros [Hw Hd]; (split; [exact Hw|]).
  - intros i j r1 r2 H1 H2 E.
    apply (Hd i j (RuleEngine.id r1)); rewrite list_lookup_fmap.
    + now rewrite H1.
    + now rewrite H2, E.
  - intros i j x. rewrite !list_lookup_fmap.
    destruct (rules !! i) as [r1|] eqn:H1; [|discriminate].
    destruct (rules !! j) as [r2|] eqn:H2; [|discriminate].
    cbn. intros E1 E2. apply (Hd i j r1 r2 H1 H2). congruence.
Qed.

Lemma existsb_same_id rules rule :
  existsb (fun existingRule =>
             bool_decide (RuleEngine.id existingRule = RuleEngine.id rule)) rules
  = false
  <-> RuleEngine.id rule ∉ RuleEngine.id <$> rules.
Proof.
  rewrite <- not_true_iff_false, existsb_exists, list_elem_of_fmap.
  split; intros H.
  - intros (r & E & Hr). apply H. exists r. split.
    + now apply list_elem_of_In.
    + now apply bool_decide_eq_true_2.
  - intros (r & Hr & E). apply H. exists r. split.
    + now apply bool_decide_eq_true in E.
    + now apply list_elem_of_In.
Qed.

Lemma addRule_accepts rules rule :
  addRule regexp_compiles rules rule = inr (rules ++ [rule])
  <-> well_formed regexp_compiles rule
      /\ RuleEngine.id rule ∉ RuleEngine.id <$> rules.
Proof.
  rewrite <- (validateRule_clean rule (length rules)), <- existsb_same_id.
  unfold addRule.
  destruct (fst (validateRule regexp_compiles rule (length rules))) as [|e es];
    cbn [length Nat.eqb negb].
  - destruct (existsb _ rules); split; try discriminate; try tauto.
    intros [_ H]; discriminate.
  - split; [discriminate|]. intros [H _]; discriminate.
Qed.

(** X2.  On a valid rule set [addRule] accepts exactly the rules whose
    addition leaves the set valid; it then appends the rule. *)
Theorem addRule_exact rules rule :
  validateRules_valid regexp_compiles rules = true ->
  (addRule regexp_compiles rules rule = inr (rules ++ [rule])
   <-> validateRules_valid regexp_compiles (rules ++ [rule]) = true).
Proof.
  rewrite !validateRules_valid_iff, addRule_accepts.
  intros [Hw Hd]. rewrite Forall_app, Forall_singleton, fmap_app, NoDup_app.
  cbn [fmap list_fmap]. split.
  - intros [Hr Hid]. split; [now split|]. split; [exact Hd|]. split.
    + intros x Hx Hx'. apply list_elem_of_singleton in Hx'. now subst x.
    + apply NoDup_singleton.
  - intros [[_ Hr] (_ & Hid & _)]. split; [exact Hr|].
    intros Hin. apply (Hid _ Hin). now left.
Qed.

Lemma findIndex_first ruleId rules index :
  findIndex ruleId rules = Some index ->
  forall j rule, (j < index)%nat -> rules !! j = Some rule ->
                 RuleEngine.id rule <> Some ruleId.
Proof.
  revert index. induction rules as [|r rules IH]; intros index;
    cbn [findIndex]; [discriminate|].
  case_bool_decide as Hid.
  - intros [= <-] j rule Hj. lia.
  - destruct (findIndex ruleId rules) as [i|] eqn:E; [|discriminate].
    intros [= <-] [|j] rule Hj; cbn.
    + now intros [= <-].
    + apply (IH i eq_refl). lia.
Qed.

Lemma findIndex_None ruleId rules :
  findIndex ruleId rules = None
  <-> forall rule, rule ∈ rules -> RuleEngine.id rule <> Some ruleId.
Proof.
  induction rules as [|r rules IH]; cbn [findIndex].
  - split; [|reflexivity]. intros _ rule H. inversion H.
  - case_bool_decide as Hid.
    + split; [discriminate|]. intros H. exfalso. apply (H r); [left | exact Hid].
    + destruct (findIndex ruleId rules) as [i|] eqn:E; cbn.
      * split; [discriminate|]. intros H.
        assert (Some i = None) by (apply IH; intros rule Hr; apply H; now right).
        discriminate.
      * split; [|reflexivity]. intros _ rule Hr.
        apply elem_of_cons in Hr as [->|Hr]; [exact Hid|].
        now apply (proj1 IH eq_refl).
Qed.

(** X3.  From a valid rule set [removeRule] takes out one rule and
    leaves a valid rule set in which the id is no longer in use, so that
    removing it a second time fails. *)
Theorem removeRule_keeps_validity rules ruleId rules' :
  validateRules_valid regexp_compiles rules = true ->
  removeRule rules ruleId = inr rules' ->
  validateRules_valid regexp_compiles rules' = true
  /\ length rules = S (length rules')
  /\ (forall rule, rule ∈ rules' -> RuleEngine.id rule <> Some ruleId)
  /\ removeRule rules' ruleId = inl (NotFound ruleId).
Proof.
  rewrite !validateRules_valid_iff. intros [Hw Hd] Hr.
  destruct (removeRule_keeps_others _ _ _ Hr)
    as (index & removed & Hl & Hid & Esplit & ->).
  set (before := take index rules) in *. set (after := drop (S index) rules) in *.
  rewrite Esplit in Hw, Hd |- *.
  rewrite Forall_app, Forall_cons in Hw. destruct Hw as (Hb & _ & Ha).
  rewrite fmap_app, fmap_cons, NoDup_app, NoDup_cons in Hd.
  destruct Hd as (Hdb & Hdisj & Hni & Hda).
  assert (Hgone : forall rule, rule ∈ before ++ after ->
                               RuleEngine.id rule <> Some ruleId).
  { intros rule Hin E. apply elem_of_app in Hin as [Hin|Hin].
    - apply (Hdisj (RuleEngine.id rule)).
      + now apply list_elem_of_fmap_2.
      + rewrite E, <- Hid. now left.
    - apply Hni. rewrite Hid, <- E. now apply list_elem_of_fmap_2. }
  repeat split.
  - now apply Forall_app.
  - rewrite fmap_app. apply NoDup_app. repeat split; try assumption.
    intros x Hx Hx'. apply (Hdisj x Hx). now right.
  - rewrite !length_app. cbn. lia.
  - exact Hgone.
  - unfold removeRule. now rewrite (proj2 (findIndex_None ruleId _) Hgone).
Qed.

Lemma findIndex_app_new ruleId rules rule :
  RuleEngine.id rule = Some ruleId ->
  (forall r, r ∈ rules -> RuleEngine.id r <> Some ruleId) ->
  findIndex ruleId (rules ++ [rule]) = Some (length rules).
Proof.
  intros Hid. induction rules as [|r rules IH]; intros Hno; cbn [findIndex app length].
  - now rewrite bool_decide_eq_true_2.
  - rewrite bool_decide_eq_false_2 by (apply Hno; now left).
    rewrite IH; [reflexivity|]. intros r' Hr'. apply Hno. now right.
Qed.

(** X4.  A rule that [addRule] accepted is taken out again by
    [removeRule] on its id, which restores the rule set as it was. *)
Theorem addRule_then_removeRule rules rule rules' :
  addRule regexp_compiles rules rule = inr rules' ->
  exists ruleId,
    RuleEngine.id rule = Some ruleId
    /\ removeRule rules' ruleId = inr rules.
Proof.
  intros Hadd. pose proof (addRule_appends _ _ _ _ Hadd) as ->.
  apply addRule_accepts in Hadd as [Hw Hfresh].
  destruct (well_formed_id rule Hw) as (ruleId & Hid & _).
  exists ruleId. split; [exact Hid|]. unfold removeRule.
  rewrite (findIndex_app_new ruleId rules rule Hid).
  - rewrite take_app_length, drop_ge; [|rewrite length_app; cbn; lia].
    now rewrite app_nil_r.
  - intros r Hr E. apply Hfresh. rewrite Hid, <- E.
    now apply list_elem_of_fmap_2.
Qed.

(** X5.  [updateRule] keeps a valid rule set valid as long as the update
    leaves the id alone (it carries no id, or the id it replaces). *)
Theorem updateRule_keeps_validity rules ruleId updates rules' :
  validateRules_valid regexp_compiles rules = true ->
  RuleEngine.id updates = None \/ RuleEngine.id updates = Some ruleId ->
  updateRule regexp_compiles rules ruleId updates = inr rules' ->
  validateRules_valid regexp_compiles rules' = true
  /\ RuleEngine.id <$> rules' = RuleEngine.id <$> rules.
Proof.
  rewrite !validateRules_valid_iff. intros [Hw Hd] Hupd. unfold updateRule.
  destruct (findIndex ruleId rules) as [index|] eqn:Ef; [|discriminate].
  destruct (findIndex_lookup _ _ _ Ef) as (current & Hl & Hid).
  rewrite Hl.
  destruct (fst (validateRule regexp_compiles (spread current updates) index))
    as [|e es] eqn:Ev; cbn [length Nat.eqb negb]; [|discriminate].
  intros [= <-].
  assert (Eid : RuleEngine.id (spread current updates) = RuleEngine.id current).
  { cbn. destruct Hupd as [-> | ->]; [reflexivity | now rewrite Hid]. }
  assert (Eids : RuleEngine.id <$> <[index := spread current updates]> rules
                 = RuleEngine.id <$> rules).
  { rewrite list_fmap_insert, Eid. apply list_insert_id.
    now rewrite list_lookup_fmap, Hl. }
  split; [|exact Eids]. split.
  - apply Forall_insert; [exact Hw|]. now apply (validateRule_clean _ index).
  - now rewrite Eids.
Qed.

End RuleSetValidity.

Section RuleSetExamples.

Import RuleEngine.

Lemma addRule_exact_witness :
  validateRules_valid Scenarios.compiles [ Samples.no_console ] = true
  /\ (addRule Scenarios.compiles [ Samples.no_console ] Samples.no_eval
      = inr ([ Samples.no_console ] ++ [ Samples.no_eval ])
      <-> validateRules_valid Scenarios.compiles
            ([ Samples.no_console ] ++ [ Samples.no_eval ]) = true).
Proof.
  split; [reflexivity|].
  apply (addRule_exact Scenarios.compiles [ Samples.no_console ] Samples.no_eval).
  reflexivity.
Defined.

Lemma removeRule_keeps_validity_witness :
  validateRules_valid Scenarios.compiles [ Samples.no_eval ] = true
  /\ length [ Samples.no_console; Samples.no_eval ] = S (length [ Samples.no_eval ])
  /\ (forall rule, rule ∈ [ Samples.no_eval ] ->
        RuleEngine.id rule <> Some "no-console"%string)
  /\ removeRule [ Samples.no_eval ] "no-console"
     = inl (NotFound "no-console").
Proof.
  apply (removeRule_keeps_validity Scenarios.compiles
           [ Samples.no_console; Samples.no_eval ] "no-console"
           [ Samples.no_eval ]); reflexivity.
Defined.

Lemma addRule_then_removeRule_witness :
  exists ruleId,
    RuleEngine.id Samples.no_eval = Some ruleId
    /\ removeRule [ Samples.no_console; Samples.no_eval ] ruleId
       = inr [ Samples.no_console ].
Proof.
  apply (addRule_then_removeRule Scenarios.compiles [ Samples.no_console ]
           Samples.no_eval [ Samples.no_console; Samples.no_eval ]).
  reflexivity.
Defined.

Lemma updateRule_keeps_validity_witness :
  let softened := spread Samples.no_console Scenarios.soften in
  validateRules_valid Scenarios.compiles [ softened; Samples.no_eval ] = true
  /\ RuleEngine.id <$> [ softened; Samples.no_eval ]
     = RuleEngine.id <$> [ Samples.no_console; Samples.no_eval ].
Proof.
  apply (updateRule_keeps_validity Scenarios.compiles
           [ Samples.no_console; Samples.no_eval ] "no-console"
           Scenarios.soften);
    [reflexivity | left; reflexivity | reflexivity].
Defined.

End RuleSetExamples.

(** ** Selecting the rules of a file *)

Section FileSelection.

Import RuleEngine RuleSet.

Lemma getRulesForFile_filter rules filePath : forall kept,
  getRulesForFile rules filePath = Some kept ->
  kept = List.filter
           (fun rule => bool_decide (rule_applies rule filePath = Some true))
           rules.
Proof.
  induction rules as [|rule rest IH]; intros kept; cbn [getRulesForFile List.filter].
  - now intros [= <-].
  - destruct (rule_applies rule filePath) as [keep|]; [|discriminate].
    destruct (getRulesForFile rest filePath) as [kept'|]; [|discriminate].
    cbn. intros [= <-]. rewrite <- (IH kept' eq_refl). now destruct keep.
Qed.

Lemma getRulesForFile_sublist rules filePath : forall kept,
  getRulesForFile rules filePath = Some kept -> sublist kept rules.
Proof.
  induction rules as [|rule rest IH]; intros kept; cbn [getRulesForFile].
  - intros [= <-]. constructor.
  - destruct (rule_applies rule filePath) as [keep|]; [|discriminate].
    destruct (getRulesForFile rest filePath) as [kept'|]; [|discriminate].
    cbn. intros [= <-]. destruct keep; constructor; now apply IH.
Qed.

Lemma getRulesForFile_again rules filePath : forall kept,
  getRulesForFile rules filePath = Some kept ->
  getRulesForFile kept filePath = Some kept.
Proof.
  induction rules as [|rule rest IH]; intros kept; cbn [getRulesForFile].
  - now intros [= <-].
  - destruct (rule_applies rule filePath) as [keep|] eqn:Ek; [|discriminate].
    destruct (getRulesForFile rest filePath) as [kept'|]; [|discriminate].
    cbn. intros [= <-]. destruct keep.
    + cbn [getRulesForFile]. rewrite Ek, (IH kept' eq_refl). reflexivity.
    + now apply IH.
Qed.

Lemma RuleEngine_selected rules filePath kept :
  getRulesForFile rules filePath = Some kept ->
  forall rule, rule ∈ kept ->
    rule ∈ rules /\ rule_applies rule filePath = Some true.
Proof.
  intros H rule. rewrite (getRulesForFile_filter _ _ _ H).
  rewrite list_elem_of_In, filter_In, bool_decide_eq_true, <- list_elem_of_In.
  tauto.
Qed.

(** X6.  What [getRulesForFile] returns is the rule list with the rules
    that do not apply to the file taken out: the order is kept, nothing
    is added, and selecting again for the same file changes nothing. *)
Theorem getRulesForFile_selects rules filePath kept :
  getRulesForFile rules filePath = Some kept ->
  sublist kept rules
  /\ (forall rule, rule ∈ kept
        <-> rule ∈ rules /\ rule_applies rule filePath = Some true)
  /\ getRulesForFile kept filePath = Some kept.
Proof.
  intros H. split; [now apply (getRulesForFile_sublist rules filePath)|].
  split; [|now apply (getRulesForFile_again rules)].
  intros rule. rewrite (getRulesForFile_filter _ _ _ H).
  rewrite list_elem_of_In, filter_In, bool_decide_eq_true, <- list_elem_of_In.
  reflexivity.
Qed.

Lemma plain_not_special c :
  Regexp.plain c = true ->
  Ascii.eqb "*" c = false /\ Ascii.eqb "?" c = false.
Proof.
  destruct c as [[] [] [] [] [] [] [] []]; intros H;
    try (vm_compute in H; discriminate H); split; reflexivity.
Qed.

Lemma replace_star_star_plain rep c rest :
  Regexp.plain c = true ->
  Js.replace_star_star rep (String c rest)
  = String c (Js.replace_star_star rep rest).
Proof.
  destruct c as [[] [] [] [] [] [] [] []]; intros H;
    try (vm_compute in H; discriminate H); reflexivity.
Qed.

Lemma compile_plain c rest :
  Regexp.plain c = true ->
  Regexp.compile (String c rest)
  = cons (Regexp.One (Regexp.Lit c)) <$> Regexp.compile rest.
Proof.
  destruct c as [[] [] [] [] [] [] [] []]; intros H;
    try (vm_compute in H; discriminate H); reflexivity.
Qed.

Lemma glob_to_regex_literal pattern :
  literal pattern = true -> glob_to_regex pattern = pattern.
Proof.
  unfold literal, glob_to_regex.
  induction pattern as [|c rest IH]; [reflexivity|].
  cbn [list_ascii_of_string forallb]. intros H.
  apply andb_true_iff in H as [Hc Hrest].
  rewrite (replace_star_star_plain _ _ _ Hc). cbn [Js.replace_char].
  destruct (plain_not_special c Hc) as [-> E]. cbn [Js.replace_char].
  rewrite E. f_equal. now apply IH.
Qed.

Lemma compile_literal pattern :
  literal pattern = true ->
  Regexp.compile pattern
  = Some (map (fun c => Regexp.One (Regexp.Lit c)) (list_ascii_of_string pattern)).
Proof.
  unfold literal. induction pattern as [|c rest IH]; [reflexivity|].
  cbn [list_ascii_of_string forallb map]. intros H.
  apply andb_true_iff in H as [Hc Hrest].
  now rewrite (compile_plain _ _ Hc), (IH Hrest).
Qed.

Lemma match_here_literal pattern : forall s,
  Regexp.match_here
    (map (fun c => Regexp.One (Regexp.Lit c)) (list_ascii_of_string pattern)) s
  = String.prefix pattern s.
Proof.
  induction pattern as [|c rest IH]; intros s; [now destruct s|].
  destruct s as [|d s]; [reflexivity|].
  cbn [list_ascii_of_string map Regexp.match_here String.prefix Regexp.cls_matches].
  rewrite IH. destruct (ascii_dec c d) as [->|Hne].
  - now rewrite Ascii.eqb_refl.
  - rewrite (proj2 (Ascii.eqb_neq d c)); [reflexivity | congruence].
Qed.

Lemma search_literal pattern s :
  Regexp.search
    (map (fun c => Regexp.One (Regexp.Lit c)) (list_ascii_of_string pattern)) s
  = Js.includes s pattern.
Proof.
  induction s as [|d s IH]; cbn [Regexp.search Js.includes];
    rewrite match_here_literal; [reflexivity|]. now rewrite IH.
Qed.

(** X7.  A glob without wildcards and without characters that are special
    in a regular expression is not anchored: it selects every path that
    contains it anywhere, not the path equal to it. *)
Theorem literal_glob_is_substring rule pattern filePath :
  files rule = Some [pattern] ->
  literal pattern = true ->
  Regexp.ascii_only filePath = true ->
  rule_applies rule filePath = Some (Js.includes filePath pattern).
Proof.
  intros Hf Hl Ha. unfold rule_applies. rewrite Hf. cbn [some_pattern].
  unfold Regexp.test. rewrite Ha, (glob_to_regex_literal _ Hl),
    (compile_literal _ Hl). cbn. rewrite search_literal.
  now destruct (Js.includes filePath pattern).
Qed.

End FileSelection.

Section FileSelectionExamples.

Import RuleEngine.

Lemma getRulesForFile_selects_witness :
  sublist [ Samples.no_eval ] [ Samples.no_console; Samples.no_eval ]
  /\ (forall rule, rule ∈ [ Samples.no_eval ]
        <-> rule ∈ [ Samples.no_console; Samples.no_eval ]
            /\ rule_applies rule "src/lib/util/index.js" = Some true)
  /\ getRulesForFile [ Samples.no_eval ] "src/lib/util/index.js"
     = Some [ Samples.no_eval ].
Proof.
  apply (getRulesForFile_selects [ Samples.no_console; Samples.no_eval ]
           "src/lib/util/index.js" [ Samples.no_eval ]).
  reflexivity.
Defined.

Lemma literal_glob_is_substring_witness :
  rule_applies Scenarios.in_tests "src/contest/rank.ts"
  = Some (Js.includes "src/contest/rank.ts" "test")
  /\ Js.includes "src/contest/rank.ts" "test" = true.
Proof.
  split; [|reflexivity].
  apply (literal_glob_is_substring Scenarios.in_tests "test"
           "src/contest/rank.ts"); reflexivity.
Defined.

End FileSelectionExamples.

(** ** Breakdown of a rule set *)

Section Breakdown.

Import RuleEngine RuleSet.












End Breakdown.

(** ** Merging, updating and validating configurations *)

Section Configurations.

Import ConfigManager ConfigChecks.

Lemma elem_of_unique_from xs : forall seen x,
  x ∈ unique_from seen xs <-> x ∈ xs /\ x ∉ seen.
Proof.
  induction xs as [|y xs IH]; intros seen x; cbn [unique_from].
  - split; [intros H; inversion H | intros [H _]; inversion H].
  - case_bool_decide as Hseen.
    + rewrite IH, elem_of_cons. split; [tauto|].
      intros [[->|H] Hx]; [contradiction | tauto].
    + rewrite !elem_of_cons, IH, elem_of_cons.
      destruct (decide (x = y)) as [->|Hne]; tauto.
Qed.

Lemma elem_of_unique xs x : x ∈ unique xs <-> x ∈ xs.
Proof.
  unfold unique. rewrite elem_of_unique_from. split; [tauto|].
  intros H. split; [exact H|]. intros Hn. inversion Hn.
Qed.





Lemma unique_from_absorbed xs : forall seen,
  (forall x, x ∈ xs -> x ∈ seen) -> unique_from seen xs = [].
Proof.
  induction xs as [|x xs IH]; intros seen H; cbn [unique_from]; [reflexivity|].
  rewrite bool_decide_eq_true_2 by (apply H; left).
  apply IH. intros y Hy. apply H. now right.
Qed.

Lemma unique_from_ext xs : forall seen seen',
  (forall x, x ∈ seen <-> x ∈ seen') ->
  unique_from seen xs = unique_from seen' xs.
Proof.
  induction xs as [|x xs IH]; intros seen seen' H; cbn [unique_from];
    [reflexivity|].
  rewrite (bool_decide_ext _ _ (H x)). case_bool_decide.
  - now apply IH.
  - f_equal. apply IH. intros y. rewrite !elem_of_cons, H. reflexivity.
Qed.

Lemma unique_from_app xs ys : forall seen,
  unique_from seen (xs ++ ys)
  = unique_from seen xs ++ unique_from (xs ++ seen) ys.
Proof.
  induction xs as [|x xs IH]; intros seen; cbn [unique_from app];
    [reflexivity|].
  case_bool_decide as Hx.
  - rewrite IH. f_equal. apply unique_from_ext. intros y.
    rewrite !elem_of_app, elem_of_cons, elem_of_app.
    split; [tauto|]. intros [->|H]; tauto.
  - cbn [app]. f_equal. rewrite IH. f_equal. apply unique_from_ext.
    intros y. rewrite !elem_of_app, !elem_of_cons, elem_of_app. tauto.
Qed.

Lemma unique_from_NoDup xs : forall seen,
  NoDup xs -> (forall x, x ∈ xs -> x ∉ seen) -> unique_from seen xs = xs.
Proof.
  induction xs as [|x xs IH]; intros seen Hnd Hfresh; cbn [unique_from];
    [reflexivity|].
  apply NoDup_cons in Hnd as [Hx Hnd].
  rewrite bool_decide_eq_false_2 by (apply Hfresh; left).
  f_equal. apply IH; [exact Hnd|].
  intros y Hy Hin. apply elem_of_cons in Hin as [->|Hin]; [contradiction|].
  apply (Hfresh y); [now right | exact Hin].
Qed.

Lemma merge_array_twice base override :
  merge_array (merge_array base override) override = merge_array base override.
Proof.
  destruct override as [o|]; cbn -[unique]; [|reflexivity].
  f_equal. unfold unique at 1. rewrite unique_from_app.
  rewrite unique_from_NoDup, unique_from_absorbed.
  - apply app_nil_r.
  - intros x Hx. rewrite elem_of_app, elem_of_unique, elem_of_app. tauto.
  - apply NoDup_unique.
  - intros x _ H. inversion H.
Qed.

(** X10.  Applying the same update twice is the same as applying it
    once, and an update before the configuration is loaded is refused. *)
Theorem updateConfig_idempotent config updates updated :
  updateConfig (Some config) updates = inr updated ->
  updateConfig (Some updated) updates = inr updated
  /\ exists message, updateConfig None updates = inl message.
Proof.
  cbn. intros [= <-]. split; [|eauto]. f_equal.
  unfold mergeConfigs. cbn [extends analyzers reporters].
  rewrite !merge_array_twice. f_equal.
  now destruct (extends updates).
Qed.


End Configurations.

Section ConfigurationExamples.

Lemma updateConfig_idempotent_witness :
  let updated :=
    ConfigManager.mergeConfigs ConfigManager.getDefaultConfig
      Scenarios.adds_coverage in
  ConfigChecks.updateConfig (Some updated) Scenarios.adds_coverage
  = inr updated
  /\ exists message,
       ConfigChecks.updateConfig None Scenarios.adds_coverage = inl message.
Proof.
  apply (updateConfig_idempotent ConfigManager.getDefaultConfig
           Scenarios.adds_coverage).
  reflexivity.
Defined.

End ConfigurationExamples.

(** ** What the score reads *)

Section ScoreReads.

Import Findings Js CodeReviewTool.

Local Open Scope Q_scope.

Lemma fold_tally_agrees (fs fs' : gmap string Finding) ws :
  (forall a, a ∈ fst <$> ws -> fs !! a = fs' !! a) ->
  forall acc, fold_left (tally fs) ws acc = fold_left (tally fs') ws acc.
Proof.
  induction ws as [|[a w] ws IH]; intros H acc; cbn [fold_left]; [reflexivity|].
  rewrite IH by (intros b Hb; apply H; rewrite fmap_cons; now right).
  f_equal. destruct acc as [total max]. unfold tally.
  rewrite (H a) by (rewrite fmap_cons; left). reflexivity.
Qed.

Lemma getScoreBreakdown_agrees (fs fs' : gmap string Finding) ws :
  (forall a, a ∈ fst <$> ws -> fs !! a = fs' !! a) ->
  getScoreBreakdown fs ws = getScoreBreakdown fs' ws.
Proof.
  unfold getScoreBreakdown. generalize (∅ : gmap string BreakdownEntry).
  induction ws as [|[a w] ws IH]; intros acc H; cbn [fold_left]; [reflexivity|].
  rewrite (H a) by (rewrite fmap_cons; left).
  apply IH. intros b Hb. apply H. rewrite fmap_cons. now right.
Qed.

(** X12.  The score record is a function of the findings under the
    eleven keys of the weight table: whatever is stored under another
    key, such as [customRules], [bugDetection] or [testCases], changes
    neither the overall score, nor the grade, nor the breakdown. *)
Theorem calculateScore_reads_the_weight_table (fs fs' : gmap string Finding) :
  (forall a, a ∈ fst <$> weights -> fs !! a = fs' !! a) ->
  calculateScore fs = calculateScore fs'.
Proof.
  intros H. unfold calculateScore.
  now rewrite (fold_tally_agrees fs fs' weights H),
    (getScoreBreakdown_agrees fs fs' weights H).
Qed.

Lemma getScoreBreakdown_lookup (fs : gmap string Finding) a ws :
  forall acc : gmap string BreakdownEntry,
  NoDup (fst <$> ws) ->
  fold_left
    (fun breakdown '(analyzer, weight) =>
       match fs !! analyzer with
       | Some f =>
           <[analyzer := {| entry_score := getAnalyzerScore analyzer f;
                            entry_weight := weight;
                            entry_findings := f |}]> breakdown
       | None => breakdown
       end) ws acc !! a
  = match fs !! a, (list_to_map ws : gmap string Z) !! a with
    | Some f, Some weight =>
        Some {| entry_score := getAnalyzerScore a f;
                entry_weight := weight;
                entry_findings := f |}
    | _, _ => acc !! a
    end.
Proof.
  induction ws as [|[k w] ws IH]; intros acc Hnd; cbn [fold_left list_to_map foldr].
  - rewrite lookup_empty. now destruct (fs !! a).
  - rewrite fmap_cons in Hnd. apply NoDup_cons in Hnd as [Hk Hnd].
    rewrite (IH _ Hnd). cbn [uncurry fst snd].
    destruct (decide (k = a)) as [->|Hne].
    + rewrite lookup_insert_eq.
      rewrite (not_elem_of_list_to_map_1 (M := gmap string) ws a Hk).
      destruct (fs !! a) as [f|]; [|reflexivity].
      now rewrite lookup_insert_eq.
    + rewrite lookup_insert_ne by exact Hne.
      destruct (fs !! a) as [f|], (fs !! k) as [g|];
        try rewrite lookup_insert_ne by exact Hne; reflexivity.
Qed.

Lemma failure_scores a message :
  num_eq (getAnalyzerScore a (failureRecord message))
    (if bool_decide (a ∈ [ "tests"; "coverage" ]%string)
     then Num 0 else Num 100).
Proof.
  unfold getAnalyzerScore.
  repeat match goal with
  | |- context [String.eqb a ?name] =>
      destruct (String.eqb_spec a name) as [->|?];
        [vm_compute; reflexivity|]
  end.
  rewrite bool_decide_eq_false_2; [cbn; reflexivity|].
  rewrite !elem_of_cons, elem_of_nil. tauto.
Qed.

Lemma breakdown_lookup (fs : gmap string Finding) a :
  breakdown (calculateScore fs) !! a
  = match fs !! a, (list_to_map weights : gmap string Z) !! a with
    | Some f, Some weight =>
        Some {| entry_score := getAnalyzerScore a f;
                entry_weight := weight;
                entry_findings := f |}
    | _, _ => None
    end.
Proof.
  unfold calculateScore.
  destruct (fold_left (tally fs) weights (Num 0, Num 0)) as [total max].
  cbn [breakdown]. unfold getScoreBreakdown.
  rewrite getScoreBreakdown_lookup.
  - rewrite lookup_empty. destruct (fs !! a); [|reflexivity].
    now destruct (_ !! a).
  - apply (bool_decide_unpack _). vm_compute. reflexivity.
Qed.

(** X13.  The breakdown has an entry exactly for the analyzers of the
    weight table that have a finding, failed ones included: the entry
    carries the weight of the table and the sub-score of the finding.
    The failure record of an analyzer that threw is shown with the
    sub-score 100, or 0 for 'tests' and 'coverage'. *)
Theorem breakdown_entries (fs : gmap string Finding) :
  (forall a,
     breakdown (calculateScore fs) !! a
     = match fs !! a, (list_to_map weights : gmap string Z) !! a with
       | Some f, Some weight =>
           Some {| entry_score := getAnalyzerScore a f;
                   entry_weight := weight;
                   entry_findings := f |}
       | _, _ => None
       end)
  /\ (forall a message,
        num_eq (getAnalyzerScore a (failureRecord message))
          (if bool_decide (a ∈ [ "tests"; "coverage" ]%string)
           then Num 0 else Num 100)).
Proof. split; [exact (breakdown_lookup fs) | exact failure_scores]. Qed.

End ScoreReads.

Section ScoreReadsExamples.

Import Findings Js CodeReviewTool.

Lemma calculateScore_reads_the_weight_table_witness :
  calculateScore Scenarios.with_custom_rules
  = calculateScore Samples.only_eslint.
Proof.
  apply (calculateScore_reads_the_weight_table Scenarios.with_custom_rules
           Samples.only_eslint).
  intros a Ha. unfold Scenarios.with_custom_rules.
  apply lookup_insert_ne. intros <-. revert Ha.
  apply (bool_decide_unpack _). vm_compute. reflexivity.
Defined.

End ScoreReadsExamples.

(** ** Order properties of the sub-scores and the grade *)

Section ScoreOrder.

Import Findings Js CodeReviewTool ReportGenerator Ordering.

Local Open Scope Q_scope.

Lemma inject_nat_le (n m : nat) :
  (n <= m)%nat -> inject_Z (Z.of_nat n) <= inject_Z (Z.of_nat m).
Proof. intros H. rewrite <- Zle_Qle. lia. Qed.

Lemma penalty_mono xs xs' each :
  0 <= each -> (size_of xs <= size_of xs')%nat ->
  exists p p', penalty xs each = Num p /\ penalty xs' each = Num p'
               /\ 0 <= p <= p'.
Proof.
  intros He Hle.
  assert (Hval : forall ys, exists p,
            penalty ys each = Num p
            /\ p == inject_Z (Z.of_nat (size_of ys)) * each).
  { intros [l|]; cbn; eexists; (split; [reflexivity|]);
      [reflexivity | ring]. }
  destruct (Hval xs) as (p & Ep & Hp), (Hval xs') as (p' & Ep' & Hp').
  exists p, p'. split; [exact Ep|]. split; [exact Ep'|].
  pose proof (inject_nat_le _ _ Hle) as H.
  pose proof (count_nonneg (size_of xs)) as H0.
  rewrite Hp, Hp'. split.
  - now apply Qmult_le_0_compat.
  - now apply Qmult_le_compat_r.
Qed.

Lemma max0_mono x y : x <= y -> Qmax 0 x <= Qmax 0 y.
Proof. intros H. apply Q.max_le_compat; [apply Qle_refl | exact H]. Qed.

(** X14.  For the analyzers that are scored by subtracting a penalty per
    problem, a finding that reports at least as many problems, count by
    count, never gets a better sub-score. *)
Theorem more_issues_never_score_better analyzer f f' :
  analyzer ∈ penalised ->
  no_fewer_issues f f' ->
  exists q q',
    getAnalyzerScore analyzer f = Num q
    /\ getAnalyzerScore analyzer f' = Num q'
    /\ q' <= q.
Proof.
  intros Ha (He & Hw & Hv & Hperf & Hanti & Hbugs & Hpot & Hsec).
  unfold penalised in Ha. rewrite !elem_of_cons, elem_of_nil in Ha.
  destruct Ha as [->|[->|[->|[->|[->|[->|[]]]]]]]; unfold getAnalyzerScore;
    cbn [String.eqb Ascii.eqb Bool.eqb].
  - cbn [count_or_zero of_nat add mul sub Math_max lift2].
    eexists. eexists. split; [reflexivity|]. split; [reflexivity|].
    apply max0_mono.
    pose proof (inject_nat_le _ _ He). pose proof (inject_nat_le _ _ Hw). lra.
  - destruct (errors f) as [n|], (errors f') as [n'|]; cbn in He;
      repeat match goal with
      | |- context [(0 <? ?k)%nat] => destruct (Nat.ltb_spec 0 k)
      end;
      eexists; eexists; (split; [reflexivity|]); (split; [reflexivity|]);
      first [lra | exfalso; lia].
  - cbn [count_or_zero of_nat add mul sub Math_max lift2].
    eexists. eexists. split; [reflexivity|]. split; [reflexivity|].
    apply max0_mono. pose proof (inject_nat_le _ _ Hv). lra.
  - destruct (penalty_mono (performanceIssues f) (performanceIssues f') 10)
      as (p & p' & -> & -> & Hp); [lra | exact Hperf |].
    cbn [sub Math_max lift2].
    eexists. eexists. split; [reflexivity|]. split; [reflexivity|].
    apply max0_mono. lra.
  - destruct (penalty_mono (antiPatterns f) (antiPatterns f') 15)
      as (p & p' & -> & -> & Hp); [lra | exact Hanti |].
    cbn [sub Math_max lift2].
    eexists. eexists. split; [reflexivity|]. split; [reflexivity|].
    apply max0_mono. lra.
  - destruct (penalty_mono (bugs f) (bugs f') 25)
      as (p1 & p1' & -> & -> & Hp1); [lra | exact Hbugs |].
    destruct (penalty_mono (potentialIssues f) (potentialIssues f') 5)
      as (p2 & p2' & -> & -> & Hp2); [lra | exact Hpot |].
    destruct (penalty_mono (securityRisks f) (securityRisks f') 30)
      as (p3 & p3' & -> & -> & Hp3); [lra | exact Hsec |].
    destruct (penalty_mono (performanceIssues f) (performanceIssues f') 10)
      as (p4 & p4' & -> & -> & Hp4); [lra | exact Hperf |].
    cbn [sub Math_max lift2].
    eexists. eexists. split; [reflexivity|]. split; [reflexivity|].
    apply max0_mono. lra.
Qed.

Ltac qcases :=
  repeat match goal with
  | |- context [Qle_bool ?a ?b] =>
      let E := fresh "E" in
      destruct (Qle_bool a b) eqn:E;
        [apply Qle_bool_iff in E | apply Qle_bool_false in E]
  end.

(** X15.  A higher score never gets a worse grade, and the colour of
    the score card in the HTML report is the colour of the grade. *)
Theorem grade_follows_score :
  (forall q q', q <= q' ->
     (rank (getGrade (Num q)) <= rank (getGrade (Num q')))%nat)
  /\ (forall score, getScoreColor score = colour_of (getGrade score))
  /\ getGrade NaN = F.
Proof.
  split; [|split; [|reflexivity]].
  - intros q q' H. unfold getGrade, geb. qcases; cbn [rank]; try lia; lra.
  - intros score. unfold getScoreColor, getGrade.
    repeat match goal with
    | |- context [geb score ?b] => destruct (geb score b)
    end; reflexivity.
Qed.

End ScoreOrder.

Section ScoreOrderExamples.

Import Findings Js CodeReviewTool.

Lemma more_issues_never_score_better_witness :
  exists q q',
    getAnalyzerScore "eslint" (Samples.lint_finding 0 0) = Num q
    /\ getAnalyzerScore "eslint" (Samples.lint_finding 3 2) = Num q'
    /\ (q' <= q)%Q.
Proof.
  apply (more_issues_never_score_better "eslint"
           (Samples.lint_finding 0 0) (Samples.lint_finding 3 2)).
  - apply (bool_decide_unpack _). vm_compute. reflexivity.
  - unfold Ordering.no_fewer_issues. cbn. repeat split; lia.
Defined.

End ScoreOrderExamples.

(** ** The ceiling of a run *)

Section RunCeiling.

Import Findings Js CodeReviewTool ReportGenerator Ordering.

Local Open Scope Q_scope.

Lemma contributions_attainable (fs : gmap string Finding) ws :
  (forall analyzer f, fs !! analyzer = Some f -> Spec.shaped analyzer f) ->
  Forall (fun entry : string * Z => (0 <= snd entry)%Z) ws ->
  exists total,
    Spec.sum_numbers (map (Spec.contribution fs) ws) = Num total
    /\ 0 <= total <= inject_Z (attainable fs ws).
Proof.
  intros Hshaped. induction 1 as [|[analyzer weight] ws Hw _ IH].
  - exists 0. split; [reflexivity|]. split; apply Qle_refl.
  - destruct IH as (total & E & Ht).
    cbn [map Spec.sum_numbers fold_right attainable fst snd].
    fold (Spec.sum_numbers (map (Spec.contribution fs) ws)).
    fold (attainable fs ws). rewrite E.
    destruct (counted fs analyzer) eqn:Ec.
    + destruct (contribution_bounds fs Hshaped analyzer weight Hw)
        as (c & -> & Hc).
      cbn [add lift2]. eexists. split; [reflexivity|].
      rewrite inject_Z_plus. lra.
    + unfold Spec.contribution. cbn [fst]. rewrite Ec.
      cbn [add lift2]. eexists. split; [reflexivity|].
      rewrite inject_Z_plus. change (inject_Z 0) with 0. lra.
Qed.

Lemma overall_attainable (fs : gmap string Finding) (cap : Z) :
  (forall analyzer f, fs !! analyzer = Some f -> Spec.shaped analyzer f) ->
  (attainable fs weights <= cap)%Z ->
  exists z, overall (calculateScore fs) = Num (inject_Z z)
            /\ (0 <= z <= round_half_up (inject_Z cap / 118 * 100))%Z.
Proof.
  intros Hshaped Hcap. rewrite (overall_closed_form fs).
  destruct (contributions_attainable fs weights Hshaped) as (total & -> & Ht).
  { repeat constructor; cbn; lia. }
  cbn [div mul lift2 Math_round].
  replace (Qeq_bool 118 0) with false by reflexivity.
  eexists. split; [reflexivity|].
  assert (Hc : total <= inject_Z cap).
  { apply (Qle_trans _ (inject_Z (attainable fs weights))); [tauto|].
    now rewrite <- Zle_Qle. }
  split.
  - rewrite <- (round_half_up_Z 0). apply round_half_up_mono.
    change (inject_Z 0) with 0.
    apply Qmult_le_0_compat; [apply Qle_shift_div_l|]; lra.
  - apply round_half_up_mono.
    apply Qmult_le_compat_r; [|lra].
    apply Qmult_le_compat_r; [exact Hc|]. now vm_compute.
Qed.

Lemma grade_of_score (fs : gmap string Finding) :
  grade (calculateScore fs) = getGrade (overall (calculateScore fs)).
Proof.
  unfold calculateScore. now destruct (fold_left (tally fs) weights _).
Qed.

Lemma grade_below (z bound : Z) :
  (z < bound)%Z ->
  geb (Num (inject_Z z)) (Num (bound # 1)) = false.
Proof.
  intros H. cbn [geb]. apply Qle_bool_false.
  change (bound # 1) with (inject_Z bound). rewrite <- Zlt_Qlt. exact H.
Qed.

Lemma run_hyphenated_uncounted analyzer names key :
  key ∈ [ "custom-rules"; "bug-detection"; "test-cases" ]%string ->
  counted (findings (runAnalyzers analyzer names)) key = false.
Proof.
  intros Hkey. apply counted_failure. intros f. unfold runAnalyzers.
  apply hyphenated_entries; [exact Hkey|].
  intros g. cbn [findings]. rewrite lookup_empty. discriminate.
Qed.

(** X16.  In the findings of a run the weight-table entries
    'bug-detection' and 'test-cases' are never counted, so at most 91 of
    the 118 points can be earned: for findings of the expected shape (a
    complexity score between 0 and 100, coverage percentages that are not
    negative) the overall score is at most 77, the grade is never A or B,
    and the summary always asks for improvement. *)
Theorem no_run_reaches_B (analyzer : AnalyzerRun) (names : list string) :
  let fs := findings (runAnalyzers analyzer names) in
  let score := calculateScore fs in
  (forall a f, fs !! a = Some f -> Spec.shaped a f) ->
  exists z,
    overall score = Num (inject_Z z) /\ (0 <= z <= 77)%Z
    /\ (rank (grade score) <= rank C)%nat
    /\ needsImprovement (generateSummary fs score) = true.
Proof.
  cbn zeta. intros Hshaped.
  set (fs := findings (runAnalyzers analyzer names)) in *.
  destruct (overall_attainable fs 91 Hshaped) as (z & Ez & Hz).
  { unfold attainable, weights. cbn [fold_right fst snd].
    unfold fs.
    rewrite (run_hyphenated_uncounted analyzer names "bug-detection"),
      (run_hyphenated_uncounted analyzer names "test-cases");
      [|rewrite !elem_of_cons; tauto..].
    repeat match goal with
    | |- context [counted ?m ?k] => destruct (counted m k)
    end; lia. }
  replace (round_half_up (inject_Z 91 / 118 * 100)) with 77%Z in Hz
    by (vm_compute; reflexivity).
  exists z. split; [exact Ez|]. split; [exact Hz|].
  cbn [needsImprovement generateSummary]. rewrite grade_of_score, Ez.
  split.
  - unfold getGrade.
    rewrite (grade_below z 90), (grade_below z 80) by lia.
    repeat match goal with
    | |- context [geb ?a ?b] => destruct (geb a b)
    end; cbn; lia.
  - unfold ltb. cbn [gtb]. apply negb_true_iff, Qle_bool_false.
    change 80 with (inject_Z 80). rewrite <- Zlt_Qlt. lia.
Qed.

Lemma default_names_written analyzer name :
  name ∈ ConfigManager.getEnabledAnalyzers ConfigManager.getDefaultConfig ->
  is_Some (written analyzer name)
  /\ key_written analyzer name
       ∈ [ "eslint"; "typescript"; "security"; "tests"; "complexity";
           "bugDetection"; "bug-detection"; "testCases"; "test-cases" ]%string.
Proof.
  change (ConfigManager.getEnabledAnalyzers ConfigManager.getDefaultConfig)
    with [ "eslint"; "typescript"; "security"; "tests"; "complexity";
           "bug-detection"; "test-cases" ]%string.
  rewrite !elem_of_cons, elem_of_nil.
  intros [->|[->|[->|[->|[->|[->|[->|[]]]]]]]];
    unfold key_written, written; cbn -[elem_of];
    match goal with |- context [?m analyzer] => destruct (m analyzer) end;
    (split; [eauto|]); tauto.
Qed.

Lemma default_run_absent analyzer names key :
  (forall n, n ∈ names ->
     n ∈ ConfigManager.getEnabledAnalyzers ConfigManager.getDefaultConfig) ->
  key ∈ [ "dependencies"; "coverage"; "performance"; "architecture" ]%string ->
  counted (findings (runAnalyzers analyzer names)) key = false.
Proof.
  intros Hnames Hkey. unfold counted, runAnalyzers.
  destruct (run_fold analyzer names
              {| findings := ∅; executed := []; unknown := [] |})
    as (_ & _ & Hf).
  { intros n Hn. now apply default_names_written, Hnames. }
  rewrite Hf; [cbn [findings]; now rewrite lookup_empty|].
  intros Hin. apply list_elem_of_fmap in Hin as (n & -> & Hn).
  destruct (default_names_written analyzer n (Hnames n Hn)) as [_ Hk].
  revert Hkey Hk. generalize (key_written analyzer n). intros k.
  rewrite !elem_of_cons, !elem_of_nil.
  intros [->|[->|[->|[->|[]]]]] H;
    repeat (destruct H as [H|H]; [discriminate|]); exact H.
Qed.

(** X17.  With the analyzers of the default configuration at most 62 of
    the 118 points can be earned (the results of 'bug-detection' and
    'test-cases' are stored under keys the score does not read, and four
    analyzers of the weight table do not run): for findings of the
    expected shape (a complexity score between 0 and 100, coverage
    percentages that are not negative) the overall score is at most 53 and
    the grade is F. *)
Theorem default_analyzers_grade_F (analyzer : AnalyzerRun)
    (names : list string) :
  let fs := findings (runAnalyzers analyzer names) in
  let score := calculateScore fs in
  (forall n, n ∈ names ->
     n ∈ ConfigManager.getEnabledAnalyzers ConfigManager.getDefaultConfig) ->
  (forall a f, fs !! a = Some f -> Spec.shaped a f) ->
  exists z,
    overall score = Num (inject_Z z) /\ (0 <= z <= 53)%Z
    /\ grade score = F.
Proof.
  cbn zeta. intros Hnames Hshaped.
  set (fs := findings (runAnalyzers analyzer names)) in *.
  destruct (overall_attainable fs 62 Hshaped) as (z & Ez & Hz).
  { unfold attainable, weights. cbn [fold_right fst snd].
    unfold fs.
    rewrite (run_hyphenated_uncounted analyzer names "bug-detection"),
      (run_hyphenated_uncounted analyzer names "test-cases");
      [|rewrite !elem_of_cons; tauto..].
    rewrite (default_run_absent analyzer names "dependencies"),
      (default_run_absent analyzer names "coverage"),
      (default_run_absent analyzer names "performance"),
      (default_run_absent analyzer names "architecture");
      [|solve [exact Hnames | rewrite !elem_of_cons; tauto]..].
    repeat match goal with
    | |- context [counted ?m ?k] => destruct (counted m k)
    end; lia. }
  replace (round_half_up (inject_Z 62 / 118 * 100)) with 53%Z in Hz
    by (vm_compute; reflexivity).
  exists z. split; [exact Ez|]. split; [exact Hz|].
  rewrite grade_of_score, Ez. unfold getGrade.
  now rewrite (grade_below z 90), (grade_below z 80), (grade_below z 70),
    (grade_below z 60) by lia.
Qed.

End RunCeiling.

Section RunCeilingExamples.

Import Findings Js CodeReviewTool.

Lemma counts_only_shaped a f :
  Scenarios.counts_only f = true -> Spec.shaped a f.
Proof.
  unfold Scenarios.counts_only, Spec.shaped, Spec.structured_statements.
  destruct (coverage f), (score f); try discriminate.
  intros _. repeat split; intros; try discriminate; auto.
Qed.

Lemma security_down_shaped :
  forall a f,
    findings (runAnalyzers Samples.security_down Scenarios.default_names) !! a
    = Some f -> Spec.shaped a f.
Proof.
  assert (H : map_Forall (fun _ f => Scenarios.counts_only f = true)
                (findings (runAnalyzers Samples.security_down
                             Scenarios.default_names))).
  { apply (bool_decide_unpack _). vm_compute. reflexivity. }
  intros a f Hf. apply counts_only_shaped. exact (H a f Hf).
Qed.

Lemma no_run_reaches_B_witness :
  let fs := findings (runAnalyzers Samples.security_down
                        Scenarios.default_names) in
  exists z,
    overall (calculateScore fs) = Num (inject_Z z) /\ (0 <= z <= 77)%Z
    /\ (ReportGenerator.rank (grade (calculateScore fs))
        <= ReportGenerator.rank C)%nat
    /\ ReportGenerator.needsImprovement
         (ReportGenerator.generateSummary fs (calculateScore fs)) = true.
Proof.
  apply (no_run_reaches_B Samples.security_down Scenarios.default_names).
  exact security_down_shaped.
Defined.

Lemma default_analyzers_grade_F_witness :
  let fs := findings (runAnalyzers Samples.security_down
                        Scenarios.default_names) in
  exists z,
    overall (calculateScore fs) = Num (inject_Z z) /\ (0 <= z <= 53)%Z
    /\ grade (calculateScore fs) = F.
Proof.
  apply (default_analyzers_grade_F Samples.security_down
           Scenarios.default_names).
  - intros n Hn. exact Hn.
  - exact security_down_shaped.
Defined.

End RunCeilingExamples.

(** ** Summary and recommendations of a report *)

Section ReportSummary.

Import Findings Js CodeReviewTool ReportGenerator.

Local Open Scope Q_scope.

Lemma filter_partition_length {A} (f : A -> bool) l :
  (length (List.filter (fun x => negb (f x)) l) + length (List.filter f l)
   = length l)%nat.
Proof.
  induction l as [|x l IH]; cbn; [reflexivity|].
  destruct (f x); cbn; lia.
Qed.

Lemma fold_sum_le {A} (g h : A -> nat) l : forall a b,
  (forall x, g x <= h x)%nat -> (a <= b)%nat ->
  (fold_left (fun sum x => sum + g x) l a
   <= fold_left (fun sum x => sum + h x) l b)%nat.
Proof.
  induction l as [|x l IH]; intros a b H Hab; cbn [fold_left]; [exact Hab|].
  apply IH; [exact H|]. specialize (H x). lia.
Qed.

Lemma fold_left_ext_fun {A B} (f g : B -> A -> B) l : forall b,
  (forall b x, f b x = g b x) -> fold_left f l b = fold_left g l b.
Proof.
  induction l as [|x l IH]; intros b H; cbn; [reflexivity|].
  now rewrite H, IH.
Qed.

(** X18.  In the summary of a report every finding is counted once,
    either as passed or as failed, and the critical issues are among
    the total issues. *)
Theorem summary_counts (fs : gmap string Finding) (score : Score) :
  let summary := generateSummary fs score in
  (passedAnalyzers summary + failedAnalyzers summary = size fs)%nat
  /\ (criticalIssues summary <= totalIssues summary)%nat.
Proof.
  cbn zeta. cbn [passedAnalyzers failedAnalyzers criticalIssues totalIssues
                 generateSummary]. split.
  - rewrite filter_partition_length. unfold values.
    now rewrite length_fmap, length_map_to_list.
  - rewrite (fold_left_ext_fun
               (fun sum result =>
                  (sum + default 0 (errors result) + default 0 (warnings result)
                   + default 0 (violations result))%nat)
               (fun sum result =>
                  (sum + (default 0 (errors result) + default 0 (warnings result)
                          + default 0 (violations result)))%nat))
      by (intros; lia).
    apply (fold_sum_le (fun result => default 0%nat (errors result))); intros; lia.
Qed.

(** X19.  The list of recommendations is never empty, and 'Great Job'
    only ever stands alone.  An 'eslint' or 'security' analyzer that
    threw is shown with the sub-score 100 and triggers no
    recommendation of its own; a 'tests' analyzer that threw triggers
    the test-coverage recommendation. *)
Theorem recommendations_of_a_score :
  (forall score,
     generateRecommendations score <> []
     /\ (GreatJob ∈ generateRecommendations score ->
         generateRecommendations score = [GreatJob]))
  /\ (forall (fs : gmap string Finding) analyzer message recommendation,
        fs !! analyzer = Some (failureRecord message) ->
        recommendation_of analyzer = Some recommendation ->
        (recommendation ∈ generateRecommendations (calculateScore fs)
         <-> analyzer = "tests"%string)).
Proof.
  split.
  - intros score. unfold generateRecommendations.
    destruct (ltb (overall score) (Num 60)), (below score "eslint" 80),
      (below score "tests" 70), (below score "security" 100);
      cbn; (split; [discriminate|]);
      rewrite ?elem_of_cons, ?elem_of_nil;
      intros H; try reflexivity;
      repeat (destruct H as [H|H]; [discriminate|]); contradiction.
  - intros fs analyzer message recommendation Hf Hr.
    assert (Hbelow : forall name bound,
              name ∈ [ "eslint"; "tests"; "security" ]%string ->
              below (calculateScore fs) name bound
              = match fs !! name with
                | Some f => ltb (getAnalyzerScore name f) (Num bound)
                | None => false
                end).
    { intros name bound Hname. unfold below. rewrite breakdown_lookup.
      destruct (fs !! name) as [f|]; [|reflexivity].
      rewrite !elem_of_cons, elem_of_nil in Hname.
      destruct Hname as [->|[->|[->|[]]]]; reflexivity. }
    unfold recommendation_of in Hr. unfold generateRecommendations.
    rewrite !Hbelow by (rewrite !elem_of_cons; tauto).
    destruct (String.eqb_spec analyzer "eslint") as [->|N1].
    { inversion Hr; subst. rewrite Hf.
      replace (ltb (getAnalyzerScore "eslint" (failureRecord message)) (Num 80))
        with false by (vm_compute; reflexivity).
      split; [|discriminate]. intros H. exfalso.
      destruct (ltb (overall _) _),
        (match fs !! "tests"%string with Some _ => _ | None => _ end),
        (match fs !! "security"%string with Some _ => _ | None => _ end);
        cbn in H; rewrite ?elem_of_cons, ?elem_of_nil in H;
        repeat (destruct H as [H|H]; [discriminate|]); contradiction. }
    destruct (String.eqb_spec analyzer "tests") as [->|N2].
    { inversion Hr; subst. rewrite Hf.
      replace (ltb (getAnalyzerScore "tests" (failureRecord message)) (Num 70))
        with true by (vm_compute; reflexivity).
      split; [reflexivity|]. intros _.
      destruct (ltb (overall _) _),
        (match fs !! "eslint"%string with Some _ => _ | None => _ end),
        (match fs !! "security"%string with Some _ => _ | None => _ end);
        cbn; rewrite ?elem_of_cons; tauto. }
    destruct (String.eqb_spec analyzer "security") as [->|N3]; [|discriminate].
    inversion Hr; subst. rewrite Hf.
    replace (ltb (getAnalyzerScore "security" (failureRecord message)) (Num 100))
      with false by (vm_compute; reflexivity).
    split; [|discriminate]. intros H. exfalso.
    destruct (ltb (overall _) _),
      (match fs !! "eslint"%string with Some _ => _ | None => _ end),
      (match fs !! "tests"%string with Some _ => _ | None => _ end);
      cbn in H; rewrite ?elem_of_cons, ?elem_of_nil in H;
      repeat (destruct H as [H|H]; [discriminate|]); contradiction.
Qed.

End ReportSummary.

(** ** Report generation *)

Section ReportGeneration.

Import CodeReviewToolWeighted ReportCases.

Variable reporter : ReporterRun.
Variable options : ToolOptions.

(** X20.  In the revision with report modes the reports that are
    rendered depend on the mode alone: the HTML report, and the AI
    summary in AI testing mode.  A JSON, Markdown, AI prompts or AI
    analysis report is never rendered, not even when the list of
    reporters asks for it. *)
Theorem mode_decides_the_reports (configured : list string) :
  let st := CodeReviewToolWeighted.generateReports reporter options configured in
  rendered st
  = (if isAITesting options then [ "html"; "ai-summary" ] else [ "html" ])%string
  /\ unknownReporters st = []
  /\ (forall key, key ∉ [ "html"; "aiSummary" ]%string -> reports st !! key = None)
  /\ reports st !! "html"%string = artifact (generateHTMLReport reporter).
Proof.
  cbn zeta. unfold CodeReviewToolWeighted.generateReports.
  destruct (isAITesting options); cbn [fold_left];
    unfold CodeReviewToolWeighted.report; cbn [String.eqb Ascii.eqb Bool.eqb];
    destruct (generateHTMLReport reporter);
    try destruct (generateAISummaryMD reporter);
    cbn [render rendered unknownReporters reports app artifact];
    (split; [reflexivity|]); (split; [reflexivity|]);
    (split; [intros key; rewrite !not_elem_of_cons; intros (Hk1 & Hk2 & _);
             rewrite ?lookup_insert_ne by congruence; now rewrite lookup_empty|]);
    rewrite ?lookup_insert_ne by discriminate;
    first [now rewrite lookup_insert_eq | now rewrite lookup_empty].
Qed.

Lemma report_case st reporterName :
  CodeReviewToolReports.report reporter st reporterName
  = match case_of reporter reporterName with
    | Some (key, r) => render st reporterName key r
    | None =>
        {| reports := reports st; rendered := rendered st;
           failed := failed st;
           unknownReporters := unknownReporters st ++ [reporterName] |}
    end.
Proof.
  unfold CodeReviewToolReports.report, case_of.
  repeat match goal with
  | |- context [String.eqb reporterName ?n] =>
      destruct (String.eqb reporterName n)
  end; reflexivity.
Qed.

Lemma case_of_key_inj n1 n2 key r1 r2 :
  case_of reporter n1 = Some (key, r1) ->
  case_of reporter n2 = Some (key, r2) -> n1 = n2.
Proof.
  unfold case_of.
  repeat match goal with
  | |- context [String.eqb n1 ?n] => destruct (String.eqb_spec n1 n)
  end;
  repeat match goal with
  | |- context [String.eqb n2 ?n] => destruct (String.eqb_spec n2 n)
  end; intros H1 H2; inversion H1; inversion H2; congruence.
Qed.

Lemma reports_frame names key : forall st,
  (forall n k r, n ∈ names -> case_of reporter n = Some (k, r) -> k <> key) ->
  reports (fold_left (CodeReviewToolReports.report reporter) names st) !! key
  = reports st !! key.
Proof.
  induction names as [|n names IH]; intros st H; cbn [fold_left]; [reflexivity|].
  rewrite IH by (intros m k r Hm; apply H; now right).
  rewrite report_case.
  destruct (case_of reporter n) as [[k r]|] eqn:E; [|reflexivity].
  destruct r; cbn [render reports]; [|reflexivity].
  apply lookup_insert_ne. apply (H n k (Artifact path)); [left | exact E].
Qed.

Lemma reports_written names name key r : forall st,
  name ∈ names -> case_of reporter name = Some (key, r) ->
  reports (fold_left (CodeReviewToolReports.report reporter) names st) !! key
  = match r with
    | Artifact path => Some path
    | RenderThrows _ => reports st !! key
    end.
Proof.
  induction names as [|n names IH]; intros st Hin Hcase; [inversion Hin|].
  cbn [fold_left].
  assert (Hstep : name = n ->
            reports (CodeReviewToolReports.report reporter st n) !! key
            = match r with
              | Artifact path => Some path
              | RenderThrows _ => reports st !! key
              end).
  { intros <-. rewrite report_case, Hcase.
    destruct r; cbn [render reports]; [apply lookup_insert_eq | reflexivity]. }
  assert (Hother : name <> n ->
            reports (CodeReviewToolReports.report reporter st n) !! key
            = reports st !! key).
  { intros Hne. rewrite report_case.
    destruct (case_of reporter n) as [[k r']|] eqn:E; [|reflexivity].
    destruct r'; cbn [render reports]; [|reflexivity].
    apply lookup_insert_ne. intros ->. apply Hne.
    now apply (case_of_key_inj name n key r (Artifact path)). }
  destruct (decide (name ∈ names)) as [Hrest|Hrest].
  - rewrite (IH _ Hrest Hcase). destruct r; [reflexivity|].
    destruct (decide (name = n)) as [E|E]; [now apply Hstep | now apply Hother].
  - apply elem_of_cons in Hin as [E|Hin]; [|contradiction].
    rewrite reports_frame; [now apply Hstep|].
    intros m k r' Hm Em ->. apply Hrest.
    now rewrite (case_of_key_inj name m key r r' Hcase Em).
Qed.

Lemma lists_of_run names : forall st,
  let final := fold_left (CodeReviewToolReports.report reporter) names st in
  rendered final = rendered st ++ List.filter (known reporter) names
  /\ failed final = failed st ++ List.filter (throws reporter) names
  /\ unknownReporters final
     = unknownReporters st
       ++ List.filter (fun n => negb (known reporter n)) names.
Proof.
  induction names as [|n names IH]; intros st; cbn zeta.
  - cbn. now rewrite !app_nil_r.
  - cbn [fold_left List.filter].
    destruct (IH (CodeReviewToolReports.report reporter st n)) as (H1 & H2 & H3).
    rewrite H1, H2, H3, report_case. unfold known, throws.
    destruct (case_of reporter n) as [[k r]|] eqn:E.
    + rewrite bool_decide_eq_true_2 by eauto.
      destruct r; cbn [render rendered failed unknownReporters negb];
        rewrite <- ?app_assoc; auto.
    + rewrite bool_decide_eq_false_2 by (intros [? ?]; discriminate).
      cbn [rendered failed unknownReporters negb].
      rewrite <- ?app_assoc; auto.
Qed.

(** X21.  [generateReports] of src/lib/index.js calls the renderer of
    every listed reporter it knows, in order; a renderer that throws
    does not stop the others, it is only missing from the result; names
    it does not know are skipped. *)
Theorem listed_reports_are_isolated (configured : list string) :
  let names := default configured (reporters options) in
  let st := CodeReviewToolReports.generateReports reporter options configured in
  rendered st = List.filter (known reporter) names
  /\ failed st = List.filter (throws reporter) names
  /\ unknownReporters st = List.filter (fun n => negb (known reporter n)) names
  /\ (forall name key r,
        name ∈ names -> case_of reporter name = Some (key, r) ->
        reports st !! key = artifact r).
Proof.
  cbn zeta. unfold CodeReviewToolReports.generateReports.
  destruct (lists_of_run (default configured (reporters options))
              {| reports := ∅; rendered := []; failed := [];
                 unknownReporters := [] |}) as (H1 & H2 & H3).
  split; [exact H1|]. split; [exact H2|]. split; [exact H3|].
  intros name key r Hin Hcase.
  rewrite (reports_written _ name key r _ Hin Hcase).
  destruct r; [reflexivity|]. cbn [reports artifact]. now rewrite lookup_empty.
Qed.

End ReportGeneration.

(** ** The coverage curve and the weighted coverage *)

Section CoverageOrder.

Import Findings Js CodeReviewToolWeighted AnalyzerBase.

Local Open Scope Q_scope.

Ltac qsplit :=
  repeat match goal with
  | |- context [Qle_bool ?a ?b] =>
      let E := fresh "E" in
      destruct (Qle_bool a b) eqn:E;
        [apply Qle_bool_iff in E | apply Qle_bool_false in E]
  end.

Lemma coverage_curve_mono s t :
  0 <= s -> s <= t -> Spec.coverage_curve s <= Spec.coverage_curve t.
Proof.
  intros Hs Hst. unfold Spec.coverage_curve. qsplit; try lra.
  - apply Q.min_le_compat_l. lra.
  - apply Q.min_glb; lra.
  - apply Q.min_glb; lra.
Qed.

Lemma coverage_curve_gap s :
  0 <= s -> ~ (70 <= Spec.coverage_curve s < 77).
Proof.
  intros Hs. unfold Spec.coverage_curve. qsplit; try lra.
  intros [_ H]. apply Q.min_lt_iff in H. lra.
Qed.

(** X22.  Without weighted data the test sub-score never decreases when
    the statement coverage grows and never exceeds 100; because of the
    bonus that starts at 70, no coverage gives a sub-score from 70 up
    to, but not including, 77. *)
Theorem fallback_score_is_monotone (low high : TestScoreInput) (s t : Q) :
  Spec.weighted_unavailable (ts_weightedCoverage low) ->
  Spec.weighted_unavailable (ts_weightedCoverage high) ->
  ts_coverage low
    = Some (CoverageObj {| statements := Some (StatementsNum s) |}) ->
  ts_coverage high
    = Some (CoverageObj {| statements := Some (StatementsNum t) |}) ->
  0 <= s -> s <= t ->
  exists q q',
    calculateWeightedTestScore low = Num q
    /\ calculateWeightedTestScore high = Num q'
    /\ 0 <= q /\ q <= q' /\ q' <= 100
    /\ ~ (70 <= q < 77).
Proof.
  intros Hl Hh Cl Ch Hs Hst.
  destruct (fallback_on_structured_coverage low s Hl Cl Hs) as [El _].
  destruct (fallback_on_structured_coverage high t Hh Ch) as [Eh _]; [lra|].
  destruct (calculateWeightedTestScore low) as [q|]; [|contradiction].
  destruct (calculateWeightedTestScore high) as [q'|]; [|contradiction].
  cbn in El, Eh. exists q, q'. split; [reflexivity|]. split; [reflexivity|].
  pose proof (coverage_curve_bounds s Hs).
  pose proof (coverage_curve_bounds t ltac:(lra)).
  pose proof (coverage_curve_mono s t Hs Hst).
  pose proof (coverage_curve_gap s Hs).
  rewrite El, Eh. tauto.
Qed.

Lemma statements_or_zero_bounds c :
  (forall q, statements_pct c = Some q -> 0 <= q <= 100) ->
  0 <= statements_or_zero c <= 100.
Proof.
  intros H. unfold statements_or_zero.
  destruct (statements_pct c) as [q|]; [|cbn; lra].
  destruct (Qeq_bool q 0); [cbn; lra | now apply H].
Qed.

Lemma sum_statements_bounds entries :
  Forall (fun entry => 0 <= statements_or_zero (snd entry) <= 100) entries ->
  0 <= Spec.sum_statements entries
  <= 100 * inject_Z (Z.of_nat (length entries)).
Proof.
  induction 1 as [|entry entries He _ IH].
  - cbn [Spec.sum_statements fold_right length Z.of_nat].
    change (inject_Z (Z.of_nat 0)) with 0. lra.
  - cbn [Spec.sum_statements fold_right length].
    fold (Spec.sum_statements entries).
    rewrite Nat2Z.inj_succ. unfold Z.succ. rewrite inject_Z_plus.
    change (inject_Z 1) with 1. lra.
Qed.

Lemma mean_statements_bounds entries :
  Forall (fun entry => 0 <= statements_or_zero (snd entry) <= 100) entries ->
  0 <= Spec.mean_statements entries <= 100.
Proof.
  intros H. pose proof (sum_statements_bounds entries H) as Hs.
  unfold Spec.mean_statements. destruct entries as [|e entries]; [lra|].
  set (n := inject_Z (Z.of_nat (length (e :: entries)))) in *.
  assert (Hn : 0 < n).
  { unfold n. change 0 with (inject_Z 0). rewrite <- Zlt_Qlt. cbn. lia. }
  split.
  - apply Qle_shift_div_l; [exact Hn | lra].
  - apply Qle_shift_div_r; [exact Hn | lra].
Qed.

Lemma round2_le x (bound : Z) :
  x <= inject_Z bound -> round2 x <= inject_Z bound.
Proof.
  intros H. unfold round2. apply Qle_shift_div_r; [lra|].
  change 100 with (inject_Z 100). rewrite <- inject_Z_mult, <- Zle_Qle.
  rewrite <- (round_half_up_Z (bound * 100)). apply round_half_up_mono.
  rewrite inject_Z_mult. change (inject_Z 100) with 100. lra.
Qed.

Lemma round2_nonneg x : 0 <= x -> 0 <= round2 x.
Proof.
  intros H. unfold round2. apply Qle_shift_div_l; [lra|].
  rewrite Qmult_0_l. change 0 with (inject_Z 0). rewrite <- Zle_Qle.
  rewrite <- (round_half_up_Z 0). apply round_half_up_mono.
  change (inject_Z 0) with 0. lra.
Qed.

Lemma class_entries_Forall (P : string * FileCoverage -> Prop) core data :
  Forall P data -> Forall P (Spec.class_entries core data).
Proof.
  intros H. apply List.Forall_forall. intros entry Hin.
  unfold Spec.class_entries in Hin. apply filter_In in Hin as [Hin _].
  rewrite List.Forall_forall in H. now apply H.
Qed.

(** X23.  When every file is covered between 0 and 100 percent, the
    weighted score lies between 0 and 100; a data set without
    infrastructure files cannot score above 80, one without core-logic
    files not above 20. *)
Theorem weighted_score_bounds (data : list (string * FileCoverage)) :
  (forall path c q,
     (path, c) ∈ data -> statements_pct c = Some q -> 0 <= q <= 100) ->
  exists ws,
    weightedScore (calculateWeightedCoverage data) = Some ws
    /\ 0 <= ws <= 100
    /\ (Spec.class_entries false data = [] -> ws <= 80)
    /\ (Spec.class_entries true data = [] -> ws <= 20).
Proof.
  intros Hpct. rewrite weightedScore_rounded. eexists. split; [reflexivity|].
  assert (Hall : Forall (fun entry => 0 <= statements_or_zero (snd entry) <= 100)
                   data).
  { apply List.Forall_forall. intros [path c] Hin. cbn [snd].
    apply statements_or_zero_bounds. intros q. apply (Hpct path).
    now apply list_elem_of_In. }
  pose proof (mean_statements_bounds _ (class_entries_Forall _ true data Hall))
    as Hcore.
  pose proof (mean_statements_bounds _ (class_entries_Forall _ false data Hall))
    as Hinfra.
  unfold Spec.weighted_coverage. split; [split|split].
  - apply round2_nonneg. lra.
  - apply (round2_le _ 100). change (inject_Z 100) with 100. lra.
  - intros E. rewrite E. apply (round2_le _ 80).
    change (inject_Z 80) with 80. cbn [Spec.mean_statements]. lra.
  - intros E. rewrite E. apply (round2_le _ 20).
    change (inject_Z 20) with 20. cbn [Spec.mean_statements]. lra.
Qed.

Lemma class_entries_perm core data data' :
  data ≡ₚ data' ->
  Spec.sum_statements (Spec.class_entries core data)
  == Spec.sum_statements (Spec.class_entries core data')
  /\ length (Spec.class_entries core data)
     = length (Spec.class_entries core data').
Proof.
  unfold Spec.class_entries.
  set (keep := fun entry : string * FileCoverage =>
                 negb (String.eqb (fst entry) "total")
                 && Bool.eqb (isCoreLogicFile (fst entry)) core).
  induction 1 as [|x l l' _ [IH1 IH2]|x y l|l l' l'' _ [IH1 IH2] _ [IH3 IH4]].
  - split; reflexivity.
  - cbn [List.filter]. destruct (keep x); [|now split].
    cbn [Spec.sum_statements fold_right length].
    fold (Spec.sum_statements (List.filter keep l)).
    fold (Spec.sum_statements (List.filter keep l')).
    split; [now rewrite IH1 | now rewrite IH2].
  - cbn [List.filter]. destruct (keep x), (keep y);
      cbn [Spec.sum_statements fold_right length];
      (split; [ring | reflexivity]).
  - split; [now rewrite IH1 | now rewrite IH2].
Qed.

Lemma class_counts data :
  coreLogicFiles (calculateWeightedCoverage data)
  = length (Spec.class_entries true data)
  /\ infrastructureFiles (calculateWeightedCoverage data)
     = length (Spec.class_entries false data).
Proof.
  unfold calculateWeightedCoverage. cbn [coreLogicFiles infrastructureFiles].
  pose proof (fold_accumulate data
    {| coreLogicSum := 0; infrastructureSum := 0;
       coreLogicCount := 0; infrastructureCount := 0 |}) as H.
  cbn zeta in H. destruct H as (_ & _ & H3 & H4).
  rewrite H3, H4. now cbn.
Qed.

Lemma double_class_counts data :
  DoubleCoverage.coreLogicFiles (DoubleCoverage.calculateWeightedCoverage data)
  = length (Spec.class_entries true data)
  /\ DoubleCoverage.infrastructureFiles
       (DoubleCoverage.calculateWeightedCoverage data)
     = length (Spec.class_entries false data).
Proof.
  unfold DoubleCoverage.calculateWeightedCoverage.
  cbn [DoubleCoverage.coreLogicFiles DoubleCoverage.infrastructureFiles].
  pose proof (double_fold_accumulate data
    {| DoubleCoverage.coreLogicSum := Double.of_Z 0;
       DoubleCoverage.infrastructureSum := Double.of_Z 0;
       DoubleCoverage.coreLogicCount := 0;
       DoubleCoverage.infrastructureCount := 0 |}) as H.
  cbn zeta in H. destruct H as (_ & _ & H3 & H4).
  rewrite H3, H4. now cbn.
Qed.

(** X24.  The two file counts do not depend on the order of the entries
    of the coverage summary, and every entry other than the aggregate
    'total' is counted in exactly one of the two classes.  The weighted
    score does depend on the order, because the percentages are added in
    doubles: four route files score 7.88 in one order and 7.87 with the
    last two exchanged. *)
Theorem weighted_coverage_order (data data' : list (string * FileCoverage)) :
  data ≡ₚ data' ->
  let weighted := DoubleCoverage.calculateWeightedCoverage data in
  let weighted' := DoubleCoverage.calculateWeightedCoverage data' in
  DoubleCoverage.coreLogicFiles weighted
  = DoubleCoverage.coreLogicFiles weighted'
  /\ DoubleCoverage.infrastructureFiles weighted
     = DoubleCoverage.infrastructureFiles weighted'
  /\ (DoubleCoverage.coreLogicFiles weighted
      + DoubleCoverage.infrastructureFiles weighted
      = length (List.filter
                  (fun entry => negb (String.eqb (fst entry) "total")) data))%nat
  /\ (DoubleCoverage.four_routes ≡ₚ DoubleCoverage.four_routes_exchanged
      /\ DoubleCoverage.weightedScore
           (DoubleCoverage.calculateWeightedCoverage DoubleCoverage.four_routes)
         = Double.of_Q (788 # 100)
      /\ DoubleCoverage.weightedScore
           (DoubleCoverage.calculateWeightedCoverage
              DoubleCoverage.four_routes_exchanged)
         = Double.of_Q (787 # 100)).
Proof.
  intros Hp. cbn zeta.
  destruct (class_entries_perm true _ _ Hp) as [_ Hl1].
  destruct (class_entries_perm false _ _ Hp) as [_ Hl2].
  destruct (double_class_counts data) as [-> ->],
           (double_class_counts data') as [-> ->].
  split; [exact Hl1|]. split; [exact Hl2|]. split.
  - unfold Spec.class_entries. clear.
    induction data as [|[p c] data IH]; cbn [List.filter length fst];
      [reflexivity|].
    destruct (String.eqb p "total"); cbn [negb andb]; [exact IH|].
    destruct (isCoreLogicFile p); cbn [Bool.eqb length]; lia.
  - split; [|split; vm_compute; reflexivity].
    unfold DoubleCoverage.four_routes, DoubleCoverage.four_routes_exchanged.
    do 2 apply perm_skip. apply perm_swap.
Qed.

End CoverageOrder.

Section CoverageOrderExamples.

Import Findings Js CodeReviewToolWeighted AnalyzerBase.

Lemma fallback_score_is_monotone_witness :
  exists q q',
    calculateWeightedTestScore (as_input (Samples.tests_finding 50 None)) = Num q
    /\ calculateWeightedTestScore (as_input (Samples.tests_finding 80 None))
       = Num q'
    /\ (0 <= q)%Q /\ (q <= q')%Q /\ (q' <= 100)%Q
    /\ ~ (70 <= q < 77)%Q.
Proof.
  apply (fallback_score_is_monotone
           (as_input (Samples.tests_finding 50 None))
           (as_input (Samples.tests_finding 80 None)) 50 80);
    first [exact I | reflexivity | discriminate].
Defined.

Lemma weighted_score_bounds_witness :
  exists ws,
    weightedScore (calculateWeightedCoverage Samples.coverage_90_50) = Some ws
    /\ (0 <= ws <= 100)%Q
    /\ (Spec.class_entries false Samples.coverage_90_50 = [] -> (ws <= 80)%Q)
    /\ (Spec.class_entries true Samples.coverage_90_50 = [] -> (ws <= 20)%Q).
Proof.
  apply (weighted_score_bounds Samples.coverage_90_50).
  intros path c q Hin. unfold Samples.coverage_90_50 in Hin.
  rewrite !elem_of_cons, elem_of_nil in Hin.
  destruct Hin as [E|[E|[E|[E|[]]]]]; inversion E; subst; cbn;
    intros [= <-]; split; discriminate.
Defined.

Lemma weighted_coverage_order_witness :
  DoubleCoverage.coreLogicFiles
    (DoubleCoverage.calculateWeightedCoverage Samples.coverage_90_50)
  = DoubleCoverage.coreLogicFiles
      (DoubleCoverage.calculateWeightedCoverage (rev Samples.coverage_90_50))
  /\ DoubleCoverage.infrastructureFiles
       (DoubleCoverage.calculateWeightedCoverage Samples.coverage_90_50)
     = DoubleCoverage.infrastructureFiles
         (DoubleCoverage.calculateWeightedCoverage (rev Samples.coverage_90_50))
  /\ (DoubleCoverage.coreLogicFiles
        (DoubleCoverage.calculateWeightedCoverage Samples.coverage_90_50)
      + DoubleCoverage.infrastructureFiles
          (DoubleCoverage.calculateWeightedCoverage Samples.coverage_90_50)
      = 3)%nat.
Proof.
  destruct (weighted_coverage_order Samples.coverage_90_50
              (rev Samples.coverage_90_50) (Permutation_rev _))
    as (H1 & H2 & H3 & _).
  split; [exact H1|]. split; [exact H2 | exact H3].
Defined.

End CoverageOrderExamples.

(** ** The custom-rules scan *)

Section CustomRulesScan.

Import Findings AnalyzerBase Scan.

Variable sourceFiles : list (string * option string).
Variable exec_all : string -> string -> option (list RegexMatch).
Lemma count_char_substring c n : forall s,
  (Js.count_char c (Js.substring_to n s) <= Js.count_char c s)%nat.
Proof.
  induction n as [|n IH]; intros [|d s]; cbn; try lia.
  specialize (IH s). lia.
Qed.

Lemma lineNumber_bounds content index :
  (1 <= lineNumber content index <= S (Js.count_char "010" content))%nat.
Proof.
  unfold lineNumber.
  pose proof (count_char_substring "010" index content). lia.
Qed.

Lemma fold_scan_None ruleList files :
  fold_left (scan_file exec_all ruleList) files None = None.
Proof. induction files as [|file files IH]; [reflexivity | exact IH]. Qed.

Lemma scan_fold ruleList files : forall found log found' log',
  (forall file, file ∈ files -> file ∈ sourceFiles) ->
  fold_left (scan_file exec_all ruleList) files (Some (found, log))
  = Some (found', log') ->
  files_read log' = files_read log ++ map fst files
  /\ (forall path, path ∈ scan_warnings log \/ (path, None) ∈ files ->
        path ∈ scan_warnings log')
  /\ (Forall (genuine sourceFiles ruleList) found ->
      Forall (genuine sourceFiles ruleList) found').
Proof.
  induction files as [|[path read] files IH]; intros found log found' log' Hsub.
  - cbn. intros [= <- <-]. rewrite app_nil_r. split; [reflexivity|].
    split; [|tauto]. intros p [H|H]; [exact H | inversion H].
  - cbn [fold_left]. unfold scan_file at 2. cbn [mbind option_bind].
    destruct (RuleEngine.getRulesForFile ruleList path) as [rulesForFile|] eqn:Er;
      cbn [mbind option_bind]; [|now rewrite fold_scan_None].
    assert (Hrest : forall file, file ∈ files -> file ∈ sourceFiles).
    { intros file Hf. apply Hsub. now right. }
    destruct read as [content|]; intros Hfold;
      destruct (IH _ _ _ _ Hrest Hfold) as (Hread & Hwarn & Hgen);
      cbn [files_read scan_warnings] in Hread, Hwarn.
    + split; [now rewrite Hread, <- app_assoc|].
      split.
      * intros p [H|H]; apply Hwarn.
        -- left. apply elem_of_app. now left.
        -- apply elem_of_cons in H as [H|H]; [discriminate | now right].
      * intros Hfound. apply Hgen. apply Forall_app. split; [exact Hfound|].
        apply List.Forall_forall. intros v Hv.
        apply in_flat_map in Hv as (per & Hper & Hv).
        apply in_map_iff in Hper as (rule & <- & Hrule).
        unfold violations_of_rule in Hv.
        destruct (exec_all _ content) as [ms|]; [|inversion Hv].
        cbn [fst] in Hv. apply in_map_iff in Hv as (m & <- & Hm).
        cbn [v_file v_rule v_severity v_line].
        apply list_elem_of_In in Hrule.
        destruct (RuleEngine_selected _ _ _ Er rule) as [Hin Happ];
          [exact Hrule|].
        exists content, rule. repeat split; try assumption.
        -- apply Hsub. left.
        -- apply lineNumber_bounds.
        -- apply lineNumber_bounds.
    + split; [now rewrite Hread, <- app_assoc|].
      split; [|exact Hgen].
      intros p [H|H]; apply Hwarn.
      * left. apply elem_of_app. now left.
      * apply elem_of_cons in H as [H|H]; [|now right].
        inversion H; subst. left. apply elem_of_app. right. left.
Qed.

(** The loop goes through when the rules of every file can be
    selected. *)
Lemma scan_returns ruleList files : forall acc,
  (forall file, file ∈ files ->
     is_Some (RuleEngine.getRulesForFile ruleList (fst file))) ->
  is_Some (fold_left (scan_file exec_all ruleList) files (Some acc)).
Proof.
  induction files as [|[path read] files IH]; intros [found log] Hsel;
    [cbn; eauto|].
  cbn [fold_left]. unfold scan_file at 2. cbn [mbind option_bind].
  destruct (Hsel (path, read)) as [rulesForFile Er]; [left|].
  cbn [fst] in Er. rewrite Er. cbn [mbind option_bind].
  destruct read as [content|]; apply IH; intros file Hf; apply Hsel;
    now right.
Qed.

(** X25.  When the source tree has been listed, the rules of every file
    can be selected, and the matches of every pattern in every file have
    been enumerated, the scan with a non-empty rule list returns a record
    marked as successful, whatever it finds: it attempts every source file
    once, in order; a file that cannot be read leaves a warning and does
    not stop the scan; the violation count is the number of details; and
    every violation names a rule of the list that applies to the file,
    with a line number within the file. *)
Theorem custom_rules_scan (ruleList : list RuleEngine.Rule) :
  ruleList <> [] ->
  (forall file, file ∈ sourceFiles ->
     is_Some (RuleEngine.getRulesForFile ruleList (fst file))) ->
  exists f log,
    checkCustomRules sourceFiles exec_all (Some {| rules := Some ruleList |})
    = Some (f, log)
    /\ success f = Some true
    /\ error f = None
    /\ files_read log = map fst sourceFiles
    /\ (forall path, (path, None) ∈ sourceFiles -> path ∈ scan_warnings log)
    /\ exists found,
         details f = Some found /\ violations f = Some (length found)
         /\ forall v, v ∈ found -> genuine sourceFiles ruleList v.
Proof.
  intros Hne Hsel. unfold checkCustomRules. cbn [rules].
  assert (Hsome : forall (A : Type) (a b : A),
            match ruleList with [] => a | _ :: _ => b end = b).
  { intros A a b. now destruct ruleList. }
  rewrite Hsome.
  destruct (scan_returns ruleList sourceFiles
              ([], {| files_read := []; scan_warnings := [] |}) Hsel)
    as [[found log'] Ef].
  rewrite Ef. cbn [mbind option_bind].
  eexists. exists log'. split; [reflexivity|].
  destruct (scan_fold ruleList sourceFiles _ _ _ _ (fun _ H => H) Ef)
    as (Hread & Hwarn & Hgen).
  cbn [success error details violations]. split; [reflexivity|].
  split; [reflexivity|].
  split; [exact Hread|]. split; [intros path H; apply Hwarn; now right|].
  exists found. split; [reflexivity|]. split; [reflexivity|].
  intros v Hv. assert (Hall : Forall (genuine sourceFiles ruleList) found)
    by (apply Hgen; constructor).
  rewrite Forall_forall in Hall. exact (Hall v Hv).
Qed.

End CustomRulesScan.

Section CustomRulesScanExamples.

Import Findings AnalyzerBase.

Lemma custom_rules_scan_witness :
  exists f log,
    checkCustomRules Scenarios.sources Scenarios.find_eval
      (Some {| rules := Some [ Samples.no_eval ] |}) = Some (f, log)
    /\ success f = Some true
    /\ violations f = Some 2%nat
    /\ files_read log = [ "src/app.ts"; "src/broken.ts" ]%string
    /\ "src/broken.ts"%string ∈ scan_warnings log
    /\ forall v, v ∈ default [] (details f) ->
         Scan.genuine Scenarios.sources [ Samples.no_eval ] v.
Proof.
  destruct (custom_rules_scan Scenarios.sources Scenarios.find_eval
              [ Samples.no_eval ] ltac:(discriminate))
    as (f & log & Hc & Hs & _ & Hread & Hwarn & found & Hd & Hv & Hgen).
  { intros file _. cbn. eauto. }
  exists f, log. split; [exact Hc|]. split; [exact Hs|].
  assert (Hf : checkCustomRules Scenarios.sources Scenarios.find_eval
                 (Some {| rules := Some [ Samples.no_eval ] |})
               = Some (f, log)) by exact Hc.
  vm_compute in Hf. injection Hf as <- <-.
  split; [reflexivity|]. split; [reflexivity|]. split.
  - apply Hwarn. unfold Scenarios.sources. rewrite !elem_of_cons. tauto.
  - intros v Hin. apply Hgen. cbn [details] in Hd, Hin.
    inversion Hd; subst. exact Hin.
Defined.

End CustomRulesScanExamples.

(** ** How the results of the analyzers are scored *)

Section ResultsScored.

Import Findings Js CodeReviewTool AnalyzerResults.

Local Open Scope Q_scope.

Lemma contributions_agree (fs fs' : gmap string Finding) ws :
  (forall entry, entry ∈ ws ->
     Spec.contribution fs entry = Spec.contribution fs' entry) ->
  map (Spec.contribution fs) ws = map (Spec.contribution fs') ws.
Proof.
  induction ws as [|entry ws IH]; intros H; cbn [map]; [reflexivity|].
  rewrite (H entry) by left. f_equal. apply IH.
  intros e He. apply H. now right.
Qed.

(** X26.  [checkESLint] marks its result as failed as soon as there is
    one error, and [calculateScore] skips failed results: a lint run
    with errors counts for the overall score and the grade like a lint
    run that did not happen, however many errors and warnings it found.
    The penalty of two points per error only shows in the breakdown. *)
Theorem lint_errors_forfeit_the_weight
    (fs : gmap string Finding) (errorsBefore totalWarnings : nat) :
  let result := eslintResult (S errorsBefore) totalWarnings in
  let score := calculateScore (<["eslint" := result]> fs) in
  overall score = overall (calculateScore (delete "eslint" fs))
  /\ grade score = grade (calculateScore (delete "eslint" fs))
  /\ Spec.contribution (<["eslint" := result]> fs) ("eslint"%string, 12%Z)
     = Num 0
  /\ entry_score <$> (breakdown score !! "eslint"%string)
     = Some (getAnalyzerScore "eslint" result).
Proof.
  cbn zeta.
  set (result := eslintResult (S errorsBefore) totalWarnings).
  assert (Hzero : forall w,
            Spec.contribution (<["eslint" := result]> fs) ("eslint"%string, w)
            = Num 0).
  { intros w. unfold Spec.contribution, counted. cbn [fst].
    now rewrite lookup_insert_eq. }
  assert (Hoverall :
    overall (calculateScore (<["eslint" := result]> fs))
    = overall (calculateScore (delete "eslint" fs))).
  { rewrite !overall_closed_form. do 4 f_equal.
    apply contributions_agree. intros [a w] _.
    destruct (decide (a = "eslint"%string)) as [->|Hne].
    - rewrite Hzero. unfold Spec.contribution, counted. cbn [fst].
      now rewrite lookup_delete_eq.
    - unfold Spec.contribution, Spec.weighted_subscore, counted. cbn [fst snd].
      rewrite lookup_insert_ne, lookup_delete_ne by congruence. reflexivity. }
  split; [exact Hoverall|]. split.
  - unfold calculateScore.
    destruct (fold_left (tally (<["eslint" := result]> fs)) weights _)
      as [t1 m1] eqn:E1.
    destruct (fold_left (tally (delete "eslint" fs)) weights _)
      as [t2 m2] eqn:E2.
    cbn [grade]. f_equal.
    unfold calculateScore in Hoverall. rewrite E1, E2 in Hoverall.
    exact Hoverall.
  - split; [apply Hzero|].
    rewrite breakdown_lookup, lookup_insert_eq. reflexivity.
Qed.

(** X27.  The complexity sub-score is never 0: [analyzeComplexity]
    reports the score 0 when (almost) every function is too long, and
    the scoring function reads a score of 0 as a missing score, which
    counts as 100. *)
Theorem complexity_score_is_never_zero (totalFunctions complexFunctions : nat) :
  exists z,
    getAnalyzerScore "complexity"
      (complexityResult totalFunctions complexFunctions)
    = Num (inject_Z z)
    /\ (1 <= z <= 100)%Z
    /\ ((0 < totalFunctions <= complexFunctions)%nat -> z = 100%Z).
Proof.
  unfold getAnalyzerScore. cbn [String.eqb Ascii.eqb Bool.eqb score complexityResult].
  set (r := round_half_up (complexityScore totalFunctions complexFunctions)).
  assert (Hr : (0 <= r <= 100)%Z).
  { apply round_half_up_bounds; unfold complexityScore;
      change (inject_Z 0) with 0; change (inject_Z 100) with 100.
    - destruct (0 <? totalFunctions)%nat; [apply Q.le_max_l | lra].
    - destruct (Nat.ltb_spec 0 totalFunctions) as [Ht|Ht]; [|lra].
      apply Q.max_lub; [lra|].
      assert (0 <= inject_Z (Z.of_nat complexFunctions)
                   / inject_Z (Z.of_nat totalFunctions)).
      { apply Qle_shift_div_l.
        - change 0 with (inject_Z 0). rewrite <- Zlt_Qlt. lia.
        - rewrite Qmult_0_l. apply count_nonneg. }
      lra. }
  assert (Hall : (0 < totalFunctions <= complexFunctions)%nat -> r = 0%Z).
  { intros [Ht Hc]. unfold r, complexityScore.
    rewrite (proj2 (Nat.ltb_lt 0 totalFunctions) Ht).
    assert (H1 : 1 <= inject_Z (Z.of_nat complexFunctions)
                      / inject_Z (Z.of_nat totalFunctions)).
    { apply Qle_shift_div_l.
      - change 0 with (inject_Z 0). rewrite <- Zlt_Qlt. lia.
      - rewrite Qmult_1_l, <- Zle_Qle. lia. }
    rewrite (round_half_up_proper _ (inject_Z 0)).
    - apply round_half_up_Z.
    - change (inject_Z 0) with 0. apply Q.max_l. lra. }
  destruct (Qeq_bool (inject_Z r) 0) eqn:E.
  - exists 100%Z. split; [reflexivity|]. split; [lia | reflexivity].
  - exists r. split; [reflexivity|].
    apply Qeq_bool_neq in E.
    assert (r <> 0%Z) by (intros ->; now apply E).
    split; [lia|]. intros H0. exfalso. auto.
Qed.

(** X28.  The test priority and the coverage class of a file go by the
    same file-name patterns, with one difference: an infrastructure file
    whose content exports a function gets the priority HIGH, although
    its coverage is weighted as infrastructure. *)
Theorem priority_and_coverage_class (filePath content : string) :
  (AnalyzerBase.isCoreLogicFile filePath = false ->
     getTestPriority filePath content
     = if includes content "export" && includes content "function"
       then HIGH else LOW)
  /\ (getTestPriority filePath content = LOW ->
        AnalyzerBase.isCoreLogicFile filePath = false)
  /\ (getTestPriority filePath content = MEDIUM ->
        AnalyzerBase.isCoreLogicFile filePath = true).
Proof.
  unfold getTestPriority, AnalyzerBase.isCoreLogicFile.
  repeat match goal with
  | |- context [includes ?a ?b] => destruct (includes a b)
  end; cbn; repeat split; intros; congruence.
Qed.

End ResultsScored.

(** ** The overall score of the revision with weighted test scoring *)

Section WeightedOverall.

Import Findings Js CodeReviewTool WeightedRun.

Lemma weighted_iteration_findings analyzer st name :
  findings (WeightedRun.iteration analyzer st name)
  = match switch name WeightedRun.cases with
    | Some (key, method) =>
        match method analyzer with
        | Returns f => <[key := f]> (findings st)
        | Throws message => <[name := failureRecord message]> (findings st)
        end
    | None => findings st
    end.
Proof.
  unfold WeightedRun.iteration, WeightedRun.attempt, try_catch.
  destruct (switch name WeightedRun.cases) as [[key method]|]; [|reflexivity].
  destruct (method analyzer); reflexivity.
Qed.

Ltac names_of_switch name :=
  unfold WeightedRun.cases; cbn [switch];
  repeat match goal with
  | |- context [String.eqb name ?n] =>
      destruct (String.eqb_spec name n) as [->|?]
  end.

Lemma weighted_iteration_failures analyzer st name :
  only_failures (findings st) ->
  only_failures (findings (WeightedRun.iteration analyzer st name)).
Proof.
  intros H. rewrite weighted_iteration_findings.
  names_of_switch name; try exact H;
    match goal with |- context [?m analyzer] => destruct (m analyzer) end;
    intros g;
    first [ rewrite lookup_insert_ne by discriminate; apply H
          | rewrite lookup_insert_eq; intros [= <-]; eauto ].
Qed.

Lemma weighted_iteration_agrees a b st1 st2 name :
  same_but_tests a b ->
  (forall k, k ∉ test_keys -> findings st1 !! k = findings st2 !! k) ->
  forall k, k ∉ test_keys ->
    findings (WeightedRun.iteration a st1 name) !! k
    = findings (WeightedRun.iteration b st2 name) !! k.
Proof.
  intros (E1 & E2 & E3 & E4 & E5 & E6 & E7 & E8 & E9) Hagree k Hk.
  rewrite !weighted_iteration_findings.
  assert (Hins : forall key (v : Finding),
            <[key := v]> (findings st1) !! k = <[key := v]> (findings st2) !! k).
  { intros key v. destruct (decide (key = k)) as [->|Hne].
    - now rewrite !lookup_insert_eq.
    - rewrite !lookup_insert_ne by exact Hne. now apply Hagree. }
  assert (Htest : forall key key' (v v' : Finding),
            key ∈ test_keys -> key' ∈ test_keys ->
            <[key := v]> (findings st1) !! k
            = <[key' := v']> (findings st2) !! k).
  { intros key key' v v' Hkey Hkey'.
    rewrite !lookup_insert_ne by (intros ->; contradiction).
    now apply Hagree. }
  names_of_switch name; try (now apply Hagree);
    rewrite <- ?E1, <- ?E2, <- ?E3, <- ?E4, <- ?E5, <- ?E6, <- ?E7, <- ?E8,
      <- ?E9;
    repeat match goal with
    | |- context [?m a] => destruct (m a)
    | |- context [?m b] => destruct (m b)
    end;
    first [ apply Hins
          | apply Htest; unfold test_keys; rewrite !elem_of_cons; tauto ].
Qed.

Lemma weighted_runs_agree a b names : forall st1 st2,
  same_but_tests a b ->
  (forall k, k ∉ test_keys -> findings st1 !! k = findings st2 !! k) ->
  only_failures (findings st1) -> only_failures (findings st2) ->
  let fs1 := findings (fold_left (WeightedRun.iteration a) names st1) in
  let fs2 := findings (fold_left (WeightedRun.iteration b) names st2) in
  (forall k, k ∉ test_keys -> fs1 !! k = fs2 !! k)
  /\ only_failures fs1 /\ only_failures fs2.
Proof.
  induction names as [|name names IH]; intros st1 st2 Hab Hagree H1 H2;
    cbn zeta; [auto|].
  cbn [fold_left]. apply IH; [exact Hab | | |].
  - now apply weighted_iteration_agrees.
  - now apply weighted_iteration_failures.
  - now apply weighted_iteration_failures.
Qed.

Lemma weighted_tally_agrees (fs1 fs2 : gmap string Finding) ws :
  (forall k, k ∉ test_keys -> fs1 !! k = fs2 !! k) ->
  only_failures fs1 -> only_failures fs2 ->
  Forall (fun entry : string * Z =>
            fst entry = "test-cases"%string \/ fst entry ∉ test_keys) ws ->
  forall acc,
    fold_left (WeightedRun.tally fs1) ws acc
    = fold_left (WeightedRun.tally fs2) ws acc.
Proof.
  intros Hagree H1 H2. induction 1 as [|[k w] ws Hk _ IH]; intros acc;
    cbn [fold_left]; [reflexivity|].
  rewrite IH. f_equal. destruct acc as [total max]. unfold WeightedRun.tally.
  cbn [fst] in Hk. destruct Hk as [->|Hk].
  - assert (Hf : forall fs : gmap string Finding, only_failures fs ->
              match fs !! "test-cases"%string with
              | Some f =>
                  if negb (bool_decide (success f = Some false))
                  then (add total
                          (mul (div (CodeReviewToolWeighted.getAnalyzerScore
                                       "test-cases" f) (Num 100))
                               (Num (inject_Z w))),
                        add max (Num (inject_Z w)))
                  else (total, add max (Num (inject_Z w)))
              | None => (total, add max (Num (inject_Z w)))
              end = (total, add max (Num (inject_Z w)))).
    { intros fs Hfs. destruct (fs !! "test-cases"%string) as [f|] eqn:E;
        [|reflexivity].
      destruct (Hfs f E) as [message ->]. reflexivity. }
    now rewrite (Hf fs1 H1), (Hf fs2 H2).
  - now rewrite (Hagree k Hk).
Qed.

(** X29.  In the revision with weighted test scoring the weight table
    has no entry for 'tests', and the result of 'test-cases' is stored
    under a key the table does not name: whatever [checkTests] and
    [checkTestCases] return or throw, the overall score and the grade of
    a run are the same. *)
Theorem test_results_never_count (a b : AnalyzerRun) (names : list string) :
  same_but_tests a b ->
  let score_a :=
    WeightedRun.calculateScore (findings (WeightedRun.runAnalyzers a names)) in
  let score_b :=
    WeightedRun.calculateScore (findings (WeightedRun.runAnalyzers b names)) in
  overall score_a = overall score_b /\ grade score_a = grade score_b.
Proof.
  intros Hab. cbn zeta. unfold WeightedRun.runAnalyzers.
  destruct (weighted_runs_agree a b names
              {| findings := ∅; executed := []; unknown := [] |}
              {| findings := ∅; executed := []; unknown := [] |} Hab)
    as (Hagree & H1 & H2); try reflexivity;
    try (intros f; cbn [findings]; rewrite lookup_empty; discriminate).
  cbn zeta in Hagree, H1, H2.
  unfold WeightedRun.calculateScore.
  rewrite (weighted_tally_agrees _ _ WeightedRun.weights Hagree H1 H2).
  - destruct (fold_left _ WeightedRun.weights _) as [total max].
    split; reflexivity.
  - apply (bool_decide_unpack _). vm_compute. reflexivity.
Qed.

End WeightedOverall.

Section WeightedOverallExamples.

Import Findings CodeReviewTool.

Lemma test_results_never_count_witness :
  let score_a :=
    WeightedRun.calculateScore
      (findings (WeightedRun.runAnalyzers Samples.security_down
                   Scenarios.default_names)) in
  let score_b :=
    WeightedRun.calculateScore
      (findings (WeightedRun.runAnalyzers Scenarios.tests_differ
                   Scenarios.default_names)) in
  overall score_a = overall score_b /\ grade score_a = grade score_b.
Proof.
  apply (test_results_never_count Samples.security_down Scenarios.tests_differ
           Scenarios.default_names).
  repeat split.
Defined.

End WeightedOverallExamples.
